(* ===== verification/_CoqProject ===== *)
-Q . S2P
Prelude.v
JsString.v
JsValue.v
JsArray.v
ObjectId.v
Validation.v
Models.v
Store.v
ProfileRoutes.v
Spec.v
Concurrency.v
Express.v
Github.v
Alert.v
Client.v
Links.v
PostPage.v
Server.v
ReduxStore.v
