(* ===== verification/Prelude.v ===== *)
(** * DEVCONNECTOR: a verification development of the profile API and its client

    The repository is an Express/MongoDB social-profile application with
    a React/Redux client.  Its core is the router
    [src/routes/api/profile.js]: nine handlers that read a request, run
    the [express-validator] gate, assemble or edit a Profile document
    and reach MongoDB through awaited Mongoose calls, and a tenth that
    proxies the GitHub API through a callback.  The client files under
    [src/client/src] raise timed alerts, submit posts and comments,
    render a post with its comments and load it through effects, and
    link the dashboard actions; [client/src/store.js] builds the Redux
    store with its middleware and [server.js] starts the server.  This
    development is a shallow
    embedding of those parts, of the JavaScript built-ins they rely on
    and of the store they talk to.

    ** Files, in dependency order

    - [Prelude] (this file): the hint databases [devc] and [devc_rw],
      the tactics [invc], [case_if] and [by_decide] (a decidable
      proposition on concrete data, by evaluation), and lemmas on lists:
      the first-match operations [update_first] and [delete_first]
      behind [findOneAndUpdate] / [findOneAndDelete], and filtering by
      a unique key.
    - [JsString]: [String.prototype.split] (one-character separator),
      [Array.prototype.join] and [String.prototype.trim] (line 69 of
      the router).
    - [JsValue]: the JSON values of a request body, JavaScript
      truthiness (the [if (v)] tests of lines 62-78) and the string
      conversion [express-validator] applies before [isEmpty].
    - [JsArray]: [indexOf], [splice] (ECMA-262, a negative start counts
      from the end) and [unshift] (lines 185, 204-206, 251, 270-272).
    - [ObjectId]: identifiers as [N]; [toHexString] (24 hex digits, the
      low 96 bits), its inverse and the cast of a path parameter.
    - [Validation]: the [check(f, msg).not().isEmpty()] chains and
      [validationResult] (lines 36, 39-42, 159-167, 225-233).
    - [Models]: the User, Post and Profile documents (the schemas are
      not under [src/]: modelled from the data model of the
      specification) and the [profileFields] object (lines 59-78).
    - [Store]: the store as three collections in natural order with an
      ObjectId generator and a connection flag; the queries the
      handlers await; the handler monad [prog] (return, throw, await a
      query) with [bind], [try_catch] and the runner [run]; the
      invariant [store_wf] and its preservation by every write.
    - [ProfileRoutes]: one definition per handler of lines 14-281, each
      a [prog Reply] awaiting the same queries in the same order as the
      source; [route] dispatches a request with the [auth] middleware.
    - [Spec]: the directory the router promises (a finite map from
      users to profiles, with the id counter) and the refinement of it
      by [route].
    - [Concurrency]: handlers interleaved at their awaits, as a step
      relation on the store and the running handlers.
    - [Express]: the response object ([res.status], [res.json] and the
      error of a second send).
    - [Github]: [GET /github/:username] (lines 286-311), its options,
      its callback and the upstream as a function of the request.
    - [Alert]: [client/src/actions/alert.js], the alert reducer, the
      timers and the clock.
    - [Client]: [PostForm.js] and [CommentForm.js] (one [FormSpec]
      record each, with its law), [Post.js] and [CommentItem.js].
    - [Links]: [resolvePathname] and [createLocation] behind
      [<Link to>], the targets of [DashboardActions.js] and of the
      comment item's profile link.
    - [PostPage]: the [prop-types] declarations of [Post.js],
      [CommentItem.js] and the two forms against the props the page
      passes, the comment items as rendered (link, avatar, name, text,
      relative date, Delete button), and the two [useEffect] hooks of
      [Post.js] over successive renders.
    - [Server]: [server.js], the port, the [listen] callback and the
      application without routes.
    - [ReduxStore]: [store.js], [redux-thunk] and [redux-logger] in
      the order of the middleware array, over the alert reducer.

    ** Correspondence with the code

    A handler's outcome is [(s', inr reply)] when it sends [reply] and
    [(s', inl err)] when its promise rejects with [err]; Express sends
    nothing then.  A [try { } catch] block is [try_catch]; an [await] of
    a rejected query throws at that point.  A store whose connection
    flag is down rejects every query.  Sub-document edits
    ([profile.experience.unshift] or [splice], then [profile.save()])
    are a read ([QFindOne]) followed by a write of the edited array
    ([QSave]), as Mongoose writes the modified path only.  The Profile
    schema is taken with Mongoose's default options, so documents carry
    the version key [__v] (0 on creation): a save that sets a whole
    array filters on the version the document was read with, fails
    with a [VersionError] when no stored document has it, and
    increments it in the store and on the saved document;
    [findOneAndUpdate] leaves it alone.  The GitHub
    callback runs outside the handler's [try]: an exception there
    escapes ([Crashed]).  Client events (typing, submitting, time
    passing) are explicit steps on explicit state.

    ** Theorems

    - The invariant (one profile per user, distinct ids, sub-document
      ids distinct and below the counter) holds after every request
      run alone ([route_preserves_wf]), and [route] refines the
      directory specification ([route_refines]).
    - Interleaved at their awaits, two first [POST /] create two
      profiles for one user; of two [PUT /experience] that read the
      same version, the second is refused by the version key and
      answers 500, so no entry is lost silently.
    - [POST /]: upsert; [skills] stored as trimmed comma-separated
      pieces; the updated document, field by field (top-level fields
      merged, [social] replaced, arrays and version kept); the
      validation errors; no reply at all on a store error (the [catch]
      calls an unbound [json]) or on a non-string [skills].
    - [DELETE /]: the cascade removes exactly the caller's posts,
      profile and user.
    - Experience and education: insertion at the head under a fresh id,
      removal of exactly the entry named by its hex id, removal of the
      LAST entry when the id is unknown ([indexOf] gives [-1]).
    - The read routes' replies; [GET /] answers without a token.
    - GitHub: the reply on a 200; after the 400 of any other status,
      and on a transport error, the callback throws; at most one
      response; the query requested; query parameters injected through
      the username.
    - Client: an alert is shown exactly until its timeout, the alerts
      shown keep distinct ids and pending timers; the forms
      never dispatch an empty text and dispatch each text once; the
      Delete button only on one's own comments; a visitor without a
      session cannot render a commented post.
    - Client, continued: the comment items' [postId] is a string where
      [number] is declared and [Post] misses its required [profile]
      until one is loaded; [getPost] runs once per change of the
      route's id and [getProfileById] again on every new post object;
      the dashboard's relative links leave [/dashboard/] for paths no
      route serves.
    - Composition: the store with its middleware is the reducer folded
      over the plain actions the thunks dispatch, each logged once.
    - [server.js]: the port chosen, the dead [ERROR] branch of the
      [listen] callback, and 404 for every request.
    - Equivalence: the delete routes' [indexOf]/[splice] removal is
      the reference removal by id exactly when the id is in the list;
      the built-ins' round trips.

    ** Bounds

    Identifiers are unbounded naturals ([N]) issued by a counter; the
    hex form keeps the low 96 bits, as an ObjectId has 12 bytes, so the
    removal-by-id theorems assume the counter is at most [2^96]: below
    that the hex form is injective ([ObjectId.to_hex_inj]).  The
    [ObjectId] file models the [bson] package (not under [src/]).  Time in
    [Alert] is in milliseconds, unbounded.  No definition uses fuel:
    every recursion is structural (the thunk actions of [ReduxStore]
    by nested recursion on their body), and a schedule of
    [Concurrency] is a finite list of steps; no interleaving of
    handlers runs forever, as each resumed handler is a strict part of
    the previous one.

    ** Not modelled

    The markup of the React components beyond the data listed above
    (the two forms' textarea and button only bind [text] and
    [onSubmit]); [moment(date).fromNow()], a parameter of the comment
    item view; the devtools extension of [store.js] (absent, it is the
    identity) and the slices of the root reducer other than the alerts
    (not under [src/]); React's de-duplication of repeated prop-type
    messages; URI decoding in [createLocation] and [encodeURI] of the
    404 message; the [auth] middleware's token check
    ([middleware/auth.js] is not in the repository: modelled by its
    outcome, a user id or a 401 reply); the
    alert and auth reducers (not under [src/]: modelled as the code
    base's conventional ones); Mongoose schema casting, and the
    version checks of a save that sets no array (the routes make
    none); [JSON.parse] (a parameter of the GitHub theorems). *)

From stdpp Require Export base list strings gmap.
From Stdlib Require Export ZArith.

(** ** Scope, hint database and tactics shared by the development *)

Declare Scope devc_scope.
Delimit Scope devc_scope with devc.

Create HintDb devc.
Create Rewrite HintDb devc_rw.

Ltac invc H := inversion H; subst; clear H.

(** [case_if] splits on the first boolean or [decide] test of the goal. *)
Ltac case_if :=
  match goal with
  | |- context [if ?b then _ else _] => destruct b eqn:?
  end.

(** [by_decide] proves a decidable proposition about concrete data by
    evaluating its decision procedure. *)
Ltac by_decide := apply (bool_decide_unpack _); vm_compute; exact I.

(** ** First-match operations on lists

    A MongoDB collection is read in its natural order, and the
    single-document operations ([findOne], [findOneAndUpdate],
    [findOneAndDelete]) act on the first document matching the
    filter.  These are the generic list operations behind them. *)

Section FirstMatch.
Context {A : Type} (f : A -> bool).

Fixpoint update_first (g : A -> A) (l : list A) : list A :=
  match l with
  | [] => []
  | x :: l' => if f x then g x :: l' else x :: update_first g l'
  end.

Fixpoint delete_first (l : list A) : list A :=
  match l with
  | [] => []
  | x :: l' => if f x then l' else x :: delete_first l'
  end.

Lemma update_first_none g l :
  List.find f l = None -> update_first g l = l.
Proof.
  induction l as [|x l IH]; simpl; [done|].
  destruct (f x); [discriminate|]. intros H. by rewrite IH.
Qed.

Lemma delete_first_none l :
  List.find f l = None -> delete_first l = l.
Proof.
  induction l as [|x l IH]; simpl; [done|].
  destruct (f x); [discriminate|]. intros H. by rewrite IH.
Qed.

Lemma length_update_first g l : length (update_first g l) = length l.
Proof. induction l as [|x l IH]; simpl; [done|]. destruct (f x); simpl; lia. Qed.

Lemma find_Some_split l x :
  List.find f l = Some x ->
  exists l1 l2, l = l1 ++ x :: l2 /\ f x = true /\ List.find f l1 = None.
Proof.
  induction l as [|y l IH]; simpl; [discriminate|].
  destruct (f y) eqn:Hy.
  - intros [= <-]. by exists [], l.
  - intros H. destruct (IH H) as (l1 & l2 & -> & Hx & Hn).
    exists (y :: l1), l2. simpl. by rewrite Hy.
Qed.

Lemma update_first_app l1 x l2 g :
  List.find f l1 = None -> f x = true ->
  update_first g (l1 ++ x :: l2) = l1 ++ g x :: l2.
Proof.
  intros Hn Hx. induction l1 as [|y l1 IH]; simpl in *.
  - by rewrite Hx.
  - destruct (f y); [discriminate|]. by rewrite IH.
Qed.

Lemma delete_first_app l1 x l2 :
  List.find f l1 = None -> f x = true ->
  delete_first (l1 ++ x :: l2) = l1 ++ l2.
Proof.
  intros Hn Hx. induction l1 as [|y l1 IH]; simpl in *.
  - by rewrite Hx.
  - destruct (f y); [discriminate|]. by rewrite IH.
Qed.

Lemma find_none_filter l :
  List.find f l = None <-> filter (fun x => f x = true) l = [].
Proof.
  induction l as [|x l IH]; simpl; [done|].
  rewrite filter_cons. destruct (f x); [split; discriminate|]. done.
Qed.

Lemma elem_of_delete_first x l : x ∈ delete_first l -> x ∈ l.
Proof.
  induction l as [|y l IH]; simpl; [done|].
  destruct (f y); rewrite ?elem_of_cons; naive_solver.
Qed.

Lemma elem_of_update_first g x l :
  x ∈ update_first g l -> x ∈ l \/ exists y, y ∈ l /\ f y = true /\ x = g y.
Proof.
  induction l as [|y l IH]; cbn [update_first];
    [intros Hx; by apply not_elem_of_nil in Hx|].
  destruct (f y) eqn:Hy; intros Hx; apply elem_of_cons in Hx as [->|Hx].
  - right. exists y. split; [apply elem_of_cons; by left|done].
  - left. apply elem_of_cons. by right.
  - left. apply elem_of_cons. by left.
  - destruct (IH Hx) as [Hin|(z & Hz & Hfz & ->)].
    + left. apply elem_of_cons. by right.
    + right. exists z. split; [apply elem_of_cons; by right|done].
Qed.

Lemma map_update_first {B} (h : A -> B) g l :
  (forall y, f y = true -> h (g y) = h y) -> map h (update_first g l) = map h l.
Proof.
  intros Hg. induction l as [|y l IH]; simpl; [done|].
  destruct (f y) eqn:Hy; simpl; [by rewrite Hg|by rewrite IH].
Qed.

Lemma NoDup_map_delete_first {B} (h : A -> B) l :
  NoDup (map h l) -> NoDup (map h (delete_first l)).
Proof.
  induction l as [|y l IH]; simpl; [done|].
  rewrite NoDup_cons. intros [Hy Hl]. destruct (f y); [done|].
  simpl. rewrite NoDup_cons. split; [|by apply IH].
  intros Hin. apply Hy. apply list_elem_of_fmap in Hin as (z & -> & Hz).
  apply list_elem_of_fmap. exists z. split; [done|]. by apply elem_of_delete_first.
Qed.

Lemma find_app_none l1 l2 :
  List.find f l1 = None -> List.find f (l1 ++ l2) = List.find f l2.
Proof.
  induction l1 as [|y l1 IH]; simpl; [done|]. destruct (f y); [discriminate|done].
Qed.

(** Updating the first match of [f] with [g] that keeps [f] true: the
    first match is now the updated element. *)
Lemma find_update_first g l x :
  List.find f l = Some x -> f (g x) = true ->
  List.find f (update_first g l) = Some (g x).
Proof.
  intros Hx Hg. destruct (find_Some_split l x Hx) as (l1 & l2 & -> & Hfx & Hn).
  rewrite update_first_app by done. rewrite find_app_none by done. simpl. by rewrite Hg.
Qed.

Lemma find_app l1 l2 :
  List.find f (l1 ++ l2) = match List.find f l1 with Some x => Some x | None => List.find f l2 end.
Proof. induction l1 as [|y l1 IH]; simpl; [done|]. by destruct (f y). Qed.

Lemma find_none_forall l :
  (forall y, y ∈ l -> f y = false) -> List.find f l = None.
Proof.
  induction l as [|y l IH]; intros Hl; simpl; [done|].
  rewrite (Hl y) by (apply elem_of_cons; by left).
  apply IH. intros z Hz. apply Hl, elem_of_cons. by right.
Qed.
End FirstMatch.

(** ** Sublists *)

Lemma sublist_map {A B} (f : A -> B) (l1 l2 : list A) :
  l1 `sublist_of` l2 -> map f l1 `sublist_of` map f l2.
Proof. induction 1; simpl; by constructor. Qed.

Lemma Forall_sublist' {A} (P : A -> Prop) (l1 l2 : list A) :
  l1 `sublist_of` l2 -> Forall P l2 -> Forall P l1.
Proof.
  rewrite !Forall_forall. intros Hs H x Hx. apply H. by eapply elem_of_sublist.
Qed.

Lemma NoDup_map_sublist {A B} (f : A -> B) (l1 l2 : list A) :
  l1 `sublist_of` l2 -> NoDup (map f l2) -> NoDup (map f l1).
Proof. intros Hs Hn. eapply sublist_NoDup; [exact Hn|]. by apply sublist_map. Qed.

Lemma filter_none {A} (P : A -> Prop) `{!forall x, Decision (P x)} (l : list A) :
  (forall z, z ∈ l -> ~ P z) -> filter P l = [].
Proof.
  induction l as [|y l IH]; intros Hl; [done|]. rewrite filter_cons, decide_False.
  - apply IH. intros z Hz. apply Hl, elem_of_cons. by right.
  - apply Hl, elem_of_cons. by left.
Qed.

Lemma filter_every {A} (P : A -> Prop) `{!forall x, Decision (P x)} (l : list A) :
  (forall z, z ∈ l -> P z) -> filter P l = l.
Proof.
  induction l as [|y l IH]; intros Hl; [done|]. rewrite filter_cons, decide_True.
  - f_equal. apply IH. intros z Hz. apply Hl, elem_of_cons. by right.
  - apply Hl, elem_of_cons. by left.
Qed.

(** In a list whose keys are distinct, the elements with a given key
    are at most one. *)
Lemma filter_key_unique {A B} `{EqDecision B} (k : A -> B) (l : list A) x :
  NoDup (map k l) -> x ∈ l -> filter (fun y => k y = k x) l = [x].
Proof.
  induction l as [|y l IH]; simpl; [intros _ Hx; by apply not_elem_of_nil in Hx|].
  rewrite NoDup_cons. intros [Hy Hl] Hx. rewrite filter_cons.
  apply elem_of_cons in Hx as [->|Hx].
  - rewrite decide_True by done. f_equal.
    apply filter_none. intros z Hz Hkz. apply Hy.
    apply list_elem_of_fmap. by exists z.
  - rewrite decide_False; [by apply IH|].
    intros Hk. apply Hy. apply list_elem_of_fmap. exists x. by split.
Qed.

(** Deleting the first element of key [u] from a list of distinct keys
    removes exactly the elements of key [u]. *)
Lemma elem_of_delete_first_key {A} (k : A -> N) (u : N) (l : list A) x :
  NoDup (map k l) ->
  x ∈ delete_first (fun y => N.eqb (k y) u) l <-> x ∈ l /\ k x <> u.
Proof.
  induction l as [|y l IH]; simpl; intros Hnd.
  { split; [intros H; by apply not_elem_of_nil in H|intros [H _]; by apply not_elem_of_nil in H]. }
  apply NoDup_cons in Hnd as [Hy Hl].
  destruct (N.eqb_spec (k y) u) as [Hyu|Hyu]; rewrite !elem_of_cons.
  - split; [intros Hx; split; [by right|]|].
    + intros Hkx. apply Hy. apply list_elem_of_fmap. exists x. split; [congruence|done].
    + intros [[->|Hx] Hkx]; [done|exact Hx].
  - rewrite IH by done. split.
    + intros [->|[Hx Hkx]]; [by split; [left|]|by split; [right|]].
    + intros [[->|Hx] Hkx]; [by left|by right].
Qed.

(** Removing position [n] of a list of distinct keys removes exactly the
    element with the key found there. *)
Lemma delete_key_filter {A B} `{EqDecision B} (k : A -> B) (l : list A) n x :
  NoDup (map k l) -> l !! n = Some x -> delete n l = filter (fun y => k y <> k x) l.
Proof.
  revert n. induction l as [|y l IH]; intros n Hnd Hn; [done|].
  apply NoDup_cons in Hnd as [Hy Hl]. rewrite filter_cons. destruct n as [|n]; simpl in *.
  - injection Hn as ->. rewrite decide_False by (intros H; by apply H).
    symmetry. apply filter_every.
    intros z Hz Hkz. apply Hy, list_elem_of_fmap. by exists z.
  - rewrite decide_True; [by rewrite (IH n)|]. intros Hkx. apply Hy, list_elem_of_fmap.
    exists x. split; [done|]. by eapply list_elem_of_lookup_2.
Qed.

#[export] Hint Resolve update_first_none delete_first_none : devc.
#[export] Hint Rewrite @length_update_first : devc_rw.
