(* ===== verification/JsString.v ===== *)
(** * JsString: the JavaScript string built-ins the profile routes call

    [routes/api/profile.js] normalises the [skills] input with
    [skills.split(',').map((skill) => skill.trim())] (line 69).  This
    file models [String.prototype.split] for a one-character separator
    and [String.prototype.trim], on strings of 8-bit code units (the
    Latin-1 part of UTF-16), with [Array.prototype.join] as the inverse
    of [split].  Theorems: [split]/[join] round trips, the pieces never
    contain the separator, the number of pieces, and the characterisation
    of [trim] (idempotent, strips exactly the whitespace at both ends). *)

From S2P Require Import Prelude.

Local Open Scope string_scope.

Module JsString.

(** JavaScript's [WhiteSpace] and [LineTerminator] code points below 256:
    TAB, LF, VT, FF, CR, SPACE and NO-BREAK SPACE. *)
Definition is_ws (a : Ascii.ascii) : bool :=
  let n := Ascii.N_of_ascii a in
  ((9 <=? n)%N && (n <=? 13)%N) || (n =? 32)%N || (n =? 160)%N.

(** [s.split(c)] for a one-character separator [c]: the maximal pieces
    between separators, always at least one (["".split(",")] is [[""]]). *)
Fixpoint split (c : Ascii.ascii) (s : string) : list string :=
  match s with
  | EmptyString => [EmptyString]
  | String a s' =>
      let rest := split c s' in
      if Ascii.eqb a c then EmptyString :: rest
      else match rest with
           | [] => [String a EmptyString]
           | h :: t => String a h :: t
           end
  end.

(** [l.join(c)]. *)
Fixpoint join (c : Ascii.ascii) (l : list string) : string :=
  match l with
  | [] => EmptyString
  | [x] => x
  | x :: l' => x ++ String c (join c l')
  end.

(** [s.trimStart()] and [s.trimEnd()]; [s.trim()] is both. *)
Fixpoint trim_start (s : string) : string :=
  match s with
  | EmptyString => EmptyString
  | String a s' => if is_ws a then trim_start s' else s
  end.

Fixpoint trim_end (s : string) : string :=
  match s with
  | EmptyString => EmptyString
  | String a s' =>
      match trim_end s' with
      | EmptyString => if is_ws a then EmptyString else String a EmptyString
      | r => String a r
      end
  end.

Definition trim (s : string) : string := trim_end (trim_start s).

(** Auxiliary predicates used in the statements. *)
Fixpoint char_in (c : Ascii.ascii) (s : string) : bool :=
  match s with
  | EmptyString => false
  | String a s' => Ascii.eqb a c || char_in c s'
  end.

Fixpoint count_char (c : Ascii.ascii) (s : string) : nat :=
  match s with
  | EmptyString => 0
  | String a s' => (if Ascii.eqb a c then 1 else 0) + count_char c s'
  end.

Fixpoint all_ws (s : string) : bool :=
  match s with
  | EmptyString => true
  | String a s' => is_ws a && all_ws s'
  end.

Definition first_char (s : string) : option Ascii.ascii :=
  match s with EmptyString => None | String a _ => Some a end.

Fixpoint last_char (s : string) : option Ascii.ascii :=
  match s with
  | EmptyString => None
  | String a EmptyString => Some a
  | String _ s' => last_char s'
  end.

(** ** Lemmas on [split] and [join] *)

Lemma split_cons c s : exists h t, split c s = h :: t.
Proof.
  induction s as [|a s IH]; simpl; [by eauto|].
  destruct IH as (h & t & ->). destruct (Ascii.eqb a c); eauto.
Qed.

Lemma split_not_nil c s : split c s <> [].
Proof. destruct (split_cons c s) as (h & t & ->). done. Qed.

Lemma join_cons c x l : l <> [] -> join c (x :: l) = x ++ String c (join c l).
Proof. destruct l; [done|]. reflexivity. Qed.

(** stdpp makes [String.append] opaque to [simpl]; these two equations
    are its computation rules. *)
Lemma string_app_nil y : EmptyString ++ y = y.
Proof. reflexivity. Qed.

Lemma string_app_cons a x y : String a x ++ y = String a (x ++ y).
Proof. reflexivity. Qed.

#[export] Hint Rewrite string_app_nil string_app_cons : devc_rw.

Lemma string_app_assoc x y z : x ++ (y ++ z) = (x ++ y) ++ z.
Proof.
  induction x as [|a x IH]; autorewrite with devc_rw; [done|]. by rewrite IH.
Qed.

(** Joining the pieces of [s.split(c)] with [c] gives
    back [s]: splitting loses nothing. *)
Lemma join_split c s : join c (split c s) = s.
Proof.
  induction s as [|a s IH]; simpl; [done|].
  destruct (Ascii.eqb a c) eqn:Hac.
  - apply Ascii.eqb_eq in Hac as ->. rewrite join_cons by apply split_not_nil.
    simpl. by rewrite IH.
  - destruct (split_cons c s) as (h & t & Hs); rewrite Hs in IH |- *.
    destruct t as [|h' t]; [simpl in *; by subst|].
    rewrite join_cons in IH |- * by done. rewrite <- IH. reflexivity.
Qed.

Lemma split_app_sep c x y :
  char_in c x = false -> split c (x ++ String c y) = x :: split c y.
Proof.
  induction x as [|a x IH]; simpl; intros Hx.
  - by rewrite Ascii.eqb_refl.
  - apply orb_false_iff in Hx as [Ha Hx]. rewrite Ha, IH by done. done.
Qed.

Lemma split_no_sep c x : char_in c x = false -> split c x = [x].
Proof.
  induction x as [|a x IH]; simpl; intros Hx; [done|].
  apply orb_false_iff in Hx as [Ha Hx]. by rewrite Ha, IH.
Qed.

(** A non-empty list of pieces without the separator,
    joined with it and split again, comes back unchanged: [split] cuts
    at every separator and only there. *)
Lemma split_join c l :
  l <> [] -> Forall (fun t => char_in c t = false) l -> split c (join c l) = l.
Proof.
  induction l as [|x l IH]; intros Hne Hl; [done|].
  invc Hl. destruct l as [|y l].
  - by apply split_no_sep.
  - rewrite join_cons by done. rewrite split_app_sep by done.
    f_equal. by apply IH.
Qed.

Lemma char_in_app c x y : char_in c (x ++ y) = char_in c x || char_in c y.
Proof.
  induction x as [|a x IH]; autorewrite with devc_rw; [done|]. simpl. by rewrite IH, orb_assoc.
Qed.

Lemma char_in_cons c a s : char_in c (String a s) = Ascii.eqb a c || char_in c s.
Proof. reflexivity. Qed.

(** [char_in_simpl] distributes [char_in] over appends and literal
    characters, leaving it only on string variables. *)
Ltac char_in_simpl := repeat first [rewrite char_in_app | rewrite char_in_cons].

(** A prefix without the separator sticks to the first piece. *)
Lemma split_app_nosep c x y :
  char_in c x = false ->
  split c (x ++ y) = match split c y with h :: t => (x ++ h) :: t | [] => [x] end.
Proof.
  induction x as [|a x IH]; intros Hx; autorewrite with devc_rw.
  - destruct (split_cons c y) as (h & t & ->). by rewrite string_app_nil.
  - simpl in Hx. apply orb_false_iff in Hx as [Ha Hx]. simpl. rewrite Ha, IH by done.
    destruct (split_cons c y) as (h & t & ->). reflexivity.
Qed.

Lemma split_pieces c s : Forall (fun t => char_in c t = false) (split c s).
Proof.
  induction s as [|a s IH]; simpl; [by repeat constructor|].
  destruct (Ascii.eqb a c) eqn:Hac; [by constructor|].
  destruct (split c s) as [|h t]; [by repeat constructor; simpl; rewrite Hac|].
  invc IH. constructor; [|done]. simpl. by rewrite Hac.
Qed.

Lemma length_split c s : length (split c s) = S (count_char c s).
Proof.
  induction s as [|a s IH]; simpl; [done|].
  destruct (Ascii.eqb a c); simpl; [by rewrite IH|].
  destruct (split c s); simpl in *; lia.
Qed.

(** ** Lemmas on [trim] *)

Definition no_ws_first (s : string) : Prop :=
  forall a, first_char s = Some a -> is_ws a = false.
Definition no_ws_last (s : string) : Prop :=
  forall a, last_char s = Some a -> is_ws a = false.

Lemma last_char_cons a s : s <> EmptyString -> last_char (String a s) = last_char s.
Proof. destruct s; [done|]. reflexivity. Qed.

Lemma trim_start_decomp s :
  exists lead, s = lead ++ trim_start s /\ all_ws lead = true.
Proof.
  induction s as [|a s IH]; simpl; [by exists EmptyString|].
  destruct (is_ws a) eqn:Ha.
  - destruct IH as (lead & Hs & Hl). exists (String a lead). simpl.
    rewrite Ha, Hl, string_app_cons. split; [by rewrite <- Hs|done].
  - by exists EmptyString.
Qed.

Lemma trim_start_first s : no_ws_first (trim_start s).
Proof.
  induction s as [|a s IH]; simpl; [done|].
  destruct (is_ws a) eqn:Ha; [done|]. by intros b [= <-].
Qed.

Lemma trim_start_id s : no_ws_first s -> trim_start s = s.
Proof.
  destruct s as [|a s]; simpl; [done|]. intros H. by rewrite (H a eq_refl).
Qed.

Lemma trim_end_decomp s :
  exists trail, s = trim_end s ++ trail /\ all_ws trail = true.
Proof.
  induction s as [|a s IH]; simpl; [by exists EmptyString|].
  destruct IH as (trail & Hs & Ht).
  destruct (trim_end s) as [|b r] eqn:He; simpl in *.
  - destruct (is_ws a) eqn:Ha.
    + exists (String a trail). simpl. rewrite Ha, Ht. rewrite Hs. done.
    + exists trail. by subst.
  - exists trail. by subst.
Qed.

Lemma trim_end_last s : no_ws_last (trim_end s).
Proof.
  induction s as [|a s IH]; simpl; [done|].
  destruct (trim_end s) as [|b r] eqn:He.
  - destruct (is_ws a) eqn:Ha; [done|]. by intros c [= <-].
  - intros c. rewrite last_char_cons by done. exact (IH c).
Qed.

Lemma trim_end_id s : no_ws_last s -> trim_end s = s.
Proof.
  induction s as [|a s IH]; simpl; intros H; [done|].
  destruct s as [|b s].
  - simpl. by rewrite (H a eq_refl).
  - rewrite IH by exact H. reflexivity.
Qed.

Lemma trim_end_first s : no_ws_first s -> no_ws_first (trim_end s).
Proof.
  destruct s as [|a s]; simpl; intros H; [done|].
  pose proof (H a eq_refl) as Ha.
  destruct (trim_end s); [rewrite Ha|]; by intros b [= <-].
Qed.

Lemma trim_end_idem s : trim_end (trim_end s) = trim_end s.
Proof. apply trim_end_id, trim_end_last. Qed.

(** [trim s] is [s] with exactly its leading and
    trailing whitespace removed: what remains neither starts nor ends with whitespace. *)
Lemma trim_spec s :
  exists lead trail,
    s = lead ++ trim s ++ trail /\ all_ws lead = true /\ all_ws trail = true /\
    no_ws_first (trim s) /\ no_ws_last (trim s).
Proof.
  unfold trim.
  destruct (trim_start_decomp s) as (lead & Hs & Hl).
  destruct (trim_end_decomp (trim_start s)) as (trail & Ht & Htr).
  exists lead, trail. repeat split; try done.
  - transitivity (lead ++ trim_start s); [done|]. by rewrite Ht at 1.
  - apply trim_end_first, trim_start_first.
  - apply trim_end_last.
Qed.

(** [trim] is idempotent: a trimmed skill is not
    changed by trimming it again. *)
Lemma trim_idem s : trim (trim s) = trim s.
Proof.
  unfold trim. rewrite (trim_start_id (trim_end (trim_start s))).
  - apply trim_end_idem.
  - apply trim_end_first, trim_start_first.
Qed.

Lemma split_join_witness :
  ["html"; " css"] <> [] /\
  Forall (fun t => char_in (Ascii.ascii_of_nat 44) t = false) ["html"; " css"] /\
  split (Ascii.ascii_of_nat 44) (join (Ascii.ascii_of_nat 44) ["html"; " css"]) = ["html"; " css"].
Proof.
  assert (Hne : ["html"; " css"] <> []) by discriminate.
  assert (Hf : Forall (fun t => char_in (Ascii.ascii_of_nat 44) t = false) ["html"; " css"])
    by (repeat constructor).
  split; [done|split; [done|]]. exact (split_join _ _ Hne Hf).
Defined.

#[export] Hint Rewrite trim_end_idem : devc_rw.

End JsString.
