(* ===== verification/JsValue.v ===== *)
(** * JsValue: the JSON values of a request body, JavaScript truthiness
    and express-validator's string conversion

    A request body reaches the handlers of [routes/api/profile.js] as
    the object parsed by the JSON body parser.  The handlers read its
    fields by destructuring (lines 44-57, 170, 236) and test them with
    JavaScript truthiness ([if (company) ...], lines 62-78); the
    validation gate converts them with express-validator's [toString]
    before [isEmpty].  Scalar JSON values are modelled; numbers are
    integers (a JSON body cannot produce NaN); nested arrays and objects
    are not modelled.  The body is a finite map from field names. *)

From S2P Require Import Prelude.
From stdpp Require Import pretty.

Local Open Scope string_scope.

Module JsValue.

Inductive JsVal :=
| JUndefined
| JNull
| JBool (b : bool)
| JNum (z : Z)
| JStr (s : string).

#[export] Instance JsVal_eq_dec : EqDecision JsVal.
Proof. solve_decision. Defined.

(** [Boolean(v)]: [undefined], [null], [false], [0] and [""] are falsy. *)
Definition truthy (v : JsVal) : bool :=
  match v with
  | JUndefined | JNull => false
  | JBool b => b
  | JNum z => negb (Z.eqb z 0)
  | JStr s => negb (String.eqb s "")
  end.

(** express-validator's [toString]: [null] and [undefined] become [""],
    other scalars [String(v)]. *)
Definition to_string (v : JsVal) : string :=
  match v with
  | JUndefined | JNull => ""
  | JBool true => "true"
  | JBool false => "false"
  | JNum z => pretty z
  | JStr s => s
  end.

(** The parsed request body and the value a destructuring reads:
    [undefined] for an absent field. *)
Definition Body := gmap string JsVal.

Definition body_get (b : Body) (k : string) : JsVal :=
  default JUndefined (b !! k).

Lemma pretty_N_go_not_empty x s : s <> "" -> pretty_N_go x s <> "".
Proof.
  revert s. induction (N.lt_wf_0 x) as [x _ IH]; intros s Hs.
  destruct (N.eq_dec x 0%N) as [->|Hx]; [by rewrite pretty_N_go_0|].
  rewrite pretty_N_go_step by lia. apply IH; [apply N.div_lt; lia|done].
Qed.

Lemma pretty_N_not_empty (x : N) : pretty x <> "".
Proof.
  unfold pretty, pretty_N. case_decide; [done|].
  rewrite pretty_N_go_step by lia. by apply pretty_N_go_not_empty.
Qed.

Lemma pretty_Z_not_empty (z : Z) : pretty z <> "".
Proof.
  destruct z as [|p|p]; [done|apply pretty_N_not_empty|done].
Qed.

(** The validator rejects exactly [undefined], [null] and [""]. *)
Lemma to_string_empty v :
  to_string v = "" <-> v = JUndefined \/ v = JNull \/ v = JStr "".
Proof.
  destruct v as [| |[]|z|s]; simpl; split; try naive_solver.
  - intros H. by apply pretty_Z_not_empty in H.
Qed.

(** A value the validator accepts is still falsy when it is [false] or
    [0]: the handlers then drop it from the update object. *)
Lemma accepted_but_falsy v :
  to_string v <> "" -> truthy v = false -> v = JBool false \/ v = JNum 0.
Proof.
  destruct v as [| |[]|z|s]; simpl; intros Hs Ht; try done.
  - by left.
  - right. destruct (Z.eqb_spec z 0); [by subst|done].
  - destruct (String.eqb_spec s ""); [by subst|done].
Qed.

Lemma accepted_but_falsy_witness :
  to_string (JBool false) <> "" /\ truthy (JBool false) = false /\
  (JBool false = JBool false \/ JBool false = JNum 0).
Proof.
  assert (Hs : to_string (JBool false) <> "") by (vm_compute; discriminate).
  assert (Ht : truthy (JBool false) = false) by reflexivity.
  split; [done|split; [done|]]. exact (accepted_but_falsy _ Hs Ht).
Defined.

(** For strings, truthiness and non-emptiness coincide. *)
Lemma truthy_str s : truthy (JStr s) = true <-> s <> "".
Proof. simpl. destruct (String.eqb_spec s ""); naive_solver. Qed.

End JsValue.
