(* ===== verification/JsArray.v ===== *)
(** * JsArray: the Array built-ins of the experience and education routes

    The add routes prepend a sub-document with [unshift] (lines 185,
    251); the delete routes compute
    [removeIndex = arr.map((item) => item.id).indexOf(id)] and call
    [arr.splice(removeIndex, 1)] (lines 204-206, 270-272).  This file
    models [Array.prototype.indexOf] (strict equality, result [-1] when
    absent) and [Array.prototype.splice(start, deleteCount)] following
    ECMA-262, with integer arguments as [Z]: a negative [start] counts
    from the end, so [splice(-1, 1)] removes the LAST element.
    Theorems: the specification of [indexOf], [splice] at a valid index
    is stdpp's [delete], and [splice(-1, 1)] drops the last element. *)

From S2P Require Import Prelude.

Module JsArray.

Section Ops.
Context {A : Type} `{EqDecision A}.

(** The loop of [indexOf]: [k] runs from [0]; the first [k] with
    [arr[k] === x] is returned, [-1] if there is none. *)
Fixpoint index_of_from (l : list A) (x : A) (k : Z) : Z :=
  match l with
  | [] => (-1)%Z
  | y :: l' => if decide (y = x) then k else index_of_from l' x (k + 1)%Z
  end.

Definition index_of (l : list A) (x : A) : Z := index_of_from l x 0%Z.

(** [splice(start, deleteCount)] returns the removed elements and
    leaves the array as the second component. *)
Definition splice (l : list A) (start delete_count : Z) : list A * list A :=
  let len := Z.of_nat (length l) in
  let actual_start :=
    if (start <? 0)%Z then Z.max (len + start) 0%Z else Z.min start len in
  let actual_delete := Z.min (Z.max delete_count 0%Z) (len - actual_start)%Z in
  let s := Z.to_nat actual_start in
  let d := Z.to_nat actual_delete in
  (take d (drop s l), take s l ++ drop (s + d) l).

(** [arr.unshift(x)]: [x] becomes the first element. *)
Definition unshift (x : A) (l : list A) : list A := x :: l.

(** ** [indexOf] *)

Lemma index_of_from_spec l x k :
  (index_of_from l x k = (-1)%Z /\ x ∉ l) \/
  (exists n, index_of_from l x k = (k + Z.of_nat n)%Z /\ l !! n = Some x /\
             x ∉ take n l).
Proof.
  revert k. induction l as [|y l IH]; intros k; simpl.
  - left. split; [done|]. apply not_elem_of_nil.
  - case_decide as Hy.
    + right. exists 0%nat. subst. split; [lia|]. split; [done|].
      apply not_elem_of_nil.
    + destruct (IH (k + 1)%Z) as [[-> Hn]|(n & Hi & Hl & Hn)].
      * left. split; [done|]. rewrite elem_of_cons. naive_solver.
      * right. exists (S n). split; [rewrite Hi; lia|]. split; [done|].
        simpl. rewrite elem_of_cons. naive_solver.
Qed.

Lemma index_of_absent l x : x ∉ l -> index_of l x = (-1)%Z.
Proof.
  intros Hx. destruct (index_of_from_spec l x 0) as [[H _]|(n & _ & Hl & _)];
    [done|]. exfalso. apply Hx. by eapply list_elem_of_lookup_2.
Qed.

Lemma index_of_present l x :
  x ∈ l ->
  exists n, index_of l x = Z.of_nat n /\ l !! n = Some x /\ x ∉ take n l.
Proof.
  intros Hx. destruct (index_of_from_spec l x 0) as [[_ Hn]|(n & Hi & Hl & Hn)];
    [done|]. exists n. unfold index_of. rewrite Hi. auto.
Qed.

(** ** [splice] *)

Lemma splice_valid l (i : nat) :
  (i < length l)%nat ->
  splice l (Z.of_nat i) 1%Z = (take 1 (drop i l), delete i l).
Proof.
  intros Hi. unfold splice.
  replace (Z.of_nat i <? 0)%Z with false by (symmetry; apply Z.ltb_ge; lia).
  replace (Z.to_nat (Z.min (Z.of_nat i) (Z.of_nat (length l)))) with i by lia.
  replace (Z.to_nat (Z.min (Z.max 1 0) (Z.of_nat (length l) -
             Z.min (Z.of_nat i) (Z.of_nat (length l))))%Z) with 1%nat by lia.
  by rewrite delete_take_drop, Nat.add_1_r.
Qed.

Lemma splice_minus_one l :
  l <> [] -> (splice l (-1)%Z 1%Z).2 = take (length l - 1) l.
Proof.
  intros Hl. destruct l as [|y l]; [done|]. unfold splice. simpl length.
  replace (Z.to_nat (Z.max (Z.of_nat (S (length l)) + -1) 0)%Z) with (length l) by lia.
  replace (Z.to_nat (Z.min (Z.max 1 0) (Z.of_nat (S (length l)) -
             Z.max (Z.of_nat (S (length l)) + -1) 0))%Z) with 1%nat by lia.
  simpl. rewrite drop_ge by (simpl; lia). rewrite app_nil_r.
  f_equal. lia.
Qed.

Lemma splice_nil (start dc : Z) : splice [] start dc = ([], []).
Proof. unfold splice. by rewrite ?drop_nil, ?take_nil. Qed.

Lemma splice_sublist l start dc : (splice l start dc).2 `sublist_of` l.
Proof.
  unfold splice. simpl.
  set (n := Z.to_nat _). set (d := Z.to_nat _).
  transitivity (take n l ++ drop n l); [|by rewrite take_drop].
  apply sublist_app; [done|]. rewrite <- drop_drop. apply sublist_drop.
Qed.

(** [arr.splice(i, 1)] at an index holding [x]
    returns [[x]] and leaves the array without position [i]. *)
Lemma splice_remove_one l (i : nat) x :
  l !! i = Some x -> splice l (Z.of_nat i) 1%Z = ([x], delete i l).
Proof.
  intros Hx. rewrite splice_valid by (by eapply lookup_lt_Some).
  by rewrite (drop_S l x i Hx).
Qed.

End Ops.

Lemma splice_remove_one_witness :
  [5%Z; 4%Z; 7%Z] !! 1%nat = Some 4%Z /\
  splice [5%Z; 4%Z; 7%Z] (Z.of_nat 1) 1%Z = ([4%Z], delete 1 [5%Z; 4%Z; 7%Z]).
Proof.
  assert (H : [5%Z; 4%Z; 7%Z] !! 1%nat = Some 4%Z) by reflexivity.
  split; [done|]. exact (splice_remove_one _ _ _ H).
Defined.

#[export] Hint Resolve index_of_absent : devc.

End JsArray.
