(* ===== verification/ObjectId.v ===== *)
(** * ObjectId: document identifiers, their hex form and the cast of
    path parameters

    Every document and sub-document carries a 96-bit ObjectId [_id].
    The delete routes compare the virtual [item.id] (the identifier's
    24-digit lowercase hex string) with the raw path parameter
    ([routes/api/profile.js] lines 204, 270), and [GET /user/:user_id]
    passes the parameter to a query filter, which casts it to an
    ObjectId and throws a [CastError] of kind ['ObjectId'] when the
    string is not one (line 117, caught at 125).  Identifiers are
    modelled as [N]; [to_hex] is [toHexString] (the low 96 bits, 24
    digits), [cast] is the BSON constructor's acceptance of a 24-digit
    hex string or a 12-character byte string.  These definitions model
    the [bson] package Mongoose uses, not code under [src/]; the routes
    only call them.  Theorems: [to_hex] has
    24 digits, [of_hex] inverts it, so it is injective below [2^96],
    two identifiers share a hex form exactly when they agree modulo
    [2^96], and [cast] maps [to_hex n] back to [n]. *)

From S2P Require Import Prelude.

Local Open Scope N_scope.

Module ObjectId.

Definition oid_bound : N := 2 ^ 96.

(** One lowercase hex digit ['0'..'9' 'a'..'f'] of a value below 16. *)
Definition hex_digit (d : N) : Ascii.ascii :=
  Ascii.ascii_of_N (if d <? 10 then 48 + d else 87 + d).

(** The value of a hex digit of either case. *)
Definition hex_value (a : Ascii.ascii) : option N :=
  let c := Ascii.N_of_ascii a in
  if (48 <=? c) && (c <=? 57) then Some (c - 48)
  else if (97 <=? c) && (c <=? 102) then Some (c - 87)
  else if (65 <=? c) && (c <=? 70) then Some (c - 55)
  else None.

Fixpoint to_hex_digits (k : nat) (n : N) (acc : string) : string :=
  match k with
  | O => acc
  | S k => to_hex_digits k (n / 16) (String (hex_digit (n mod 16)) acc)
  end.

(** [oid.toHexString()], which is also [oid.toString()] and the [id]
    virtual of a document. *)
Definition to_hex (n : N) : string := to_hex_digits 24 n "".

Fixpoint of_hex_go (s : string) (acc : N) : option N :=
  match s with
  | EmptyString => Some acc
  | String a s' =>
      match hex_value a with
      | Some d => of_hex_go s' (acc * 16 + d)
      | None => None
      end
  end.

Definition of_hex (s : string) : option N := of_hex_go s 0.

Fixpoint of_bytes_go (s : string) (acc : N) : N :=
  match s with
  | EmptyString => acc
  | String a s' => of_bytes_go s' (acc * 256 + Ascii.N_of_ascii a)
  end.

(** [new ObjectId(s)] for a string [s]: 24 hex digits or 12 bytes;
    anything else is a cast failure. *)
Definition cast (s : string) : option N :=
  if (String.length s =? 24)%nat then of_hex s
  else if (String.length s =? 12)%nat then Some (of_bytes_go s 0)
  else None.

(** ** Lemmas *)

Lemma hex_value_digit d : d < 16 -> hex_value (hex_digit d) = Some d.
Proof.
  intros Hd. rewrite <- (N2Nat.id d).
  assert (N.to_nat d < 16)%nat as Hm by lia. revert Hm.
  generalize (N.to_nat d) as m. intros m Hm.
  do 16 (destruct m as [|m]; [reflexivity|]). lia.
Qed.

Lemma length_to_hex_digits k n acc :
  String.length (to_hex_digits k n acc) = (k + String.length acc)%nat.
Proof.
  revert n acc. induction k as [|k IH]; intros n acc; simpl; [done|].
  rewrite IH. simpl. lia.
Qed.

Lemma length_to_hex n : String.length (to_hex n) = 24%nat.
Proof. unfold to_hex. by rewrite length_to_hex_digits. Qed.

Lemma mod_pow16_succ n k :
  n mod 16 ^ N.of_nat (S k) = n mod 16 + 16 * ((n / 16) mod 16 ^ N.of_nat k).
Proof.
  rewrite Nat2N.inj_succ, N.pow_succ_r'. apply N.mod_mul_r; lia.
Qed.

Lemma of_hex_go_digits k n acc a :
  of_hex_go (to_hex_digits k n acc) a =
  of_hex_go acc (a * 16 ^ N.of_nat k + n mod 16 ^ N.of_nat k).
Proof.
  revert n acc a. induction k as [|k IH]; intros n acc a; simpl.
  - f_equal. rewrite N.mod_1_r. lia.
  - rewrite IH. simpl. rewrite hex_value_digit by (apply N.mod_lt; lia).
    f_equal. rewrite mod_pow16_succ, Nat2N.inj_succ, N.pow_succ_r'. lia.
Qed.

(** Round trip: parsing the hex form gives back the low 96 bits. *)
Lemma of_hex_to_hex n : of_hex (to_hex n) = Some (n mod oid_bound).
Proof.
  unfold of_hex, to_hex. rewrite of_hex_go_digits. simpl. f_equal.
Qed.

Lemma to_hex_inj n m :
  n < oid_bound -> m < oid_bound -> to_hex n = to_hex m -> n = m.
Proof.
  intros Hn Hm H. apply (f_equal of_hex) in H.
  rewrite !of_hex_to_hex, !N.mod_small in H by done. congruence.
Qed.

Lemma to_hex_digits_mod k n acc :
  to_hex_digits k n acc = to_hex_digits k (n mod 16 ^ N.of_nat k) acc.
Proof.
  revert n acc. induction k as [|k IH]; intros n acc; simpl; [done|].
  rewrite mod_pow16_succ, (IH (n / 16)), (IH ((_ + _) / 16)).
  assert (Hd : (n mod 16 + 16 * ((n / 16) mod 16 ^ N.of_nat k)) / 16 = (n / 16) mod 16 ^ N.of_nat k).
  { rewrite N.mul_comm, N.div_add by lia. rewrite N.div_small by (apply N.mod_lt; lia). lia. }
  assert (Hm : (n mod 16 + 16 * ((n / 16) mod 16 ^ N.of_nat k)) mod 16 = n mod 16).
  { rewrite N.mul_comm, N.Div0.mod_add. apply N.Div0.mod_mod. }
  by rewrite Hd, Hm, N.Div0.mod_mod.
Qed.

Lemma to_hex_mod n : to_hex n = to_hex (n mod oid_bound).
Proof. unfold to_hex. by rewrite to_hex_digits_mod, (to_hex_digits_mod 24 (n mod _)), N.Div0.mod_mod. Qed.

(** Two identifiers have the same hex form exactly when they agree
    modulo [2^96]. *)
Lemma to_hex_eq_mod n m : to_hex n = to_hex m <-> n mod oid_bound = m mod oid_bound.
Proof.
  split.
  - intros H. apply (f_equal of_hex) in H. rewrite !of_hex_to_hex in H. congruence.
  - intros H. by rewrite to_hex_mod, H, <- to_hex_mod.
Qed.

(** The hex form of an identifier casts back to the
    identifier (its low 96 bits): a path parameter taken from an [_id]
    finds that document. *)
Lemma cast_to_hex n : cast (to_hex n) = Some (n mod oid_bound).
Proof. unfold cast. rewrite length_to_hex. apply of_hex_to_hex. Qed.

End ObjectId.
