(* ===== verification/Validation.v ===== *)
(** * Validation: the express-validator gate of the write routes

    [POST /], [PUT /experience] and [PUT /education] run a list of
    chains [check(field, msg).not().isEmpty()] before the handler
    ([routes/api/profile.js] lines 36, 159-161, 225-227); the handler
    calls [validationResult(req)] and answers 400 with
    [{ errors: errors.array() }] when it is not empty (lines 39-42,
    165-168, 231-234).  A chain fails when the field's string
    conversion is empty; the errors come in the order of the chains,
    each with the field's value, the message, the field name and the
    location.  Theorems: the gate passes iff every field converts to a
    non-empty string, and the errors are exactly the failing chains. *)

From S2P Require Import Prelude JsValue.

Local Open Scope string_scope.

Module Validation.
Import JsValue.

(** [check(field, msg).not().isEmpty()] *)
Record Check := mk_check { ck_field : string; ck_msg : string }.

(** An element of [errors.array()]. *)
Record ValidationError := mk_verror {
  ve_value : JsVal;
  ve_msg : string;
  ve_param : string;
  ve_location : string;
}.

Definition check_fails (b : Body) (c : Check) : bool :=
  String.eqb (to_string (body_get b (ck_field c))) "".

Definition run_check (b : Body) (c : Check) : option ValidationError :=
  if check_fails b c
  then Some (mk_verror (body_get b (ck_field c)) (ck_msg c) (ck_field c) "body")
  else None.

(** [validationResult(req).array()] *)
Fixpoint validation_result (b : Body) (cs : list Check) : list ValidationError :=
  match cs with
  | [] => []
  | c :: cs' =>
      match run_check b c with
      | Some e => e :: validation_result b cs'
      | None => validation_result b cs'
      end
  end.

(** The three gates of the routes. *)
Definition profile_checks : list Check :=
  [mk_check "status" "Status is required"; mk_check "skills" "Skills is required"].

Definition experience_checks : list Check :=
  [mk_check "title" "Title is required"; mk_check "company" "Company is required";
   mk_check "from" "From is required"].

Definition education_checks : list Check :=
  [mk_check "school" "School is required"; mk_check "degree" "Degree is required";
   mk_check "fieldofstudy" "Field of study is required"].

(** ** Lemmas *)

Lemma check_fails_spec b c :
  check_fails b c = true <->
  body_get b (ck_field c) = JUndefined \/ body_get b (ck_field c) = JNull \/
  body_get b (ck_field c) = JStr "".
Proof.
  unfold check_fails. rewrite String.eqb_eq. apply to_string_empty.
Qed.

Lemma validation_result_nil b cs :
  validation_result b cs = [] <-> Forall (fun c => check_fails b c = false) cs.
Proof.
  induction cs as [|c cs IH]; simpl.
  - split; by constructor.
  - rewrite Forall_cons, <- IH. unfold run_check.
    destruct (check_fails b c); naive_solver.
Qed.

(** [validationResult(req)] lists one error per
    failing check, in the order of the checks, each carrying the value,
    the message, the field and the location [body]. *)
Lemma validation_result_failing b cs :
  validation_result b cs =
  map (fun c => mk_verror (body_get b (ck_field c)) (ck_msg c) (ck_field c) "body")
      (filter (fun c => check_fails b c = true) cs).
Proof.
  induction cs as [|c cs IH]; simpl; [done|].
  rewrite filter_cons. unfold run_check.
  destruct (check_fails b c); simpl; by rewrite IH.
Qed.

End Validation.
