(* ===== verification/Models.v ===== *)
(** * Models: the documents of the three collections

    The Mongoose schemas ([models/User.js], [models/Profile.js],
    [models/Post.js]) are not part of the staged sources; their shape is
    taken from the data model of the specification (section 3): a
    Profile references its User, holds optional scalar fields, the
    [skills] sequence, the [social] sub-object and the [experience] and
    [education] sub-document sequences; a Post references its author
    and holds its comments.  Scalar fields keep the JSON value the
    handlers pass to the store (schema casting is not modelled).  The
    record [ProfileFields] is the [profileFields] object assembled by
    [POST /] in [routes/api/profile.js] (lines 59-78). *)

From S2P Require Import Prelude JsValue.

Module Models.
Import JsValue.

Record User := mk_user {
  u_id : N;
  u_name : string;
  u_avatar : string;
}.

Record Comment := mk_comment {
  c_id : N;
  c_user : N;
  c_text : string;
  c_name : string;
  c_avatar : string;
  c_date : N;
}.

Record Post := mk_post {
  post_id : N;
  post_user : N;
  post_text : string;
  post_comments : list Comment;
}.

(** [social]: five optional URLs; [None] is an absent key. *)
Record Social := mk_social {
  youtube : option JsVal;
  twitter : option JsVal;
  facebook : option JsVal;
  linkedin : option JsVal;
  instagram : option JsVal;
}.

Definition social_empty : Social := mk_social None None None None None.

Record Experience := mk_experience {
  exp_id : N;
  exp_title : JsVal;
  exp_company : JsVal;
  exp_location : JsVal;
  exp_from : JsVal;
  exp_to : JsVal;
  exp_current : JsVal;
  exp_description : JsVal;
}.

Record Education := mk_education {
  edu_id : N;
  edu_school : JsVal;
  edu_degree : JsVal;
  edu_fieldofstudy : JsVal;
  edu_from : JsVal;
  edu_to : JsVal;
  edu_current : JsVal;
  edu_description : JsVal;
}.

Record Profile := mk_profile {
  p_id : N;
  p_user : N;
  p_company : option JsVal;
  p_website : option JsVal;
  p_location : option JsVal;
  p_status : option JsVal;
  p_bio : option JsVal;
  p_githubusername : option JsVal;
  p_skills : list string;
  p_social : Social;
  p_experience : list Experience;
  p_education : list Education;
  p_version : N;  (* the version key [__v] of the schema's default options *)
}.

(** The [profileFields] object of [POST /]: [user] is always set,
    the scalar fields and [skills] only when present, [social] always
    (possibly empty). *)
Record ProfileFields := mk_profile_fields {
  pf_user : N;
  pf_company : option JsVal;
  pf_website : option JsVal;
  pf_location : option JsVal;
  pf_status : option JsVal;
  pf_bio : option JsVal;
  pf_githubusername : option JsVal;
  pf_skills : option (list string);
  pf_social : Social;
}.

(** A profile with its [user] reference expanded by
    [populate('user', ['name', 'avatar'])]: [None] when the referenced
    user no longer exists ([null] in the response). *)
Record PopUser := mk_pop_user { pu_id : N; pu_name : string; pu_avatar : string }.
Record PopProfile := mk_pop_profile { pp_profile : Profile; pp_user : option PopUser }.

End Models.
