(* ===== verification/Store.v ===== *)
(** * Store: the document store, its queries and the handler monad

    The handlers reach MongoDB through Mongoose calls, each awaited:
    [Profile.findOne], [.populate], [Profile.find], [findOneAndUpdate],
    [new Profile(..).save()], [profile.save()], [Post.deleteMany],
    [Profile.findOneAndDelete], [User.findOneAndDelete].  The store is
    modelled (from the specification, section 2: an opaque document
    store) as three collections in natural order, an ObjectId
    generator and a connection flag; a query against a disconnected
    store throws.  A handler is a program of the monad [prog]: it
    returns, throws a JavaScript error, or awaits a query and continues
    with its outcome.  [run] executes a program against a store, one
    query after another; [try_catch] is a [try { } catch] block.
    Theorems: [run] of [bind] and of [try_catch], and the algebra of the
    first-match operations behind the queries.  A [profile.save()] of
    an edited array is versioned: it matches the stored document only
    when its version key is the one read, and throws a [VersionError]
    otherwise. *)

From S2P Require Import Prelude JsValue Models.

Local Open Scope string_scope.

Module Store.
Import JsValue Models.

Record Store := mk_store {
  users : list User;
  profiles : list Profile;
  posts : list Post;
  next_id : N;
  db_up : bool;
}.

(** The JavaScript errors a handler can throw or receive. *)
Inductive JsError :=
| TypeError (msg : string)
| CastError (kind : string)
| MongoError (msg : string)
| DocumentNotFoundError
| VersionError
| ReferenceError (msg : string).

(** The array path a [profile.save()] writes after an in-place edit. *)
Inductive ProfilePath := PathExperience | PathEducation.

Inductive query : Type -> Type :=
| QFindOne (u : N) : query (option Profile)
| QFindOnePop (u : N) : query (option PopProfile)
| QFindAllPop : query (list PopProfile)
| QFindOneAndUpdate (u : N) (pf : ProfileFields) : query (option Profile)
| QCreate (pf : ProfileFields) : query Profile
| QSave (p : Profile) (path : ProfilePath) : query Profile
| QPostDeleteMany (u : N) : query unit
| QProfileFindOneAndDelete (u : N) : query unit
| QUserFindOneAndDelete (u : N) : query unit
| QNewId : query N.

(** ** Query semantics *)

Definition by_user (u : N) (p : Profile) : bool := N.eqb (p_user p) u.
Definition by_pid (i : N) (p : Profile) : bool := N.eqb (p_id p) i.

Definition find_profile (s : Store) (u : N) : option Profile :=
  List.find (by_user u) (profiles s).

Definition populate (s : Store) (p : Profile) : PopProfile :=
  mk_pop_profile p
    (option_map (fun us => mk_pop_user (u_id us) (u_name us) (u_avatar us))
       (List.find (fun us => N.eqb (u_id us) (p_user p)) (users s))).

(** [{ $set: profileFields }]: present fields overwrite, absent fields
    are kept; [social] is replaced by the object of the request. *)
Definition apply_set (pf : ProfileFields) (p : Profile) : Profile :=
  mk_profile (p_id p) (pf_user pf)
    (if pf_company pf is Some v then Some v else p_company p)
    (if pf_website pf is Some v then Some v else p_website p)
    (if pf_location pf is Some v then Some v else p_location p)
    (if pf_status pf is Some v then Some v else p_status p)
    (if pf_bio pf is Some v then Some v else p_bio p)
    (if pf_githubusername pf is Some v then Some v else p_githubusername p)
    (default (p_skills p) (pf_skills pf))
    (pf_social pf)
    (p_experience p) (p_education p) (p_version p).

(** [new Profile(profileFields)]: schema defaults for the arrays. *)
Definition new_profile (i : N) (pf : ProfileFields) : Profile :=
  mk_profile i (pf_user pf) (pf_company pf) (pf_website pf) (pf_location pf)
    (pf_status pf) (pf_bio pf) (pf_githubusername pf)
    (default [] (pf_skills pf)) (pf_social pf) [] [] 0.

(** The version key [__v] incremented: a successful versioned [save]
    also sets it on the document saved, in place. *)
Definition bump_version (p : Profile) : Profile :=
  mk_profile (p_id p) (p_user p) (p_company p) (p_website p) (p_location p)
    (p_status p) (p_bio p) (p_githubusername p) (p_skills p) (p_social p)
    (p_experience p) (p_education p) (N.succ (p_version p)).

(** The document [save] writes: only the modified array path.  An
    array edited by [unshift] or [splice] is saved as a [$set] of the
    whole array, which Mongoose versions: the update also increments
    the version key [__v]. *)
Definition write_path (path : ProfilePath) (src dst : Profile) : Profile :=
  match path with
  | PathExperience =>
      mk_profile (p_id dst) (p_user dst) (p_company dst) (p_website dst)
        (p_location dst) (p_status dst) (p_bio dst) (p_githubusername dst)
        (p_skills dst) (p_social dst) (p_experience src) (p_education dst)
        (N.succ (p_version dst))
  | PathEducation =>
      mk_profile (p_id dst) (p_user dst) (p_company dst) (p_website dst)
        (p_location dst) (p_status dst) (p_bio dst) (p_githubusername dst)
        (p_skills dst) (p_social dst) (p_experience dst) (p_education src)
        (N.succ (p_version dst))
  end.

Definition set_profiles (s : Store) (ps : list Profile) : Store :=
  mk_store (users s) ps (posts s) (next_id s) (db_up s).
Definition set_posts (s : Store) (ps : list Post) : Store :=
  mk_store (users s) (profiles s) ps (next_id s) (db_up s).
Definition set_users (s : Store) (us : list User) : Store :=
  mk_store us (profiles s) (posts s) (next_id s) (db_up s).
Definition bump_id (s : Store) : Store :=
  mk_store (users s) (profiles s) (posts s) (N.succ (next_id s)) (db_up s).

Definition exec_query {B} (s : Store) (q : query B) : Store * (JsError + B) :=
  match q in query B return Store * (JsError + B) with
  | QFindOne u => (s, inr (find_profile s u))
  | QFindOnePop u => (s, inr (option_map (populate s) (find_profile s u)))
  | QFindAllPop => (s, inr (map (populate s) (profiles s)))
  | QFindOneAndUpdate u pf =>
      (set_profiles s (update_first (by_user u) (apply_set pf) (profiles s)),
       inr (option_map (apply_set pf) (find_profile s u)))
  | QCreate pf =>
      let p := new_profile (next_id s) pf in
      (set_profiles (bump_id s) (profiles s ++ [p]), inr p)
  | QSave p path =>
      match List.find (by_pid (p_id p)) (profiles s) with
      | Some cur =>
          if N.eqb (p_version cur) (p_version p) then
            (set_profiles s (update_first (by_pid (p_id p)) (write_path path p) (profiles s)),
             inr (bump_version p))
          else (s, inl VersionError)
      | None => (s, inl VersionError)
      end
  | QPostDeleteMany u =>
      (set_posts s (filter (fun po => N.eqb (post_user po) u = false) (posts s)), inr tt)
  | QProfileFindOneAndDelete u =>
      (set_profiles s (delete_first (by_user u) (profiles s)), inr tt)
  | QUserFindOneAndDelete u =>
      (set_users s (delete_first (fun us => N.eqb (u_id us) u) (users s)), inr tt)
  | QNewId => (bump_id s, inr (next_id s))
  end.

(** Every query but the local ObjectId generation needs the server. *)
Definition needs_db {B} (q : query B) : bool :=
  match q with QNewId => false | _ => true end.

Definition exec {B} (s : Store) (q : query B) : Store * (JsError + B) :=
  if needs_db q && negb (db_up s)
  then (s, inl (MongoError "connection closed"))
  else exec_query s q.

(** ** The handler monad *)

Inductive prog (A : Type) : Type :=
| Ret (a : A)
| Throw (e : JsError)
| Await {B : Type} (q : query B) (k : JsError + B -> prog A).

Arguments Ret {A} a.
Arguments Throw {A} e.
Arguments Await {A B} q k.

(** [await q]: a rejected query throws at the await. *)
Definition await {B} (q : query B) : prog B :=
  Await q (fun r => match r with inl e => Throw e | inr b => Ret b end).

Fixpoint bind {A B} (p : prog A) (f : A -> prog B) : prog B :=
  match p with
  | Ret a => f a
  | Throw e => Throw e
  | Await q k => Await q (fun r => bind (k r) f)
  end.

Fixpoint try_catch {A} (p : prog A) (h : JsError -> prog A) : prog A :=
  match p with
  | Ret a => Ret a
  | Throw e => h e
  | Await q k => Await q (fun r => try_catch (k r) h)
  end.

Fixpoint run {A} (s : Store) (p : prog A) : Store * (JsError + A) :=
  match p with
  | Ret a => (s, inr a)
  | Throw e => (s, inl e)
  | Await q k => let '(s', r) := exec s q in run s' (k r)
  end.

Declare Scope prog_scope.
Delimit Scope prog_scope with prog.
Notation "x <- c1 ;; c2" := (bind c1 (fun x => c2))
  (at level 100, c1 at next level, right associativity) : prog_scope.
Notation "c1 ;; c2" := (bind c1 (fun _ => c2))
  (at level 100, right associativity) : prog_scope.

(** ** Lemmas *)

Lemma run_bind {A B} s (p : prog A) (f : A -> prog B) :
  run s (bind p f) =
  match run s p with
  | (s', inl e) => (s', inl e)
  | (s', inr a) => run s' (f a)
  end.
Proof.
  revert s. induction p as [a|e|C q k IH]; intros s; simpl; [done|done|].
  destruct (exec s q) as [s' r]. apply IH.
Qed.

Lemma run_try_catch {A} s (p : prog A) h :
  run s (try_catch p h) =
  match run s p with
  | (s', inl e) => run s' (h e)
  | r => r
  end.
Proof.
  revert s. induction p as [a|e|C q k IH]; intros s; simpl; [done|done|].
  destruct (exec s q) as [s' r]. apply IH.
Qed.

Lemma run_await {B} s (q : query B) :
  run s (await q) = exec s q.
Proof. simpl. by destruct (exec s q) as [s' [e|b]]. Qed.

#[export] Hint Rewrite @run_bind @run_try_catch @run_await : devc_rw.

(** [run_db H] executes the awaited queries of a concrete handler
    against a store whose connection state [H : db_up s = _] is known. *)
Ltac run_db H := repeat progress (simpl; unfold exec; simpl; rewrite ?H).

(** ** The store invariant

    At most one profile per user (section 3 of the specification),
    distinct profile ids, and every identifier issued so far below the
    ObjectId generator, with the sub-document ids of each profile
    distinct. *)

Definition ids_below (n : N) (l : list N) : Prop := Forall (fun i => (i < n)%N) l.

Definition profile_ok (n : N) (p : Profile) : Prop :=
  (p_id p < n)%N /\
  NoDup (map exp_id (p_experience p)) /\ ids_below n (map exp_id (p_experience p)) /\
  NoDup (map edu_id (p_education p)) /\ ids_below n (map edu_id (p_education p)).

Record store_wf (s : Store) : Prop := {
  wf_uids : NoDup (map u_id (users s));
  wf_users : NoDup (map p_user (profiles s));
  wf_pids : NoDup (map p_id (profiles s));
  wf_profiles : Forall (profile_ok (next_id s)) (profiles s);
}.

#[export] Instance ids_below_dec n l : Decision (ids_below n l).
Proof. unfold ids_below. apply _. Defined.

#[export] Instance profile_ok_dec n p : Decision (profile_ok n p).
Proof. unfold profile_ok. apply _. Defined.

Lemma store_wf_iff s :
  store_wf s <->
  NoDup (map u_id (users s)) /\ NoDup (map p_user (profiles s)) /\
  NoDup (map p_id (profiles s)) /\ Forall (profile_ok (next_id s)) (profiles s).
Proof. split; [intros []; tauto|intros (? & ? & ? & ?); by constructor]. Qed.

#[export] Instance store_wf_dec s : Decision (store_wf s).
Proof.
  destruct (decide (NoDup (map u_id (users s)) /\ NoDup (map p_user (profiles s)) /\
                    NoDup (map p_id (profiles s)) /\ Forall (profile_ok (next_id s)) (profiles s)))
    as [H|H]; [left|right]; by rewrite store_wf_iff.
Defined.

Lemma ids_below_mono n m l : (n <= m)%N -> ids_below n l -> ids_below m l.
Proof. intros Hnm H. eapply Forall_impl; [exact H|]. simpl. lia. Qed.

Lemma profile_ok_mono n m p : (n <= m)%N -> profile_ok n p -> profile_ok m p.
Proof.
  intros Hnm (H1 & H2 & H3 & H4 & H5).
  repeat split; eauto using ids_below_mono; lia.
Qed.

Lemma find_profile_some s u p :
  find_profile s u = Some p -> p ∈ profiles s /\ p_user p = u.
Proof.
  unfold find_profile. intros H. split.
  - apply list_elem_of_In. by eapply find_some.
  - apply find_some in H as [_ H]. by apply N.eqb_eq in H.
Qed.

Lemma find_profile_none s u p :
  find_profile s u = None -> p ∈ profiles s -> p_user p <> u.
Proof.
  unfold find_profile. intros H Hp. apply list_elem_of_In in Hp.
  pose proof (find_none _ _ H p Hp) as Hf. unfold by_user in Hf.
  by apply N.eqb_neq in Hf.
Qed.

Lemma find_profile_ok s u p :
  store_wf s -> find_profile s u = Some p -> profile_ok (next_id s) p.
Proof.
  intros Hwf Hf. apply find_profile_some in Hf as [Hp _].
  eapply Forall_forall; [apply Hwf|done].
Qed.

Lemma find_profile_unique s u p :
  store_wf s -> find_profile s u = Some p ->
  filter (fun q => p_user q = u) (profiles s) = [p].
Proof.
  intros Hwf Hf. destruct (find_profile_some _ _ _ Hf) as [Hp <-].
  apply filter_key_unique; [apply Hwf|done].
Qed.

(** The profiles of a user number at most one, counted by [filter]. *)
Lemma wf_filter_user_le s u :
  store_wf s -> length (filter (fun q => p_user q = u) (profiles s)) <= 1.
Proof.
  intros Hwf. destruct (find_profile s u) as [p|] eqn:Hf.
  - by rewrite (find_profile_unique s u p Hwf Hf).
  - rewrite filter_none; [simpl; lia|]. intros q Hq. by apply (find_profile_none s u).
Qed.

(** The first profile of the caller is also the first profile with its
    own id, so [profile.save()] writes back the document that was read. *)
Lemma find_profile_split s u p :
  store_wf s -> find_profile s u = Some p ->
  exists l1 l2, profiles s = (l1 ++ p :: l2)%list /\ List.find (by_user u) l1 = None /\
                List.find (by_pid (p_id p)) l1 = None.
Proof.
  intros Hwf Hf. destruct (find_Some_split _ _ _ Hf) as (l1 & l2 & Hl & _ & Hn).
  exists l1, l2. repeat split; [done|done|]. apply find_none_forall. intros y Hy.
  apply N.eqb_neq. intros Hid. pose proof (wf_pids s Hwf) as Hnd.
  rewrite Hl, map_app in Hnd. apply NoDup_app in Hnd as (_ & Hdis & _).
  apply (Hdis (p_id p)); [apply list_elem_of_fmap; by exists y|simpl; apply elem_of_cons; by left].
Qed.

Lemma find_pid_self s u p :
  store_wf s -> find_profile s u = Some p -> List.find (by_pid (p_id p)) (profiles s) = Some p.
Proof.
  intros Hwf Hf. destruct (find_profile_split _ _ _ Hwf Hf) as (l1 & l2 & -> & _ & Hn).
  rewrite find_app_none by done. simpl. unfold by_pid. by rewrite N.eqb_refl.
Qed.

Lemma find_profile_after_save s u p path p' :
  store_wf s -> find_profile s u = Some p ->
  List.find (by_user u) (update_first (by_pid (p_id p)) (write_path path p') (profiles s)) =
  Some (write_path path p' p).
Proof.
  intros Hwf Hf. destruct (find_profile_split _ _ _ Hwf Hf) as (l1 & l2 & -> & Hu & Hn).
  rewrite update_first_app by (done || apply N.eqb_refl). rewrite find_app_none by done.
  apply find_profile_some in Hf as [_ Hpu]. simpl.
  replace (by_user u (write_path path p' p)) with true; [done|].
  symmetry. unfold by_user. destruct path; simpl; rewrite Hpu; apply N.eqb_refl.
Qed.

(** A document read before a versioned save no longer matches the
    stored version. *)
Lemma version_stale n : N.eqb (N.succ n) n = false.
Proof. apply N.eqb_neq. lia. Qed.

Lemma write_path_ids path p' q :
  p_id (write_path path p' q) = p_id q /\ p_user (write_path path p' q) = p_user q.
Proof. by destruct path. Qed.

(** After a save of the caller's profile, a second [save] finds it again
    by its id. *)
Lemma find_pid_after_save s u p path p' :
  store_wf s -> find_profile s u = Some p ->
  List.find (by_pid (p_id p)) (update_first (by_pid (p_id p)) (write_path path p') (profiles s)) =
  Some (write_path path p' p).
Proof.
  intros Hwf Hf. apply find_update_first; [by apply (find_pid_self s u)|].
  unfold by_pid. rewrite (proj1 (write_path_ids path p' p)). apply N.eqb_refl.
Qed.

(** Two successive saves of the caller's profile: the caller's profile
    is the second write over the first. *)
Lemma find_profile_after_two_saves s u p path1 p1 path2 p2 :
  store_wf s -> find_profile s u = Some p ->
  List.find (by_user u)
    (update_first (by_pid (p_id p)) (write_path path2 p2)
       (update_first (by_pid (p_id p)) (write_path path1 p1) (profiles s))) =
  Some (write_path path2 p2 (write_path path1 p1 p)).
Proof.
  intros Hwf Hf. destruct (find_profile_split _ _ _ Hwf Hf) as (l1 & l2 & -> & Hu & Hn).
  apply find_profile_some in Hf as [_ Hpu].
  destruct (write_path_ids path1 p1 p) as [Hi1 Hu1].
  rewrite update_first_app by (done || apply N.eqb_refl).
  rewrite update_first_app by (done || (unfold by_pid; rewrite Hi1; apply N.eqb_refl)).
  rewrite find_app_none by done. simpl. unfold by_user.
  destruct (write_path_ids path2 p2 (write_path path1 p1 p)) as [_ ->].
  by rewrite Hu1, Hpu, N.eqb_refl.
Qed.

(** ** Frame lemmas: writes to one user's profile leave the lookups of
    the other users alone *)

Lemma find_user_update_first_frame (f : Profile -> bool) g l u :
  (forall x, x ∈ l -> f x = true -> p_user x <> u /\ p_user (g x) <> u) ->
  List.find (by_user u) (update_first f g l) = List.find (by_user u) l.
Proof.
  induction l as [|x l IH]; intros Hl; [done|]. cbn [update_first].
  assert (Hl' : forall y, y ∈ l -> f y = true -> p_user y <> u /\ p_user (g y) <> u)
    by (intros y Hy; apply Hl; by right).
  destruct (f x) eqn:Hfx.
  - destruct (Hl x ltac:(by left) Hfx) as [Hx Hgx]. simpl. unfold by_user.
    rewrite (proj2 (N.eqb_neq _ _) Hx), (proj2 (N.eqb_neq _ _) Hgx). done.
  - simpl. rewrite IH by done. done.
Qed.

Lemma find_user_delete_first_frame (f : Profile -> bool) l u :
  (forall x, x ∈ l -> f x = true -> p_user x <> u) ->
  List.find (by_user u) (delete_first f l) = List.find (by_user u) l.
Proof.
  induction l as [|x l IH]; intros Hl; [done|]. cbn [delete_first].
  destruct (f x) eqn:Hfx.
  - simpl. unfold by_user at 2. rewrite (proj2 (N.eqb_neq _ _) (Hl x ltac:(by left) Hfx)). done.
  - simpl. rewrite IH; [done|]. intros y Hy. apply Hl. by right.
Qed.

Lemma find_user_delete_first_self l u :
  NoDup (map p_user l) -> List.find (by_user u) (delete_first (by_user u) l) = None.
Proof.
  induction l as [|x l IH]; intros Hnd; [done|]. cbn [delete_first].
  apply NoDup_cons in Hnd as [Hx Hnd]. destruct (by_user u x) eqn:Hux.
  - apply find_none_forall. intros y Hy. apply N.eqb_neq. intros Hyu.
    apply Hx, list_elem_of_fmap. exists y. split; [|done].
    unfold by_user in Hux. apply N.eqb_eq in Hux. congruence.
  - simpl. rewrite Hux. by apply IH.
Qed.

(** Under the invariant, the profile with the caller's profile id is
    the caller's. *)
Lemma by_pid_user s u p x :
  store_wf s -> find_profile s u = Some p -> x ∈ profiles s -> by_pid (p_id p) x = true ->
  p_user x = u.
Proof.
  intros Hwf Hf Hx Hid. destruct (find_profile_some _ _ _ Hf) as [Hp <-].
  unfold by_pid in Hid. apply N.eqb_eq in Hid.
  assert (x = p) as ->; [|done].
  pose proof (wf_pids s Hwf) as Hnd.
  apply list_elem_of_lookup_1 in Hx as (i & Hi). apply list_elem_of_lookup_1 in Hp as (j & Hj).
  assert (i = j) as ->; [|congruence].
  apply (NoDup_lookup (map p_id (profiles s)) i j (p_id p)); [done| |];
    rewrite list_lookup_fmap; [rewrite Hi|rewrite Hj]; simpl; congruence.
Qed.

Section Preservation.
Context (s : Store) (Hwf : store_wf s).

Lemma wf_bump : store_wf (bump_id s).
Proof.
  destruct Hwf as [H0 H1 H2 H3]. constructor; simpl; [done|done|done|].
  eapply Forall_impl; [exact H3|]. intros p. apply profile_ok_mono. lia.
Qed.

Lemma wf_set_posts ps : store_wf (set_posts s ps).
Proof. destruct Hwf; by constructor. Qed.

Lemma wf_delete_user u :
  store_wf (set_users s (delete_first (fun us => N.eqb (u_id us) u) (users s))).
Proof.
  destruct Hwf as [H0 H1 H2 H3]. constructor; simpl; [|done..].
  by apply NoDup_map_delete_first.
Qed.

(** [findOneAndUpdate({ user: u }, { $set: pf })] with [pf.user = u]. *)
Lemma wf_update u pf :
  pf_user pf = u ->
  store_wf (set_profiles s (update_first (by_user u) (apply_set pf) (profiles s))).
Proof.
  intros Hu. destruct Hwf as [H0 H1 H2 H3]. constructor; [exact H0|..]; simpl.
  - rewrite map_update_first; [done|]. unfold by_user. intros y Hy.
    apply N.eqb_eq in Hy. simpl. congruence.
  - by rewrite map_update_first.
  - apply Forall_forall. intros x Hx.
    apply elem_of_update_first in Hx as [Hx|(y & Hy & _ & ->)];
      [by eapply Forall_forall|].
    pose proof (proj1 (Forall_forall _ _) H3 y Hy) as (? & ? & ? & ? & ?).
    by repeat split.
Qed.

(** [new Profile(pf).save()] when the user has no profile yet. *)
Lemma wf_create pf :
  find_profile s (pf_user pf) = None ->
  store_wf (set_profiles (bump_id s) (profiles s ++ [new_profile (next_id s) pf])).
Proof.
  intros Hn. destruct Hwf as [H0 H1 H2 H3]. constructor; [exact H0|..]; simpl; rewrite ?map_app.
  - apply NoDup_app. repeat split; [done| |by apply NoDup_singleton].
    intros u Hu Hu'. apply list_elem_of_singleton in Hu' as ->.
    apply list_elem_of_fmap in Hu as (p & Hp & Hin).
    by apply (find_profile_none s (pf_user pf) p).
  - apply NoDup_app. repeat split; [done| |by apply NoDup_singleton].
    intros i Hi Hi'. apply list_elem_of_singleton in Hi' as ->.
    apply list_elem_of_fmap in Hi as (p & Hp & Hin).
    pose proof (proj1 (Forall_forall _ _) H3 p Hin) as (? & _). simpl in Hp. lia.
  - apply Forall_app. split.
    + eapply Forall_impl; [exact H3|]. intros p. apply profile_ok_mono. lia.
    + apply Forall_singleton. repeat split; simpl; try constructor; lia.
Qed.

(** [profile.save()] of an edited array of a stored profile. *)
Lemma wf_save p path :
  profile_ok (next_id s) p ->
  store_wf (set_profiles s (update_first (by_pid (p_id p)) (write_path path p) (profiles s))).
Proof.
  intros Hp. destruct Hwf as [H0 H1 H2 H3].
  assert (forall y, by_pid (p_id p) y = true -> p_user (write_path path p y) = p_user y)
    by (by destruct path).
  assert (forall y, by_pid (p_id p) y = true -> p_id (write_path path p y) = p_id y)
    by (by destruct path).
  constructor; [exact H0|..]; simpl.
  - by rewrite map_update_first.
  - by rewrite map_update_first.
  - apply Forall_forall. intros x Hx.
    apply elem_of_update_first in Hx as [Hx|(y & Hy & _ & ->)];
      [by eapply Forall_forall|].
    pose proof (proj1 (Forall_forall _ _) H3 y Hy) as (? & ? & ? & ? & ?).
    destruct Hp as (? & ? & ? & ? & ?). destruct path; by repeat split.
Qed.

Lemma wf_delete_profile u :
  store_wf (set_profiles s (delete_first (by_user u) (profiles s))).
Proof.
  destruct Hwf as [H0 H1 H2 H3]. constructor; [exact H0|..]; simpl.
  - by apply NoDup_map_delete_first.
  - by apply NoDup_map_delete_first.
  - apply Forall_forall. intros x Hx. apply elem_of_delete_first in Hx.
    by eapply Forall_forall.
Qed.
End Preservation.

#[export] Hint Resolve wf_bump wf_set_posts wf_delete_user wf_update wf_create
  wf_save wf_delete_profile : devc.

End Store.
