(* ===== verification/ProfileRoutes.v ===== *)
(** * ProfileRoutes: the handlers of [routes/api/profile.js]

    One definition per route handler, each a [Store.prog] program that
    awaits the same queries in the same order as the source and returns
    the reply it sends ([res.status(..).json(..)]); a handler whose
    promise rejects sends nothing, which [run] reports as an [inl]
    error.  The [auth] middleware (not in the staged sources) is
    modelled by [route]: a request without a valid token gets 401 on
    the routes that install it.  [GET /github/:username] is in the
    [Github] file.  The removal of a sub-document by its hex id
    ([map], [indexOf], [splice(i, 1)]) is compared with the reference
    removal that keeps the other ids. *)

From S2P Require Import Prelude JsString JsValue JsArray ObjectId Validation Models Store.

Local Open Scope string_scope.
Local Open Scope prog_scope.

Module ProfileRoutes.
Import JsValue Validation Models Store.

Inductive ResBody :=
| BMsg (msg : string)
| BText (s : string)
| BErrors (es : list ValidationError)
| BProfile (p : option Profile)
| BPopProfile (pp : PopProfile)
| BPopProfiles (l : list PopProfile).

Record Reply := mk_reply { status : N; body : ResBody }.

Definition server_error : Reply := mk_reply 500 (BText "Server Error").

(** ** GET /me (lines 14-27) *)
Definition get_me (uid : N) : prog Reply :=
  try_catch
    (profile <- await (QFindOnePop uid) ;;
     match profile with
     | None => Ret (mk_reply 400 (BMsg "There is no profile for this user"))
     | Some pp => Ret (mk_reply 200 (BPopProfile pp))
     end)
    (fun _ => Ret server_error).

(** ** POST / (lines 32-97) *)

(** [if (v) profileFields.f = v]. *)
Definition if_truthy (v : JsVal) : option JsVal :=
  if truthy v then Some v else None.

(** [skills.split(',').map((skill) => skill.trim())]: a TypeError when
    [skills] is truthy but not a string. *)
Definition normalize_skills (v : JsVal) : JsError + option (list string) :=
  if truthy v then
    match v with
    | JStr s => inr (Some (map JsString.trim (JsString.split (Ascii.ascii_of_nat 44) s)))
    | _ => inl (TypeError "skills.split is not a function")
    end
  else inr None.

(** Lines 44-78: the [profileFields] object. *)
Definition build_profile_fields (uid : N) (b : Body) : JsError + ProfileFields :=
  match normalize_skills (body_get b "skills") with
  | inl e => inl e
  | inr skills =>
      inr (mk_profile_fields uid
             (if_truthy (body_get b "company"))
             (if_truthy (body_get b "website"))
             (if_truthy (body_get b "location"))
             (if_truthy (body_get b "status"))
             (if_truthy (body_get b "bio"))
             (if_truthy (body_get b "githubusername"))
             skills
             (mk_social (if_truthy (body_get b "youtube"))
                        (if_truthy (body_get b "twitter"))
                        (if_truthy (body_get b "facebook"))
                        (if_truthy (body_get b "linkedin"))
                        (if_truthy (body_get b "instagram"))))
  end.

(** A top-level field of [POST /] over its stored value: the request's
    value when truthy, the stored one otherwise. *)
Definition merged (v : JsVal) (old : option JsVal) : option JsVal :=
  if truthy v then Some v else old.

(** The field assembly runs outside the [try]; the [catch] block reads
    [res.status(500), json('Server Error')], and [json] is not bound:
    it throws a ReferenceError, so nothing is sent. *)
Definition post_profile (uid : N) (b : Body) : prog Reply :=
  match validation_result b profile_checks with
  | (_ :: _) as errs => Ret (mk_reply 400 (BErrors errs))
  | [] =>
      match build_profile_fields uid b with
      | inl e => Throw e
      | inr pf =>
          try_catch
            (profile <- await (QFindOne uid) ;;
             match profile with
             | Some _ =>
                 p <- await (QFindOneAndUpdate uid pf) ;;
                 Ret (mk_reply 200 (BProfile p))
             | None =>
                 p <- await (QCreate pf) ;;
                 Ret (mk_reply 200 (BProfile (Some p)))
             end)
            (fun _ => Throw (ReferenceError "json is not defined"))
      end
  end.

(** ** GET / (lines 102-110): no [auth] middleware on this route. *)
Definition get_all : prog Reply :=
  try_catch
    (profiles <- await QFindAllPop ;;
     Ret (mk_reply 200 (BPopProfiles profiles)))
    (fun _ => Ret server_error).

(** ** GET /user/:user_id (lines 115-130) *)
Definition get_by_user (user_id : string) : prog Reply :=
  try_catch
    (match ObjectId.cast user_id with
     | None => Throw (CastError "ObjectId")
     | Some u =>
         profile <- await (QFindOnePop u) ;;
         match profile with
         | None => Ret (mk_reply 400 (BText "Profile not found"))
         | Some pp => Ret (mk_reply 200 (BPopProfile pp))
         end
     end)
    (fun err =>
       match err with
       | CastError kind =>
           if String.eqb kind "ObjectId" then Ret (mk_reply 400 (BText "Profile not found"))
           else Ret server_error
       | _ => Ret server_error
       end).

(** ** DELETE / (lines 135-149): posts, then profile, then user. *)
Definition delete_profile (uid : N) : prog Reply :=
  try_catch
    (await (QPostDeleteMany uid) ;;
     await (QProfileFindOneAndDelete uid) ;;
     await (QUserFindOneAndDelete uid) ;;
     Ret (mk_reply 200 (BMsg "User deleted")))
    (fun _ => Ret server_error).

(** ** PUT /experience (lines 154-195) *)

Definition with_experience (p : Profile) (l : list Experience) : Profile :=
  mk_profile (p_id p) (p_user p) (p_company p) (p_website p) (p_location p)
    (p_status p) (p_bio p) (p_githubusername p) (p_skills p) (p_social p)
    l (p_education p) (p_version p).

Definition with_education (p : Profile) (l : list Education) : Profile :=
  mk_profile (p_id p) (p_user p) (p_company p) (p_website p) (p_location p)
    (p_status p) (p_bio p) (p_githubusername p) (p_skills p) (p_social p)
    (p_experience p) l (p_version p).

(** [newExp], cast into a sub-document with a fresh [_id]. *)
Definition new_exp (i : N) (b : Body) : Experience :=
  mk_experience i (body_get b "title") (body_get b "company") (body_get b "location")
    (body_get b "from") (body_get b "to") (body_get b "current")
    (body_get b "description").

(** [profile.experience] on a [null] profile. *)
Definition null_deref (field : string) : JsError :=
  TypeError ("Cannot read property '" ++ field ++ "' of null").

(** [await profile.save(); res.json(profile)]: [save] sets the new
    version key on [profile] in place, so the reply is the document
    [QSave] gives back. *)

Definition put_experience (uid : N) (b : Body) : prog Reply :=
  match validation_result b experience_checks with
  | (_ :: _) as errs => Ret (mk_reply 400 (BErrors errs))
  | [] =>
      try_catch
        (profile <- await (QFindOne uid) ;;
         match profile with
         | None => Throw (null_deref "experience")
         | Some p =>
             i <- await QNewId ;;
             let p' := with_experience p (JsArray.unshift (new_exp i b) (p_experience p)) in
             saved <- await (QSave p' PathExperience) ;;
             Ret (mk_reply 200 (BProfile (Some saved)))
         end)
        (fun _ => Ret server_error)
  end.

(** ** DELETE /experience/:exp_id (lines 200-215) *)
Definition delete_experience (uid : N) (exp_id_param : string) : prog Reply :=
  try_catch
    (profile <- await (QFindOne uid) ;;
     match profile with
     | None => Throw (null_deref "experience")
     | Some p =>
         let remove_index :=
           JsArray.index_of (map (fun e => ObjectId.to_hex (exp_id e)) (p_experience p))
             exp_id_param in
         let p' := with_experience p (JsArray.splice (p_experience p) remove_index 1).2 in
         saved <- await (QSave p' PathExperience) ;;
         Ret (mk_reply 200 (BProfile (Some saved)))
     end)
    (fun _ => Ret server_error).

(** ** PUT /education (lines 220-261) *)
Definition new_edu (i : N) (b : Body) : Education :=
  mk_education i (body_get b "school") (body_get b "degree") (body_get b "fieldofstudy")
    (body_get b "from") (body_get b "to") (body_get b "current")
    (body_get b "description").

Definition put_education (uid : N) (b : Body) : prog Reply :=
  match validation_result b education_checks with
  | (_ :: _) as errs => Ret (mk_reply 400 (BErrors errs))
  | [] =>
      try_catch
        (profile <- await (QFindOne uid) ;;
         match profile with
         | None => Throw (null_deref "education")
         | Some p =>
             i <- await QNewId ;;
             let p' := with_education p (JsArray.unshift (new_edu i b) (p_education p)) in
             saved <- await (QSave p' PathEducation) ;;
             Ret (mk_reply 200 (BProfile (Some saved)))
         end)
        (fun _ => Ret server_error)
  end.

(** ** DELETE /education/:edu_id (lines 266-281) *)
Definition delete_education (uid : N) (edu_id_param : string) : prog Reply :=
  try_catch
    (profile <- await (QFindOne uid) ;;
     match profile with
     | None => Throw (null_deref "education")
     | Some p =>
         let remove_index :=
           JsArray.index_of (map (fun e => ObjectId.to_hex (edu_id e)) (p_education p))
             edu_id_param in
         let p' := with_education p (JsArray.splice (p_education p) remove_index 1).2 in
         saved <- await (QSave p' PathEducation) ;;
         Ret (mk_reply 200 (BProfile (Some saved)))
     end)
    (fun _ => Ret server_error).

(** ** The router (lines 14-281) with the [auth] middleware *)

Inductive Request :=
| GetMe
| PostProfile (b : Body)
| GetAll
| GetByUser (user_id : string)
| DeleteProfile
| PutExperience (b : Body)
| DeleteExperience (exp_id : string)
| PutEducation (b : Body)
| DeleteEducation (edu_id : string).

(** The reply of the [auth] middleware to a request without a valid
    token. *)
Definition auth_denied : Reply := mk_reply 401 (BMsg "No token, authorization denied").

(** [token] is the user id the middleware decodes, [None] without a
    valid token. *)
Definition route (token : option N) (r : Request) : prog Reply :=
  match r with
  | GetAll => get_all
  | _ =>
      match token with
      | None => Ret auth_denied
      | Some uid =>
          match r with
          | GetMe => get_me uid
          | PostProfile b => post_profile uid b
          | GetAll => get_all
          | GetByUser s => get_by_user s
          | DeleteProfile => delete_profile uid
          | PutExperience b => put_experience uid b
          | DeleteExperience s => delete_experience uid s
          | PutEducation b => put_education uid b
          | DeleteEducation s => delete_education uid s
          end
      end
  end.

(** ** Examples: a concrete store and requests *)

Definition ex_exp (i : N) (title : string) : Experience :=
  mk_experience i (JStr title) (JStr "Acme") JUndefined (JStr "2019-01-01") JUndefined
    (JBool false) JUndefined.

Definition ex_edu (i : N) : Education :=
  mk_education i (JStr "MIT") (JStr "BSc") (JStr "CS") (JStr "2015-09-01") JUndefined
    (JBool false) JUndefined.

Definition ex_profile : Profile :=
  mk_profile 3 1 (Some (JStr "Acme")) None None (Some (JStr "Developer")) None None
    ["js"] social_empty [ex_exp 5 "Lead"; ex_exp 4 "Junior"] [ex_edu 6] 0.

Definition ex_store : Store :=
  mk_store [mk_user 1 "Ann" "a.png"; mk_user 2 "Bob" "b.png"] [ex_profile]
    [mk_post 7 1 "hello" []; mk_post 8 2 "hi" []] 10 true.

Definition ex_store_down : Store :=
  mk_store (users ex_store) (profiles ex_store) (posts ex_store) (next_id ex_store) false.


Definition ex_body : Body :=
  <["status" := JStr "Developer"]> (<["skills" := JStr " html, css ,js"]>
    (<["youtube" := JStr "yt"]> ∅)).

Definition ex_fields : ProfileFields :=
  mk_profile_fields 2 None None None (Some (JStr "Developer")) None None
    (Some ["html"; "css"; "js"]) (mk_social (Some (JStr "yt")) None None None None).

Definition ex_exp_body : Body :=
  <["title" := JStr "CTO"]> (<["company" := JStr "Beta"]> (<["from" := JStr "2021-01-01"]> ∅)).

Definition ex_edu_body : Body :=
  <["school" := JStr "ETH"]> (<["degree" := JStr "MSc"]> (<["fieldofstudy" := JStr "CS"]> ∅)).

Definition ex_skills_body : Body := <["status" := JStr "Dev"]> (<["skills" := JNum 5]> ∅).
Definition ex_false_body : Body := <["status" := JBool false]> (<["skills" := JStr "go"]> ∅).

(** The reply of an outcome, [0] when no reply was sent. *)
Definition reply_of (o : Store * (JsError + Reply)) : Reply :=
  match o.2 with inr r => r | inl _ => mk_reply 0 (BMsg "") end.

(** ** Theorems: [POST /] *)

Lemma build_profile_fields_user uid b pf :
  build_profile_fields uid b = inr pf -> pf_user pf = uid.
Proof. unfold build_profile_fields. destruct (normalize_skills _); by intros [= <-]. Qed.

(** Past the gate, [POST /] updates the caller's profile when it exists
    and creates it otherwise, and answers 200 with the new document. *)
Lemma post_profile_run uid b s pf :
  db_up s = true -> validation_result b profile_checks = [] ->
  build_profile_fields uid b = inr pf ->
  run s (post_profile uid b) =
  match find_profile s uid with
  | Some p => (set_profiles s (update_first (by_user uid) (apply_set pf) (profiles s)),
               inr (mk_reply 200 (BProfile (Some (apply_set pf p)))))
  | None => (set_profiles (bump_id s) (profiles s ++ [new_profile (next_id s) pf]),
             inr (mk_reply 200 (BProfile (Some (new_profile (next_id s) pf)))))
  end.
Proof.
  intros Hup Hv Hb. unfold post_profile. rewrite Hv, Hb. run_db Hup.
  destruct (find_profile s uid) eqn:Hf; run_db Hup; by rewrite ?Hf.
Qed.

(** A 200 answer of [POST /] means the gate passed, the fields were
    assembled and the store was reachable. *)
Lemma post_profile_ok_inv uid b s s' r :
  run s (post_profile uid b) = (s', inr r) -> status r = 200%N ->
  db_up s = true /\ validation_result b profile_checks = [] /\
  exists pf, build_profile_fields uid b = inr pf.
Proof.
  intros Hrun Hst. unfold post_profile in Hrun.
  destruct (validation_result b profile_checks) eqn:Hv;
    [|simpl in Hrun; injection Hrun as _ <-; done].
  destruct (build_profile_fields uid b) as [e|pf] eqn:Hb; [done|].
  destruct (db_up s) eqn:Hup; [by eauto|].
  revert Hrun. run_db Hup. discriminate.
Qed.

(** The profile stored for the caller after a successful [POST /]. *)
Lemma post_profile_stored uid b s s' r pf :
  store_wf s -> run s (post_profile uid b) = (s', inr r) -> status r = 200%N ->
  build_profile_fields uid b = inr pf ->
  store_wf s' /\
  find_profile s' uid =
    Some (match find_profile s uid with
          | Some p => apply_set pf p
          | None => new_profile (next_id s) pf
          end).
Proof.
  intros Hwf Hrun Hst Hb.
  destruct (post_profile_ok_inv _ _ _ _ _ Hrun Hst) as (Hup & Hv & _).
  rewrite (post_profile_run uid b s pf) in Hrun by done.
  pose proof (build_profile_fields_user _ _ _ Hb) as Hu.
  destruct (find_profile s uid) as [p|] eqn:Hf; injection Hrun as <- _.
  - split; [by apply wf_update|]. unfold find_profile. simpl.
    apply find_update_first; [done|]. unfold by_user. simpl. rewrite Hu. apply N.eqb_refl.
  - split; [apply wf_create; [done|by rewrite Hu]|]. unfold find_profile. simpl.
    rewrite find_app_none by done. simpl. unfold by_user. simpl.
    by rewrite Hu, N.eqb_refl.
Qed.

(** C3 (invariant). [POST /] is an upsert: from a well-formed store, a
    successful request leaves a well-formed store in which the caller
    has exactly one profile, whether it created or updated it. *)
Theorem post_profile_single_profile uid b s s' r :
  store_wf s -> run s (post_profile uid b) = (s', inr r) -> status r = 200%N ->
  store_wf s' /\ exists p, filter (fun p => p_user p = uid) (profiles s') = [p].
Proof.
  intros Hwf Hrun Hst.
  destruct (post_profile_ok_inv _ _ _ _ _ Hrun Hst) as (_ & _ & pf & Hb).
  destruct (post_profile_stored _ _ _ _ _ _ Hwf Hrun Hst Hb) as [Hwf' Hf].
  split; [done|]. eexists. by apply find_profile_unique.
Qed.

(** Validation passed means [skills] converts to a non-empty string. *)
Lemma profile_gate_skills b :
  validation_result b profile_checks = [] -> to_string (body_get b "skills") <> "".
Proof.
  intros Hv. apply validation_result_nil in Hv. invc Hv. invc H2.
  unfold check_fails in H1. simpl in H1. by apply String.eqb_neq.
Qed.

(** C24 (functional). The stored [skills] of a successful [POST /] with
    a string [skills] are its comma-separated pieces, each trimmed, in
    order. *)
Theorem post_profile_skills uid b s s' r str :
  store_wf s -> run s (post_profile uid b) = (s', inr r) -> status r = 200%N ->
  body_get b "skills" = JStr str ->
  exists p, find_profile s' uid = Some p /\
            p_skills p = map JsString.trim (JsString.split (Ascii.ascii_of_nat 44) str).
Proof.
  intros Hwf Hrun Hst Hs.
  destruct (post_profile_ok_inv _ _ _ _ _ Hrun Hst) as (_ & Hv & pf & Hb).
  destruct (post_profile_stored _ _ _ _ _ _ Hwf Hrun Hst Hb) as [_ Hf].
  eexists. split; [exact Hf|].
  pose proof (profile_gate_skills b Hv) as Hne. rewrite Hs in Hne. simpl in Hne.
  unfold build_profile_fields, normalize_skills in Hb. rewrite Hs in Hb. simpl in Hb.
  destruct (String.eqb_spec str ""); [done|]. simpl in Hb. injection Hb as <-.
  by destruct (find_profile s uid).
Qed.

(** The gate of [POST /] passes when both fields convert to non-empty
    strings. *)
Lemma profile_gate_pass b :
  to_string (body_get b "status") <> "" -> to_string (body_get b "skills") <> "" ->
  validation_result b profile_checks = [].
Proof.
  intros Hs Hk. apply validation_result_nil.
  repeat constructor; unfold check_fails; simpl; by apply String.eqb_neq.
Qed.

(** C27 (error). A [POST /] whose [status] converts to the empty string
    (absent, [null] or [""]) is answered 400 with the status error first
    in the list, and the store is untouched. *)
Theorem post_profile_status_required uid b s :
  to_string (body_get b "status") = "" ->
  exists es, run s (post_profile uid b) =
    (s, inr (mk_reply 400 (BErrors (mk_verror (body_get b "status") "Status is required"
                                      "status" "body" :: es)))).
Proof.
  intros Hs. unfold post_profile, profile_checks. cbn [validation_result].
  unfold run_check at 1, check_fails at 1. cbn [ck_field ck_msg]. rewrite Hs.
  simpl. by eexists.
Qed.

Lemma set_field_merged v old : (if if_truthy v is Some w then Some w else old) = merged v old.
Proof. unfold if_truthy, merged. by destruct (truthy v). Qed.

(** C23 (functional). Updating an existing profile merges every
    top-level field (a field absent or falsy in the request keeps its
    stored value, [skills] included), rebuilds [social] from the
    request alone, and keeps the profile's id, experience, education
    and version key; the reply is the stored document. *)
Theorem post_profile_update_merge uid b s s' r p :
  store_wf s -> find_profile s uid = Some p ->
  run s (post_profile uid b) = (s', inr r) -> status r = 200%N ->
  let p' := mk_profile (p_id p) uid
      (merged (body_get b "company") (p_company p)) (merged (body_get b "website") (p_website p))
      (merged (body_get b "location") (p_location p)) (merged (body_get b "status") (p_status p))
      (merged (body_get b "bio") (p_bio p))
      (merged (body_get b "githubusername") (p_githubusername p))
      (match normalize_skills (body_get b "skills") with inr (Some l) => l | _ => p_skills p end)
      (mk_social (if_truthy (body_get b "youtube")) (if_truthy (body_get b "twitter"))
                 (if_truthy (body_get b "facebook")) (if_truthy (body_get b "linkedin"))
                 (if_truthy (body_get b "instagram")))
      (p_experience p) (p_education p) (p_version p) in
  find_profile s' uid = Some p' /\ r = mk_reply 200 (BProfile (Some p')).
Proof.
  intros Hwf Hf Hrun Hst p'.
  destruct (post_profile_ok_inv _ _ _ _ _ Hrun Hst) as (Hup & Hv & pf & Hb).
  destruct (post_profile_stored _ _ _ _ _ _ Hwf Hrun Hst Hb) as [_ Hf'].
  rewrite (post_profile_run uid b s pf), Hf in Hrun by done. injection Hrun as <- <-.
  rewrite Hf in Hf'. rewrite Hf'. subst p'.
  unfold build_profile_fields in Hb. destruct (normalize_skills _) as [|sk]; [done|].
  injection Hb as <-. unfold apply_set. cbn [pf_user pf_company pf_website pf_location
    pf_status pf_bio pf_githubusername pf_skills pf_social].
  rewrite !set_field_merged. by destruct sk.
Qed.

(** C9 (error). A [skills] value that passes the gate but is not a
    string (here a non-zero number) makes [skills.split] throw before
    the [try]: the handler's promise rejects, no reply is sent and the
    store is untouched. *)
Theorem post_profile_number_skills uid b s z :
  to_string (body_get b "status") <> "" -> body_get b "skills" = JNum z -> z <> 0%Z ->
  run s (post_profile uid b) = (s, inl (TypeError "skills.split is not a function")).
Proof.
  intros Hs Hk Hz. unfold post_profile.
  rewrite profile_gate_pass; [|done|rewrite Hk; apply pretty_Z_not_empty].
  unfold build_profile_fields, normalize_skills. rewrite Hk. simpl.
  by destruct (Z.eqb_spec z 0).
Qed.

(** C8 (error). When the store rejects the query, the [catch] block of
    [POST /] throws a ReferenceError ([json] is unbound): the request
    gets no reply at all instead of the intended 500. *)
Theorem post_profile_db_error_no_reply uid b s pf :
  db_up s = false -> validation_result b profile_checks = [] ->
  build_profile_fields uid b = inr pf ->
  run s (post_profile uid b) = (s, inl (ReferenceError "json is not defined")).
Proof. intros Hdown Hv Hb. unfold post_profile. rewrite Hv, Hb. by run_db Hdown. Qed.

(** C28 (functional). A [status] of [false] passes the gate (it converts
    to ["false"]) but is falsy, so a created profile has no status. *)
Theorem post_profile_false_status_dropped uid b s s' r :
  store_wf s -> body_get b "status" = JBool false -> find_profile s uid = None ->
  run s (post_profile uid b) = (s', inr r) -> status r = 200%N ->
  exists p, find_profile s' uid = Some p /\ p_status p = None.
Proof.
  intros Hwf Hs Hf Hrun Hst.
  destruct (post_profile_ok_inv _ _ _ _ _ Hrun Hst) as (_ & _ & pf & Hb).
  destruct (post_profile_stored _ _ _ _ _ _ Hwf Hrun Hst Hb) as [_ Hf'].
  rewrite Hf in Hf'. eexists. split; [exact Hf'|].
  unfold build_profile_fields in Hb. destruct (normalize_skills _); [done|].
  injection Hb as <-. simpl. by rewrite Hs.
Qed.

(** ** Theorems: [DELETE /] *)

Lemma delete_profile_run uid s :
  db_up s = true ->
  run s (delete_profile uid) =
  (set_users
     (set_profiles
        (set_posts s (filter (fun po => N.eqb (post_user po) uid = false) (posts s)))
        (delete_first (by_user uid) (profiles s)))
     (delete_first (fun us => N.eqb (u_id us) uid) (users s)),
   inr (mk_reply 200 (BMsg "User deleted"))).
Proof. intros Hup. unfold delete_profile. run_db Hup. reflexivity. Qed.

(** C4 (safety). Deleting an account removes exactly the caller's posts,
    profile and user record and nothing else, and keeps the store
    well formed. *)
Theorem delete_profile_cascade uid s s' r :
  store_wf s -> db_up s = true -> run s (delete_profile uid) = (s', r) ->
  r = inr (mk_reply 200 (BMsg "User deleted")) /\ store_wf s' /\
  (forall po, po ∈ posts s' <-> po ∈ posts s /\ post_user po <> uid) /\
  (forall p, p ∈ profiles s' <-> p ∈ profiles s /\ p_user p <> uid) /\
  (forall us, us ∈ users s' <-> us ∈ users s /\ u_id us <> uid).
Proof.
  intros Hwf Hup Hrun. rewrite delete_profile_run in Hrun by done.
  injection Hrun as <- <-. split; [done|]. split.
  { exact (wf_delete_user _ (wf_delete_profile _ (wf_set_posts s Hwf _) uid) uid). }
  split; [|split]; intros x; simpl.
  - rewrite list_elem_of_filter, N.eqb_neq. naive_solver.
  - apply elem_of_delete_first_key, Hwf.
  - apply elem_of_delete_first_key, Hwf.
Qed.

(** ** Sub-document removal by hex id *)

Section RemoveById.
Context {A : Type} (key : A -> N).

Definition remove_by_hex (l : list A) (param : string) : list A :=
  (JsArray.splice l (JsArray.index_of (map (fun e => ObjectId.to_hex (key e)) l) param) 1).2.

(** The id of an element of the list, in hex, removes exactly that
    element when the ids are distinct and below [2^96]. *)
Lemma remove_by_hex_present l x :
  NoDup (map key l) -> ids_below ObjectId.oid_bound (map key l) -> x ∈ l ->
  remove_by_hex l (ObjectId.to_hex (key x)) = filter (fun y => key y <> key x) l.
Proof.
  intros Hnd Hb Hx. unfold remove_by_hex.
  assert (ObjectId.to_hex (key x) ∈ map (fun e => ObjectId.to_hex (key e)) l) as Hin
    by (apply list_elem_of_fmap; by exists x).
  destruct (JsArray.index_of_present _ _ Hin) as (n & -> & Hn & _).
  apply list_lookup_fmap_Some in Hn as (y & Hhex & Hy).
  assert (key y = key x) as Hk.
  { unfold ids_below in Hb. rewrite Forall_forall in Hb.
    apply ObjectId.to_hex_inj; [..|done]; apply Hb, list_elem_of_fmap;
      [exists y|exists x]; split; try done; by eapply list_elem_of_lookup_2. }
  rewrite JsArray.splice_valid by (by eapply lookup_lt_Some). simpl.
  rewrite <- Hk. by apply delete_key_filter.
Qed.

(** A parameter that is no id of the list removes its LAST element. *)
Lemma remove_by_hex_absent l param :
  (forall y, y ∈ l -> ObjectId.to_hex (key y) <> param) -> l <> [] ->
  remove_by_hex l param = take (length l - 1) l.
Proof.
  intros Hno Hne. unfold remove_by_hex.
  rewrite JsArray.index_of_absent; [by apply JsArray.splice_minus_one|].
  intros Hin. apply list_elem_of_fmap in Hin as (y & Hy & Hyl). by apply (Hno y).
Qed.

Lemma remove_by_hex_sublist l param : remove_by_hex l param `sublist_of` l.
Proof. apply JsArray.splice_sublist. Qed.


(** C15 (equivalence). When the hex ids of the list are distinct, the
    removal the delete routes perform ([map] to hex ids, [indexOf],
    [splice(i, 1)]) agrees with the reference removal, which keeps the
    elements whose hex id differs from the parameter, exactly when the
    parameter is one of the ids or the list is empty. *)
Theorem remove_by_hex_equiv l param :
  NoDup (map (fun e => ObjectId.to_hex (key e)) l) ->
  remove_by_hex l param = filter (fun y => ObjectId.to_hex (key y) <> param) l <->
  l = [] \/ param ∈ map (fun e => ObjectId.to_hex (key e)) l.
Proof.
  intros Hnd. destruct (decide (param ∈ map (fun e => ObjectId.to_hex (key e)) l)) as [Hin|Hout].
  - split; [by right|intros _]. unfold remove_by_hex.
    destruct (JsArray.index_of_present _ _ Hin) as (n & -> & Hn & _).
    apply list_lookup_fmap_Some in Hn as (y & -> & Hy).
    rewrite JsArray.splice_valid by (by eapply lookup_lt_Some). cbn [snd].
    exact (delete_key_filter (fun e => ObjectId.to_hex (key e)) l n y Hnd Hy).
  - assert (Hall : forall y, y ∈ l -> ObjectId.to_hex (key y) <> param).
    { intros y Hy Heq. apply Hout, list_elem_of_fmap. by exists y. }
    rewrite (filter_every _ l Hall). destruct l as [|y l'].
    { split; [intros _; by left|intros _]. unfold remove_by_hex.
      by rewrite JsArray.splice_nil. }
    rewrite remove_by_hex_absent by (done || discriminate). split.
    + intros H. apply (f_equal length) in H. rewrite length_take in H. cbn [length] in H. lia.
    + intros [Hnil|Hp]; [discriminate Hnil|contradiction].
Qed.
End RemoveById.

(** ** Theorems: experience *)

Lemma new_id_fresh (n : N) (l : list N) :
  NoDup l -> ids_below n l -> NoDup (n :: l) /\ ids_below (N.succ n) (n :: l).
Proof.
  intros Hnd Hb. split.
  - constructor; [|done]. intros Hin. unfold ids_below in Hb. rewrite Forall_forall in Hb.
    specialize (Hb n Hin). lia.
  - constructor; [lia|]. eapply ids_below_mono; [|exact Hb]. lia.
Qed.

Lemma put_experience_run uid b s p :
  store_wf s -> db_up s = true -> validation_result b experience_checks = [] ->
  find_profile s uid = Some p ->
  let p' := with_experience p (new_exp (next_id s) b :: p_experience p) in
  run s (put_experience uid b) =
  (set_profiles (bump_id s)
     (update_first (by_pid (p_id p)) (write_path PathExperience p') (profiles s)),
   inr (mk_reply 200 (BProfile (Some (bump_version p'))))).
Proof.
  intros Hwf Hup Hv Hf p'. subst p'. unfold put_experience. rewrite Hv. run_db Hup.
  rewrite Hf. run_db Hup. rewrite (find_pid_self _ _ _ Hwf Hf), ?N.eqb_refl. reflexivity.
Qed.

Lemma profile_ok_with_experience n p l :
  profile_ok n p -> NoDup (map exp_id l) -> ids_below n (map exp_id l) ->
  profile_ok n (with_experience p l).
Proof. intros (? & _ & _ & ? & ?) ? ?. unfold profile_ok, with_experience. simpl. tauto. Qed.

Lemma profile_ok_with_education n p l :
  profile_ok n p -> NoDup (map edu_id l) -> ids_below n (map edu_id l) ->
  profile_ok n (with_education p l).
Proof. intros (? & ? & ? & _ & _) ? ?. unfold profile_ok, with_education. simpl. tauto. Qed.

(** The state after adding an experience: well formed, with the new
    document stored for the caller. *)
Lemma put_experience_stored uid b s s' r p :
  store_wf s -> db_up s = true -> validation_result b experience_checks = [] ->
  find_profile s uid = Some p -> run s (put_experience uid b) = (s', r) ->
  let p' := with_experience p (new_exp (next_id s) b :: p_experience p) in
  store_wf s' /\ find_profile s' uid = Some (bump_version p') /\
  r = inr (mk_reply 200 (BProfile (Some (bump_version p')))).
Proof.
  intros Hwf Hup Hv Hf Hrun p'. rewrite (put_experience_run uid b s p) in Hrun by done.
  injection Hrun as <- <-.
  split; [|split; [exact (find_profile_after_save s uid p PathExperience p' Hwf Hf)|done]].
  apply (wf_save (bump_id s) (wf_bump s Hwf) p' PathExperience).
  pose proof (find_profile_ok _ _ _ Hwf Hf) as Hok.
  pose proof Hok as (Hid & Hnd & Hb & Hnd' & Hb').
  destruct (new_id_fresh (next_id s) _ Hnd Hb) as [Hnd2 Hb2].
  apply profile_ok_with_experience; [|done|done].
  eapply profile_ok_mono; [|exact Hok]. simpl. lia.
Qed.

(** C25 (functional). Adding an experience to a profile with [N]
    entries stores [N+1] entries with the new one, under a fresh id,
    first and the others in their order; the store stays well formed. *)
Theorem put_experience_prepends uid b s s' r p :
  store_wf s -> db_up s = true -> validation_result b experience_checks = [] ->
  find_profile s uid = Some p -> run s (put_experience uid b) = (s', r) ->
  store_wf s' /\
  exists p', find_profile s' uid = Some p' /\ r = inr (mk_reply 200 (BProfile (Some p'))) /\
    p_experience p' = new_exp (next_id s) b :: p_experience p /\
    length (p_experience p') = S (length (p_experience p)).
Proof.
  intros Hwf Hup Hv Hf Hrun.
  destruct (put_experience_stored _ _ _ _ _ _ Hwf Hup Hv Hf Hrun) as (Hwf' & Hf' & Hr).
  split; [done|]. eexists. by repeat split.
Qed.

(** C29 (error). Adding an experience when the caller has no profile
    dereferences [null]; the [catch] answers 500 and nothing changes. *)
Theorem put_experience_no_profile uid b s :
  db_up s = true -> validation_result b experience_checks = [] ->
  find_profile s uid = None ->
  run s (put_experience uid b) = (s, inr server_error).
Proof. intros Hup Hv Hf. unfold put_experience. rewrite Hv. run_db Hup. by rewrite Hf. Qed.

Lemma delete_experience_run uid prm s p :
  store_wf s -> db_up s = true -> find_profile s uid = Some p ->
  let p' := with_experience p (remove_by_hex exp_id (p_experience p) prm) in
  run s (delete_experience uid prm) =
  (set_profiles s (update_first (by_pid (p_id p)) (write_path PathExperience p') (profiles s)),
   inr (mk_reply 200 (BProfile (Some (bump_version p'))))).
Proof.
  intros Hwf Hup Hf p'. subst p'. unfold delete_experience. run_db Hup.
  rewrite Hf. run_db Hup. rewrite (find_pid_self _ _ _ Hwf Hf), ?N.eqb_refl. reflexivity.
Qed.

(** C26 (functional). Deleting an experience by the hex id of one of
    its entries removes exactly that entry and keeps the others in
    their order, when the issued ids fit in 96 bits. *)
Theorem delete_experience_by_id uid s s' r p e :
  store_wf s -> db_up s = true -> (next_id s <= ObjectId.oid_bound)%N ->
  find_profile s uid = Some p -> e ∈ p_experience p ->
  run s (delete_experience uid (ObjectId.to_hex (exp_id e))) = (s', r) ->
  exists p', find_profile s' uid = Some p' /\
    p_experience p' = filter (fun e' => exp_id e' <> exp_id e) (p_experience p).
Proof.
  intros Hwf Hup Hbound Hf He Hrun. rewrite (delete_experience_run _ _ _ p) in Hrun by done.
  injection Hrun as <- _. eexists. split; [apply (find_profile_after_save _ _ _ _ _ Hwf Hf)|].
  destruct (find_profile_ok _ _ _ Hwf Hf) as (_ & Hnd & Hb & _).
  apply remove_by_hex_present; [done| |done]. by eapply ids_below_mono.
Qed.

(** C7 (functional). Deleting an experience with a parameter that is
    no entry's id does not leave the list alone: [indexOf] gives [-1]
    and [splice(-1, 1)] removes the last, oldest, entry. *)
Theorem delete_experience_unknown_id uid s s' r p prm :
  store_wf s -> db_up s = true -> find_profile s uid = Some p ->
  p_experience p <> [] ->
  (forall e, e ∈ p_experience p -> ObjectId.to_hex (exp_id e) <> prm) ->
  run s (delete_experience uid prm) = (s', r) ->
  exists p', find_profile s' uid = Some p' /\
    p_experience p' = take (length (p_experience p) - 1) (p_experience p).
Proof.
  intros Hwf Hup Hf Hne Hno Hrun. rewrite (delete_experience_run _ _ _ p) in Hrun by done.
  injection Hrun as <- _. eexists. split; [apply (find_profile_after_save _ _ _ _ _ Hwf Hf)|].
  by apply remove_by_hex_absent.
Qed.

(** ** Theorems: education (the mirror of the experience routes) *)

Lemma put_education_run uid b s p :
  store_wf s -> db_up s = true -> validation_result b education_checks = [] ->
  find_profile s uid = Some p ->
  let p' := with_education p (new_edu (next_id s) b :: p_education p) in
  run s (put_education uid b) =
  (set_profiles (bump_id s)
     (update_first (by_pid (p_id p)) (write_path PathEducation p') (profiles s)),
   inr (mk_reply 200 (BProfile (Some (bump_version p'))))).
Proof.
  intros Hwf Hup Hv Hf p'. subst p'. unfold put_education. rewrite Hv. run_db Hup.
  rewrite Hf. run_db Hup. rewrite (find_pid_self _ _ _ Hwf Hf), ?N.eqb_refl. reflexivity.
Qed.

Lemma put_education_stored uid b s s' r p :
  store_wf s -> db_up s = true -> validation_result b education_checks = [] ->
  find_profile s uid = Some p -> run s (put_education uid b) = (s', r) ->
  let p' := with_education p (new_edu (next_id s) b :: p_education p) in
  store_wf s' /\ find_profile s' uid = Some (bump_version p') /\
  r = inr (mk_reply 200 (BProfile (Some (bump_version p')))).
Proof.
  intros Hwf Hup Hv Hf Hrun p'. rewrite (put_education_run uid b s p) in Hrun by done.
  injection Hrun as <- <-.
  split; [|split; [exact (find_profile_after_save s uid p PathEducation p' Hwf Hf)|done]].
  apply (wf_save (bump_id s) (wf_bump s Hwf) p' PathEducation).
  pose proof (find_profile_ok _ _ _ Hwf Hf) as Hok.
  pose proof Hok as (Hid & Hnd & Hb & Hnd' & Hb').
  destruct (new_id_fresh (next_id s) _ Hnd' Hb') as [Hnd2 Hb2].
  apply profile_ok_with_education; [|done|done].
  eapply profile_ok_mono; [|exact Hok]. simpl. lia.
Qed.

(** Adding an education entry stores it first,
    under a fresh id, before the previous entries. *)
Theorem put_education_prepends uid b s s' r p :
  store_wf s -> db_up s = true -> validation_result b education_checks = [] ->
  find_profile s uid = Some p -> run s (put_education uid b) = (s', r) ->
  store_wf s' /\
  exists p', find_profile s' uid = Some p' /\ r = inr (mk_reply 200 (BProfile (Some p'))) /\
    p_education p' = new_edu (next_id s) b :: p_education p.
Proof.
  intros Hwf Hup Hv Hf Hrun.
  destruct (put_education_stored _ _ _ _ _ _ Hwf Hup Hv Hf Hrun) as (Hwf' & Hf' & Hr).
  split; [done|]. eexists. by repeat split.
Qed.

Lemma delete_education_run uid prm s p :
  store_wf s -> db_up s = true -> find_profile s uid = Some p ->
  let p' := with_education p (remove_by_hex edu_id (p_education p) prm) in
  run s (delete_education uid prm) =
  (set_profiles s (update_first (by_pid (p_id p)) (write_path PathEducation p') (profiles s)),
   inr (mk_reply 200 (BProfile (Some (bump_version p'))))).
Proof.
  intros Hwf Hup Hf p'. subst p'. unfold delete_education. run_db Hup.
  rewrite Hf. run_db Hup. rewrite (find_pid_self _ _ _ Hwf Hf), ?N.eqb_refl. reflexivity.
Qed.

(** Deleting an education entry by its hex id
    removes exactly that entry. *)
Theorem delete_education_by_id uid s s' r p e :
  store_wf s -> db_up s = true -> (next_id s <= ObjectId.oid_bound)%N ->
  find_profile s uid = Some p -> e ∈ p_education p ->
  run s (delete_education uid (ObjectId.to_hex (edu_id e))) = (s', r) ->
  exists p', find_profile s' uid = Some p' /\
    p_education p' = filter (fun e' => edu_id e' <> edu_id e) (p_education p).
Proof.
  intros Hwf Hup Hbound Hf He Hrun. rewrite (delete_education_run _ _ _ p) in Hrun by done.
  injection Hrun as <- _. eexists. split; [apply (find_profile_after_save _ _ _ _ _ Hwf Hf)|].
  destruct (find_profile_ok _ _ _ Hwf Hf) as (_ & _ & _ & Hnd & Hb).
  apply remove_by_hex_present; [done| |done]. by eapply ids_below_mono.
Qed.

(** ** Theorems: the read routes *)

(** C30 (error). [GET /user/:user_id] answers a malformed id and a
    well-formed id without a profile with the same 400 reply. *)
Theorem get_by_user_not_found s prm :
  (ObjectId.cast prm = None \/
   exists u, ObjectId.cast prm = Some u /\ db_up s = true /\ find_profile s u = None) ->
  run s (get_by_user prm) = (s, inr (mk_reply 400 (BText "Profile not found"))).
Proof.
  intros [Hc|(u & Hc & Hup & Hf)]; unfold get_by_user; rewrite Hc; [done|].
  run_db Hup. by rewrite Hf.
Qed.

(** [GET /me] answers 400 without a profile and 200
    with the caller's profile, its user expanded, otherwise. *)
Theorem get_me_reply uid s :
  db_up s = true ->
  run s (get_me uid) =
  (s, inr (match find_profile s uid with
           | None => mk_reply 400 (BMsg "There is no profile for this user")
           | Some p => mk_reply 200 (BPopProfile (populate s p))
           end)).
Proof. intros Hup. unfold get_me. run_db Hup. by destruct (find_profile s uid). Qed.

(** C12 (safety). Without a token every route but [GET /] is refused
    with 401 and leaves the store alone, while [GET /] lists every
    profile: the listing route lacks the [auth] middleware. *)
Theorem route_without_token s r :
  db_up s = true ->
  run s (route None r) =
  (s, inr (match r with
           | GetAll => mk_reply 200 (BPopProfiles (map (populate s) (profiles s)))
           | _ => auth_denied
           end)).
Proof. intros Hup. destruct r; try done. unfold route, get_all. by run_db Hup. Qed.

(** ** The invariant over every route *)

Lemma reads_keep_store s (p : prog Reply) :
  p = get_all \/ (exists u, p = get_me u) \/ (exists prm, p = get_by_user prm) ->
  (run s p).1 = s.
Proof.
  intros [->|[(u & ->)|(prm & ->)]]; destruct (db_up s) eqn:Hup.
  - unfold get_all. by run_db Hup.
  - unfold get_all. by run_db Hup.
  - unfold get_me. run_db Hup. by destruct (find_profile s u).
  - unfold get_me. by run_db Hup.
  - unfold get_by_user. destruct (ObjectId.cast prm); [|done].
    run_db Hup. by destruct (find_profile s n).
  - unfold get_by_user. destruct (ObjectId.cast prm); [|done]. by run_db Hup.
Qed.

Lemma post_profile_wf uid b s : store_wf s -> store_wf (run s (post_profile uid b)).1.
Proof.
  intros Hwf. destruct (validation_result b profile_checks) eqn:Hv;
    [|unfold post_profile; by rewrite Hv].
  destruct (build_profile_fields uid b) as [e|pf] eqn:Hb; [unfold post_profile; by rewrite Hv, Hb|].
  destruct (db_up s) eqn:Hup; [|unfold post_profile; rewrite Hv, Hb; by run_db Hup].
  rewrite (post_profile_run uid b s pf) by done.
  pose proof (build_profile_fields_user _ _ _ Hb) as Hu.
  destruct (find_profile s uid) eqn:Hf; simpl; [by apply wf_update|].
  apply wf_create; [done|by rewrite Hu].
Qed.

Lemma delete_profile_wf uid s : store_wf s -> store_wf (run s (delete_profile uid)).1.
Proof.
  intros Hwf. destruct (db_up s) eqn:Hup; [|unfold delete_profile; by run_db Hup].
  rewrite delete_profile_run by done. simpl.
  exact (wf_delete_user _ (wf_delete_profile _ (wf_set_posts s Hwf _) uid) uid).
Qed.

Lemma put_experience_wf uid b s : store_wf s -> store_wf (run s (put_experience uid b)).1.
Proof.
  intros Hwf. destruct (validation_result b experience_checks) eqn:Hv;
    [|unfold put_experience; by rewrite Hv].
  destruct (db_up s) eqn:Hup; [|unfold put_experience; rewrite Hv; by run_db Hup].
  destruct (find_profile s uid) as [p|] eqn:Hf;
    [|unfold put_experience; rewrite Hv; run_db Hup; by rewrite Hf].
  destruct (run s (put_experience uid b)) as [s' r] eqn:Hrun.
  by destruct (put_experience_stored _ _ _ _ _ _ Hwf Hup Hv Hf Hrun).
Qed.

Lemma put_education_wf uid b s : store_wf s -> store_wf (run s (put_education uid b)).1.
Proof.
  intros Hwf. destruct (validation_result b education_checks) eqn:Hv;
    [|unfold put_education; by rewrite Hv].
  destruct (db_up s) eqn:Hup; [|unfold put_education; rewrite Hv; by run_db Hup].
  destruct (find_profile s uid) as [p|] eqn:Hf;
    [|unfold put_education; rewrite Hv; run_db Hup; by rewrite Hf].
  destruct (run s (put_education uid b)) as [s' r] eqn:Hrun.
  by destruct (put_education_stored _ _ _ _ _ _ Hwf Hup Hv Hf Hrun).
Qed.

Lemma delete_experience_wf uid prm s :
  store_wf s -> store_wf (run s (delete_experience uid prm)).1.
Proof.
  intros Hwf. destruct (db_up s) eqn:Hup; [|unfold delete_experience; by run_db Hup].
  destruct (find_profile s uid) as [p|] eqn:Hf;
    [|unfold delete_experience; run_db Hup; by rewrite Hf].
  rewrite (delete_experience_run _ _ _ p) by done. simpl.
  pose proof (find_profile_ok _ _ _ Hwf Hf) as Hok.
  pose proof Hok as (_ & Hnd & Hb & _).
  pose proof (remove_by_hex_sublist exp_id (p_experience p) prm) as Hsub.
  apply (wf_save s Hwf (with_experience p (remove_by_hex exp_id (p_experience p) prm))
           PathExperience).
  apply profile_ok_with_experience; [done| |].
  - by eapply NoDup_map_sublist.
  - eapply Forall_sublist'; [apply sublist_map; exact Hsub|exact Hb].
Qed.

Lemma delete_education_wf uid prm s :
  store_wf s -> store_wf (run s (delete_education uid prm)).1.
Proof.
  intros Hwf. destruct (db_up s) eqn:Hup; [|unfold delete_education; by run_db Hup].
  destruct (find_profile s uid) as [p|] eqn:Hf;
    [|unfold delete_education; run_db Hup; by rewrite Hf].
  rewrite (delete_education_run _ _ _ p) by done. simpl.
  pose proof (find_profile_ok _ _ _ Hwf Hf) as Hok.
  pose proof Hok as (_ & _ & _ & Hnd & Hb).
  pose proof (remove_by_hex_sublist edu_id (p_education p) prm) as Hsub.
  apply (wf_save s Hwf (with_education p (remove_by_hex edu_id (p_education p) prm))
           PathEducation).
  apply profile_ok_with_education; [done| |].
  - by eapply NoDup_map_sublist.
  - eapply Forall_sublist'; [apply sublist_map; exact Hsub|exact Hb].
Qed.

(** C1 (invariant). Every request of the router, with or without a
    token, takes a well-formed store to a well-formed store: one
    profile per user, distinct document ids, distinct and fresh
    sub-document ids. *)
Theorem route_preserves_wf tok r s :
  store_wf s -> store_wf (run s (route tok r)).1.
Proof.
  intros Hwf. destruct r, tok as [uid|]; unfold route;
    first [ rewrite reads_keep_store; [done|by eauto 6]
          | by apply post_profile_wf | by apply delete_profile_wf
          | by apply put_experience_wf | by apply delete_experience_wf
          | by apply put_education_wf | by apply delete_education_wf
          | by simpl ].
Qed.

(** ** Witnesses: the theorems at the example store *)

Lemma ex_store_wf : store_wf ex_store.
Proof. by_decide. Qed.

Lemma route_preserves_wf_witness :
  store_wf ex_store /\ store_wf (run ex_store (route (Some 2%N) (PostProfile ex_body))).1.
Proof. split; [by_decide|apply route_preserves_wf; by_decide]. Defined.

Lemma post_profile_single_profile_witness :
  let o := run ex_store (post_profile 2 ex_body) in
  store_wf ex_store /\ o = (o.1, inr (reply_of o)) /\ status (reply_of o) = 200%N /\
  store_wf o.1 /\ exists p, filter (fun p => p_user p = 2%N) (profiles o.1) = [p].
Proof.
  intros o. assert (Hwf : store_wf ex_store) by by_decide.
  assert (Ho : o = (o.1, inr (reply_of o))) by (vm_compute; reflexivity).
  assert (Hs : status (reply_of o) = 200%N) by (vm_compute; reflexivity).
  split; [done|split; [done|split; [done|]]].
  exact (post_profile_single_profile 2 ex_body ex_store o.1 (reply_of o) Hwf Ho Hs).
Defined.

Lemma post_profile_skills_witness :
  let o := run ex_store (post_profile 1 ex_body) in
  store_wf ex_store /\ o = (o.1, inr (reply_of o)) /\ status (reply_of o) = 200%N /\
  body_get ex_body "skills" = JStr " html, css ,js" /\
  exists p, find_profile o.1 1 = Some p /\
    p_skills p = map JsString.trim (JsString.split (Ascii.ascii_of_nat 44) " html, css ,js").
Proof.
  intros o. assert (Hwf : store_wf ex_store) by by_decide.
  assert (Ho : o = (o.1, inr (reply_of o))) by (vm_compute; reflexivity).
  assert (Hs : status (reply_of o) = 200%N) by (vm_compute; reflexivity).
  assert (Hk : body_get ex_body "skills" = JStr " html, css ,js") by (vm_compute; reflexivity).
  split; [done|split; [done|split; [done|split; [done|]]]].
  exact (post_profile_skills 1 ex_body ex_store o.1 (reply_of o) _ Hwf Ho Hs Hk).
Defined.

Lemma post_profile_status_required_witness :
  to_string (body_get ex_exp_body "status") = "" /\
  exists es, run ex_store (post_profile 1 ex_exp_body) =
    (ex_store, inr (mk_reply 400 (BErrors (mk_verror (body_get ex_exp_body "status")
                                             "Status is required" "status" "body" :: es)))).
Proof.
  assert (Hs : to_string (body_get ex_exp_body "status") = "") by (vm_compute; reflexivity).
  split; [done|]. exact (post_profile_status_required 1 ex_exp_body ex_store Hs).
Defined.

Lemma post_profile_update_merge_witness :
  let o := run ex_store (post_profile 1 ex_body) in
  store_wf ex_store /\ find_profile ex_store 1 = Some ex_profile /\
  o = (o.1, inr (reply_of o)) /\ status (reply_of o) = 200%N /\
  let p' := mk_profile (p_id ex_profile) 1
      (merged (body_get ex_body "company") (p_company ex_profile))
      (merged (body_get ex_body "website") (p_website ex_profile))
      (merged (body_get ex_body "location") (p_location ex_profile))
      (merged (body_get ex_body "status") (p_status ex_profile))
      (merged (body_get ex_body "bio") (p_bio ex_profile))
      (merged (body_get ex_body "githubusername") (p_githubusername ex_profile))
      (match normalize_skills (body_get ex_body "skills") with
       | inr (Some l) => l | _ => p_skills ex_profile end)
      (mk_social (if_truthy (body_get ex_body "youtube")) (if_truthy (body_get ex_body "twitter"))
                 (if_truthy (body_get ex_body "facebook")) (if_truthy (body_get ex_body "linkedin"))
                 (if_truthy (body_get ex_body "instagram")))
      (p_experience ex_profile) (p_education ex_profile) (p_version ex_profile) in
  find_profile o.1 1 = Some p' /\ reply_of o = mk_reply 200 (BProfile (Some p')).
Proof.
  intros o. assert (Hwf : store_wf ex_store) by by_decide.
  assert (Hf : find_profile ex_store 1 = Some ex_profile) by (vm_compute; reflexivity).
  assert (Ho : o = (o.1, inr (reply_of o))) by (vm_compute; reflexivity).
  assert (Hs : status (reply_of o) = 200%N) by (vm_compute; reflexivity).
  split; [done|split; [done|split; [done|split; [done|]]]].
  exact (post_profile_update_merge 1 ex_body ex_store o.1 (reply_of o) ex_profile Hwf Hf Ho Hs).
Defined.

Lemma post_profile_number_skills_witness :
  to_string (body_get ex_skills_body "status") <> "" /\ body_get ex_skills_body "skills" = JNum 5 /\
  run ex_store (post_profile 2 ex_skills_body) =
    (ex_store, inl (TypeError "skills.split is not a function")).
Proof.
  assert (Hs : to_string (body_get ex_skills_body "status") <> "") by (vm_compute; discriminate).
  assert (Hk : body_get ex_skills_body "skills" = JNum 5) by (vm_compute; reflexivity).
  split; [done|split; [done|]].
  apply (post_profile_number_skills 2 ex_skills_body ex_store 5 Hs Hk). lia.
Defined.

Lemma post_profile_db_error_no_reply_witness :
  db_up ex_store_down = false /\ validation_result ex_body profile_checks = [] /\
  build_profile_fields 2 ex_body = inr ex_fields /\
  run ex_store_down (post_profile 2 ex_body) =
    (ex_store_down, inl (ReferenceError "json is not defined")).
Proof.
  assert (Hd : db_up ex_store_down = false) by reflexivity.
  assert (Hv : validation_result ex_body profile_checks = []) by (vm_compute; reflexivity).
  assert (Hb : build_profile_fields 2 ex_body = inr ex_fields) by (vm_compute; reflexivity).
  split; [done|split; [done|split; [done|]]].
  exact (post_profile_db_error_no_reply 2 ex_body ex_store_down ex_fields Hd Hv Hb).
Defined.

Lemma post_profile_false_status_dropped_witness :
  let o := run ex_store (post_profile 2 ex_false_body) in
  store_wf ex_store /\ body_get ex_false_body "status" = JBool false /\
  find_profile ex_store 2 = None /\ o = (o.1, inr (reply_of o)) /\ status (reply_of o) = 200%N /\
  exists p, find_profile o.1 2 = Some p /\ p_status p = None.
Proof.
  intros o. assert (Hwf : store_wf ex_store) by by_decide.
  assert (Hs : body_get ex_false_body "status" = JBool false) by (vm_compute; reflexivity).
  assert (Hf : find_profile ex_store 2 = None) by (vm_compute; reflexivity).
  assert (Ho : o = (o.1, inr (reply_of o))) by (vm_compute; reflexivity).
  assert (Hst : status (reply_of o) = 200%N) by (vm_compute; reflexivity).
  repeat (split; [done|]).
  exact (post_profile_false_status_dropped 2 ex_false_body ex_store o.1 (reply_of o) Hwf Hs Hf Ho Hst).
Defined.

Lemma delete_profile_cascade_witness :
  let o := run ex_store (delete_profile 1) in
  store_wf ex_store /\ db_up ex_store = true /\ o = (o.1, o.2) /\
  o.2 = inr (mk_reply 200 (BMsg "User deleted")) /\ store_wf o.1 /\
  (forall po, po ∈ posts o.1 <-> po ∈ posts ex_store /\ post_user po <> 1%N) /\
  (forall p, p ∈ profiles o.1 <-> p ∈ profiles ex_store /\ p_user p <> 1%N) /\
  (forall us, us ∈ users o.1 <-> us ∈ users ex_store /\ u_id us <> 1%N).
Proof.
  intros o. assert (Hwf : store_wf ex_store) by by_decide.
  assert (Hup : db_up ex_store = true) by reflexivity.
  assert (Ho : o = (o.1, o.2)) by apply surjective_pairing.
  split; [done|split; [done|split; [done|]]].
  exact (delete_profile_cascade 1 ex_store o.1 o.2 Hwf Hup Ho).
Defined.

Lemma put_experience_prepends_witness :
  let o := run ex_store (put_experience 1 ex_exp_body) in
  store_wf ex_store /\ db_up ex_store = true /\
  validation_result ex_exp_body experience_checks = [] /\
  find_profile ex_store 1 = Some ex_profile /\ o = (o.1, o.2) /\
  store_wf o.1 /\
  exists p', find_profile o.1 1 = Some p' /\ o.2 = inr (mk_reply 200 (BProfile (Some p'))) /\
    p_experience p' = new_exp 10 ex_exp_body :: p_experience ex_profile /\
    length (p_experience p') = S (length (p_experience ex_profile)).
Proof.
  intros o. assert (Hwf : store_wf ex_store) by by_decide.
  assert (Hup : db_up ex_store = true) by reflexivity.
  assert (Hv : validation_result ex_exp_body experience_checks = []) by (vm_compute; reflexivity).
  assert (Hf : find_profile ex_store 1 = Some ex_profile) by (vm_compute; reflexivity).
  assert (Ho : o = (o.1, o.2)) by apply surjective_pairing.
  do 5 (split; [done|]).
  exact (put_experience_prepends 1 ex_exp_body ex_store o.1 o.2 ex_profile Hwf Hup Hv Hf Ho).
Defined.

Lemma put_experience_no_profile_witness :
  db_up ex_store = true /\ validation_result ex_exp_body experience_checks = [] /\
  find_profile ex_store 2 = None /\
  run ex_store (put_experience 2 ex_exp_body) = (ex_store, inr server_error).
Proof.
  assert (Hup : db_up ex_store = true) by reflexivity.
  assert (Hv : validation_result ex_exp_body experience_checks = []) by (vm_compute; reflexivity).
  assert (Hf : find_profile ex_store 2 = None) by (vm_compute; reflexivity).
  split; [done|split; [done|split; [done|]]].
  exact (put_experience_no_profile 2 ex_exp_body ex_store Hup Hv Hf).
Defined.

Lemma delete_experience_by_id_witness :
  let o := run ex_store (delete_experience 1 (ObjectId.to_hex (exp_id (ex_exp 4 "Junior")))) in
  store_wf ex_store /\ db_up ex_store = true /\ (next_id ex_store <= ObjectId.oid_bound)%N /\
  find_profile ex_store 1 = Some ex_profile /\ ex_exp 4 "Junior" ∈ p_experience ex_profile /\
  o = (o.1, o.2) /\
  exists p', find_profile o.1 1 = Some p' /\
    p_experience p' = filter (fun e' => exp_id e' <> exp_id (ex_exp 4 "Junior"))
                        (p_experience ex_profile).
Proof.
  intros o. assert (Hwf : store_wf ex_store) by by_decide.
  assert (Hup : db_up ex_store = true) by reflexivity.
  assert (Hb : (next_id ex_store <= ObjectId.oid_bound)%N) by (vm_compute; discriminate).
  assert (Hf : find_profile ex_store 1 = Some ex_profile) by (vm_compute; reflexivity).
  assert (He : ex_exp 4 "Junior" ∈ p_experience ex_profile) by (simpl; set_solver).
  assert (Ho : o = (o.1, o.2)) by apply surjective_pairing.
  do 6 (split; [done|]).
  exact (delete_experience_by_id 1 ex_store o.1 o.2 ex_profile _ Hwf Hup Hb Hf He Ho).
Defined.

Lemma delete_experience_unknown_id_witness :
  let o := run ex_store (delete_experience 1 "000000000000000000000009") in
  store_wf ex_store /\ db_up ex_store = true /\ find_profile ex_store 1 = Some ex_profile /\
  p_experience ex_profile <> [] /\
  (forall e, e ∈ p_experience ex_profile -> ObjectId.to_hex (exp_id e) <> "000000000000000000000009") /\
  o = (o.1, o.2) /\
  exists p', find_profile o.1 1 = Some p' /\
    p_experience p' = take (length (p_experience ex_profile) - 1) (p_experience ex_profile).
Proof.
  intros o. assert (Hwf : store_wf ex_store) by by_decide.
  assert (Hup : db_up ex_store = true) by reflexivity.
  assert (Hf : find_profile ex_store 1 = Some ex_profile) by (vm_compute; reflexivity).
  assert (Hne : p_experience ex_profile <> []) by discriminate.
  assert (Hno : forall e, e ∈ p_experience ex_profile ->
                  ObjectId.to_hex (exp_id e) <> "000000000000000000000009").
  { intros e He. simpl in He. apply elem_of_cons in He as [->|He];
      [|apply list_elem_of_singleton in He as ->]; vm_compute; discriminate. }
  assert (Ho : o = (o.1, o.2)) by apply surjective_pairing.
  do 6 (split; [done|]).
  exact (delete_experience_unknown_id 1 ex_store o.1 o.2 ex_profile _ Hwf Hup Hf Hne Hno Ho).
Defined.

Lemma put_education_prepends_witness :
  let o := run ex_store (put_education 1 ex_edu_body) in
  store_wf ex_store /\ db_up ex_store = true /\
  validation_result ex_edu_body education_checks = [] /\
  find_profile ex_store 1 = Some ex_profile /\ o = (o.1, o.2) /\
  store_wf o.1 /\
  exists p', find_profile o.1 1 = Some p' /\ o.2 = inr (mk_reply 200 (BProfile (Some p'))) /\
    p_education p' = new_edu 10 ex_edu_body :: p_education ex_profile.
Proof.
  intros o. assert (Hwf : store_wf ex_store) by by_decide.
  assert (Hup : db_up ex_store = true) by reflexivity.
  assert (Hv : validation_result ex_edu_body education_checks = []) by (vm_compute; reflexivity).
  assert (Hf : find_profile ex_store 1 = Some ex_profile) by (vm_compute; reflexivity).
  assert (Ho : o = (o.1, o.2)) by apply surjective_pairing.
  do 5 (split; [done|]).
  exact (put_education_prepends 1 ex_edu_body ex_store o.1 o.2 ex_profile Hwf Hup Hv Hf Ho).
Defined.

Lemma delete_education_by_id_witness :
  let o := run ex_store (delete_education 1 (ObjectId.to_hex (edu_id (ex_edu 6)))) in
  store_wf ex_store /\ db_up ex_store = true /\ (next_id ex_store <= ObjectId.oid_bound)%N /\
  find_profile ex_store 1 = Some ex_profile /\ ex_edu 6 ∈ p_education ex_profile /\
  o = (o.1, o.2) /\
  exists p', find_profile o.1 1 = Some p' /\
    p_education p' = filter (fun e' => edu_id e' <> edu_id (ex_edu 6)) (p_education ex_profile).
Proof.
  intros o. assert (Hwf : store_wf ex_store) by by_decide.
  assert (Hup : db_up ex_store = true) by reflexivity.
  assert (Hb : (next_id ex_store <= ObjectId.oid_bound)%N) by (vm_compute; discriminate).
  assert (Hf : find_profile ex_store 1 = Some ex_profile) by (vm_compute; reflexivity).
  assert (He : ex_edu 6 ∈ p_education ex_profile) by (simpl; set_solver).
  assert (Ho : o = (o.1, o.2)) by apply surjective_pairing.
  do 6 (split; [done|]).
  exact (delete_education_by_id 1 ex_store o.1 o.2 ex_profile _ Hwf Hup Hb Hf He Ho).
Defined.

Lemma get_by_user_not_found_witness :
  ObjectId.cast "not-an-id" = None /\
  run ex_store (get_by_user "not-an-id") =
    (ex_store, inr (mk_reply 400 (BText "Profile not found"))).
Proof.
  assert (Hc : ObjectId.cast "not-an-id" = None) by (vm_compute; reflexivity).
  split; [done|]. apply get_by_user_not_found. by left.
Defined.

Lemma get_me_reply_witness :
  db_up ex_store = true /\
  run ex_store (get_me 2) =
  (ex_store, inr (match find_profile ex_store 2 with
                  | None => mk_reply 400 (BMsg "There is no profile for this user")
                  | Some p => mk_reply 200 (BPopProfile (populate ex_store p))
                  end)).
Proof.
  assert (Hup : db_up ex_store = true) by reflexivity.
  split; [done|]. exact (get_me_reply 2 ex_store Hup).
Defined.

Lemma route_without_token_witness :
  db_up ex_store = true /\
  run ex_store (route None GetAll) =
  (ex_store, inr (mk_reply 200 (BPopProfiles (map (populate ex_store) (profiles ex_store))))).
Proof.
  assert (Hup : db_up ex_store = true) by reflexivity.
  split; [done|]. exact (route_without_token ex_store GetAll Hup).
Defined.

Lemma remove_by_hex_equiv_witness :
  NoDup (map (fun e => ObjectId.to_hex (exp_id e)) (p_experience ex_profile)) /\
  remove_by_hex exp_id (p_experience ex_profile) "ffff" <>
    filter (fun y => ObjectId.to_hex (exp_id y) <> "ffff") (p_experience ex_profile).
Proof.
  assert (Hnd : NoDup (map (fun e => ObjectId.to_hex (exp_id e)) (p_experience ex_profile)))
    by by_decide.
  assert (Hout : "ffff" ∉ map (fun e => ObjectId.to_hex (exp_id e)) (p_experience ex_profile))
    by by_decide.
  split; [done|]. intros Heq.
  apply (remove_by_hex_equiv exp_id _ "ffff" Hnd) in Heq as [Hnil|Hin]; [discriminate Hnil|done].
Defined.

End ProfileRoutes.
