(* ===== verification/Spec.v ===== *)
(** * Spec: the profile directory the router promises, and the refinement

    Section 3 of the specification describes the profile collection as
    a directory: at most one Profile per user, created lazily, updated
    in place, removed with the user.  [Dir] is that directory, a finite
    map from user ids to profiles, with the ObjectId counter beside it;
    [spec_route] is what each request does to it: an upsert for
    [POST /], a removal for [DELETE /], the head insertion and the
    removal by id for the sub-document routes, nothing for the reads or
    for a request the gate, the field assembly or a missing token
    stops.  [abs] reads a store as a directory (the first profile of
    each user, which is the only one under [store_wf]).  Theorem: for
    one request at a time against a reachable store, running the
    handler on the store and reading the result is the same as the
    directory operation on the store read first. *)

From S2P Require Import Prelude JsValue ObjectId Validation Models Store ProfileRoutes.

Local Open Scope string_scope.

Module Spec.
Import JsValue Validation Models Store ProfileRoutes.

Abbreviation Dir := (gmap N Profile).

Record AbsState := mk_abs { a_dir : Dir; a_next : N }.

(** The directory a store holds. *)
Definition abs_dir (s : Store) : Dir := list_to_map (map (fun p => (p_user p, p)) (profiles s)).

Definition abs (s : Store) : AbsState := mk_abs (abs_dir s) (next_id s).

(** Create or update the caller's profile. *)
Definition spec_upsert (uid : N) (pf : ProfileFields) (a : AbsState) : AbsState :=
  match a_dir a !! uid with
  | Some p => mk_abs (<[uid := apply_set pf p]> (a_dir a)) (a_next a)
  | None => mk_abs (<[uid := new_profile (a_next a) pf]> (a_dir a)) (N.succ (a_next a))
  end.

(** Edit the caller's profile in place, with a fresh id when [fresh];
    the edit is a versioned save, which increments the version key. *)
Definition spec_edit (uid : N) (fresh : bool) (g : N -> Profile -> Profile) (a : AbsState) : AbsState :=
  match a_dir a !! uid with
  | Some p =>
      mk_abs (<[uid := bump_version (g (a_next a) p)]> (a_dir a)) (if fresh then N.succ (a_next a) else a_next a)
  | None => a
  end.

Definition spec_route (tok : option N) (r : Request) (a : AbsState) : AbsState :=
  match tok, r with
  | Some uid, PostProfile b =>
      match validation_result b profile_checks, build_profile_fields uid b with
      | [], inr pf => spec_upsert uid pf a
      | _, _ => a
      end
  | Some uid, DeleteProfile => mk_abs (delete uid (a_dir a)) (a_next a)
  | Some uid, PutExperience b =>
      match validation_result b experience_checks with
      | [] => spec_edit uid true
                (fun i p => with_experience p (new_exp i b :: p_experience p)) a
      | _ => a
      end
  | Some uid, DeleteExperience prm =>
      spec_edit uid false
        (fun _ p => with_experience p (remove_by_hex exp_id (p_experience p) prm)) a
  | Some uid, PutEducation b =>
      match validation_result b education_checks with
      | [] => spec_edit uid true
                (fun i p => with_education p (new_edu i b :: p_education p)) a
      | _ => a
      end
  | Some uid, DeleteEducation prm =>
      spec_edit uid false
        (fun _ p => with_education p (remove_by_hex edu_id (p_education p) prm)) a
  | _, _ => a
  end.

(** ** Reading a store as a directory *)

Lemma abs_dir_lookup s u : abs_dir s !! u = find_profile s u.
Proof.
  unfold abs_dir, find_profile. induction (profiles s) as [|x l IH]; [done|].
  cbn [map List.find]. rewrite list_to_map_cons. unfold by_user at 1.
  destruct (N.eqb_spec (p_user x) u) as [<-|Hne].
  - by rewrite lookup_insert_eq.
  - rewrite lookup_insert_ne by done. done.
Qed.

Lemma abs_dir_ext s' m :
  (forall u, find_profile s' u = m !! u) -> abs_dir s' = m.
Proof. intros H. apply map_eq. intros u. by rewrite abs_dir_lookup. Qed.

(** ** The store operations implement the directory operations *)

Section Writes.
Context (s : Store) (Hwf : store_wf s).

Lemma abs_dir_upsert_existing t uid pf p :
  pf_user pf = uid -> find_profile s uid = Some p ->
  profiles t = update_first (by_user uid) (apply_set pf) (profiles s) ->
  abs_dir t = <[uid := apply_set pf p]> (abs_dir s).
Proof.
  intros Hu Hf Ht. apply abs_dir_ext. intros u. unfold find_profile. rewrite Ht.
  destruct (decide (u = uid)) as [->|Hne].
  - rewrite lookup_insert_eq. apply find_update_first; [done|].
    unfold by_user. simpl. rewrite Hu. apply N.eqb_refl.
  - rewrite lookup_insert_ne, abs_dir_lookup by done.
    apply find_user_update_first_frame. intros x _ Hx. unfold by_user in Hx.
    apply N.eqb_eq in Hx. simpl. split; congruence.
Qed.

Lemma abs_dir_create t uid pf n :
  pf_user pf = uid -> find_profile s uid = None ->
  profiles t = (profiles s ++ [new_profile n pf])%list ->
  abs_dir t = <[uid := new_profile n pf]> (abs_dir s).
Proof.
  intros Hu Hf Ht. apply abs_dir_ext. intros u. unfold find_profile. rewrite Ht, find_app.
  destruct (decide (u = uid)) as [->|Hne].
  - rewrite lookup_insert_eq. fold (find_profile s uid). rewrite Hf. simpl.
    unfold by_user. simpl. by rewrite Hu, N.eqb_refl.
  - rewrite lookup_insert_ne, abs_dir_lookup by done. unfold find_profile.
    destruct (List.find (by_user u) (profiles s)); [done|]. simpl.
    unfold by_user. simpl. rewrite Hu. by rewrite (proj2 (N.eqb_neq _ _) (not_eq_sym Hne)).
Qed.

Lemma abs_dir_delete t uid :
  profiles t = delete_first (by_user uid) (profiles s) ->
  abs_dir t = delete uid (abs_dir s).
Proof.
  intros Ht. apply abs_dir_ext. intros u. unfold find_profile. rewrite Ht.
  destruct (decide (u = uid)) as [->|Hne].
  - rewrite lookup_delete_eq. apply find_user_delete_first_self, Hwf.
  - rewrite lookup_delete_ne, abs_dir_lookup by done.
    apply find_user_delete_first_frame. intros x _ Hx. unfold by_user in Hx.
    apply N.eqb_eq in Hx. congruence.
Qed.

Lemma abs_dir_save t uid p path p' :
  find_profile s uid = Some p ->
  profiles t = update_first (by_pid (p_id p)) (write_path path p') (profiles s) ->
  abs_dir t = <[uid := write_path path p' p]> (abs_dir s).
Proof.
  intros Hf Ht. apply abs_dir_ext. intros u. rewrite <- abs_dir_lookup.
  destruct (decide (u = uid)) as [->|Hne].
  - rewrite lookup_insert_eq, abs_dir_lookup. unfold find_profile. rewrite Ht.
    by apply (find_profile_after_save s uid p path p').
  - rewrite lookup_insert_ne by done. rewrite !abs_dir_lookup. unfold find_profile. rewrite Ht.
    apply find_user_update_first_frame. intros x Hx Hid.
    pose proof (by_pid_user s uid p x Hwf Hf Hx Hid) as Hxu.
    rewrite (proj2 (write_path_ids path p' x)). split; congruence.
Qed.
End Writes.

Section Handlers.
Context (s : Store) (Hwf : store_wf s) (Hup : db_up s = true).

Lemma post_profile_refines uid b :
  abs (run s (post_profile uid b)).1 = spec_route (Some uid) (PostProfile b) (abs s).
Proof.
  unfold spec_route. destruct (validation_result b profile_checks) eqn:Hv;
    [|unfold post_profile; by rewrite Hv].
  destruct (build_profile_fields uid b) as [err|pf] eqn:Hb;
    [unfold post_profile; by rewrite Hv, Hb|].
  pose proof (build_profile_fields_user _ _ _ Hb) as Hu.
  rewrite (post_profile_run uid b s pf Hup Hv Hb). unfold spec_upsert, abs. simpl.
  rewrite abs_dir_lookup. destruct (find_profile s uid) as [p|] eqn:Hf; simpl; f_equal.
  - by eapply abs_dir_upsert_existing.
  - by eapply abs_dir_create.
Qed.

Lemma delete_profile_refines uid :
  abs (run s (delete_profile uid)).1 = spec_route (Some uid) DeleteProfile (abs s).
Proof.
  rewrite delete_profile_run by done. unfold abs. simpl. f_equal. by apply abs_dir_delete.
Qed.

Lemma put_experience_refines uid b :
  abs (run s (put_experience uid b)).1 = spec_route (Some uid) (PutExperience b) (abs s).
Proof.
  unfold spec_route. destruct (validation_result b experience_checks) eqn:Hv;
    [|unfold put_experience; by rewrite Hv].
  unfold spec_edit, abs. simpl. rewrite abs_dir_lookup.
  destruct (find_profile s uid) as [p|] eqn:Hf.
  - rewrite (put_experience_run uid b s p) by done. simpl. f_equal.
    apply (abs_dir_save s Hwf _ uid p PathExperience
             (with_experience p (new_exp (next_id s) b :: p_experience p)) Hf). reflexivity.
  - by rewrite put_experience_no_profile.
Qed.

Lemma put_education_refines uid b :
  abs (run s (put_education uid b)).1 = spec_route (Some uid) (PutEducation b) (abs s).
Proof.
  unfold spec_route. destruct (validation_result b education_checks) eqn:Hv;
    [|unfold put_education; by rewrite Hv].
  unfold spec_edit, abs. simpl. rewrite abs_dir_lookup.
  destruct (find_profile s uid) as [p|] eqn:Hf.
  - rewrite (put_education_run uid b s p) by done. simpl. f_equal.
    apply (abs_dir_save s Hwf _ uid p PathEducation
             (with_education p (new_edu (next_id s) b :: p_education p)) Hf). reflexivity.
  - unfold put_education. rewrite Hv. run_db Hup. by rewrite Hf.
Qed.

Lemma delete_experience_refines uid prm :
  abs (run s (delete_experience uid prm)).1 = spec_route (Some uid) (DeleteExperience prm) (abs s).
Proof.
  destruct (find_profile s uid) as [p|] eqn:Hf.
  - rewrite (delete_experience_run uid prm s p) by done.
    unfold spec_route, spec_edit, abs. cbn [a_dir a_next]. rewrite abs_dir_lookup, Hf. f_equal.
    apply (abs_dir_save s Hwf _ uid p PathExperience
             (with_experience p (remove_by_hex exp_id (p_experience p) prm)) Hf). reflexivity.
  - assert (Hrun : (run s (delete_experience uid prm)).1 = s)
      by (unfold delete_experience; run_db Hup; by rewrite Hf).
    rewrite Hrun. unfold spec_route, spec_edit, abs. cbn [a_dir]. by rewrite abs_dir_lookup, Hf.
Qed.

Lemma delete_education_refines uid prm :
  abs (run s (delete_education uid prm)).1 = spec_route (Some uid) (DeleteEducation prm) (abs s).
Proof.
  destruct (find_profile s uid) as [p|] eqn:Hf.
  - rewrite (delete_education_run uid prm s p) by done.
    unfold spec_route, spec_edit, abs. cbn [a_dir a_next]. rewrite abs_dir_lookup, Hf. f_equal.
    apply (abs_dir_save s Hwf _ uid p PathEducation
             (with_education p (remove_by_hex edu_id (p_education p) prm)) Hf). reflexivity.
  - assert (Hrun : (run s (delete_education uid prm)).1 = s)
      by (unfold delete_education; run_db Hup; by rewrite Hf).
    rewrite Hrun. unfold spec_route, spec_edit, abs. cbn [a_dir]. by rewrite abs_dir_lookup, Hf.
Qed.
End Handlers.

(** C2 (refinement). One request at a time against a well-formed,
    reachable store, the router implements the directory: reading the
    store after the request gives the directory operation of the
    request applied to the store read before it. *)
Theorem route_refines tok r s :
  store_wf s -> db_up s = true ->
  abs (run s (route tok r)).1 = spec_route tok r (abs s).
Proof.
  intros Hwf Hup. destruct tok as [uid|], r; unfold route;
    first [ rewrite reads_keep_store; [done|by eauto 6]
          | by apply post_profile_refines | by apply delete_profile_refines
          | by apply put_experience_refines | by apply delete_experience_refines
          | by apply put_education_refines | by apply delete_education_refines
          | done ].
Qed.

Lemma route_refines_witness :
  store_wf ex_store /\ db_up ex_store = true /\
  abs (run ex_store (route (Some 1%N) (PutExperience ex_exp_body))).1 =
    spec_route (Some 1%N) (PutExperience ex_exp_body) (abs ex_store).
Proof.
  assert (Hwf : store_wf ex_store) by by_decide.
  assert (Hup : db_up ex_store = true) by reflexivity.
  split; [done|split; [done|]]. exact (route_refines _ _ ex_store Hwf Hup).
Defined.

End Spec.
