(* ===== verification/Concurrency.v ===== *)
(** * Concurrency: requests interleaved at their awaits

    Node runs one handler at a time, but every [await] yields to the
    event loop, so the queries of concurrent requests interleave
    (specification, section 5).  A configuration is the store and the
    list of running handlers, each the rest of its [Store.prog]; a
    [step] runs the pending query of one handler against the shared
    store and resumes it with the outcome ([star] is its closure).
    [run_schedule] executes a schedule (the handlers that take a step,
    in order) and implies [star].  Theorems: two first [POST /] of the
    same user, interleaved, store two profiles for that user, breaking
    the invariant the one-at-a-time theorems keep; two concurrent
    [PUT /experience] do not silently lose an entry (section 5 says they do):
    the second [save] fails on the version key the first incremented
    and answers 500, leaving the directory the first request alone
    gives, whereas run one after the other they keep both entries.  No
    interleaving runs forever: a resumed handler is a strict part of
    the one that awaited, so every
    configuration runs to one where all handlers have finished.  The
    store enforces no unique index on
    [Profile.user] (the schema is not under [src/]). *)

From S2P Require Import Prelude JsValue Validation Models Store ProfileRoutes Spec.

Local Open Scope string_scope.

Module Concurrency.
Import JsValue Validation Models Store ProfileRoutes Spec.

(** A running request: the rest of its handler. *)
Definition Thread := prog Reply.

Definition Conf := (Store * list Thread)%type.

(** Handler [i] stopped at an [await] runs its query and resumes. *)
Inductive step : Conf -> Conf -> Prop :=
| step_await s ts i B (q : query B) k s' r :
    ts !! i = Some (Await q k) -> exec s q = (s', r) ->
    step (s, ts) (s', <[i := k r]> ts).

Inductive star : Conf -> Conf -> Prop :=
| star_refl c : star c c
| star_step c1 c2 c3 : step c1 c2 -> star c2 c3 -> star c1 c3.

(** The step of handler [i], when it is at an [await]. *)
Definition step_fn (c : Conf) (i : nat) : option Conf :=
  match c.2 !! i with
  | Some (Await q k) =>
      let '(s', r) := exec c.1 q in Some (s', <[i := k r]> c.2)
  | _ => None
  end.

Fixpoint run_schedule (c : Conf) (sched : list nat) : option Conf :=
  match sched with
  | [] => Some c
  | i :: sched' =>
      match step_fn c i with
      | Some c' => run_schedule c' sched'
      | None => None
      end
  end.

(** A handler resumed after its [await] continues with a strict part
    of its program: the handlers are finite trees of queries. *)
Definition prog_sub {A} (t p : prog A) : Prop :=
  match p with
  | Await q k => exists r, t = k r
  | _ => False
  end.

(** One handler of the list advanced past an [await]. *)
Definition threads_step (ts' ts : list Thread) : Prop :=
  exists i t t', ts !! i = Some t /\ prog_sub t' t /\ ts' = <[i := t']> ts.

(** A handler that has replied or rejected. *)
Definition finished (t : Thread) : bool :=
  match t with Await _ _ => false | _ => true end.

(** A second experience body, for the examples. *)
Definition ex_exp_body2 : Body :=
  <["title" := JStr "Intern"]> (<["company" := JStr "Gamma"]> (<["from" := JStr "2018-06-01"]> ∅)).

(** ** Schedules and the step relation *)

Lemma step_fn_step c i c' : step_fn c i = Some c' -> step c c'.
Proof.
  destruct c as [s ts]. unfold step_fn. simpl.
  destruct (ts !! i) as [[a|e|B q k]|] eqn:Hi; try discriminate.
  destruct (exec s q) as [s' r] eqn:He. intros [= <-]. by eapply step_await.
Qed.

Lemma run_schedule_star c sched c' : run_schedule c sched = Some c' -> star c c'.
Proof.
  revert c. induction sched as [|i sched IH]; intros c; simpl.
  - intros [= <-]. constructor.
  - destruct (step_fn c i) as [c1|] eqn:Hs; [|discriminate].
    intros H. apply (star_step _ c1); [by apply (step_fn_step _ i)|by apply IH].
Qed.

(** [run_threads tac] computes a schedule of handlers, [tac] rewriting
    the known connection flag and lookups of the store. *)
Ltac run_threads tac := repeat progress (cbn; unfold exec; cbn; tac).

(** ** Termination *)

Lemma prog_sub_wf {A} : well_founded (@prog_sub A).
Proof.
  intros p. induction p as [a|e|B q k IH]; constructor; intros t Ht; simpl in Ht;
    [done|done|]. destruct Ht as [r ->]. apply IH.
Qed.

Lemma threads_step_cons_acc t :
  Acc prog_sub t -> forall ts, Acc threads_step ts -> Acc threads_step (t :: ts).
Proof.
  induction 1 as [t _ IHt]. intros ts Hts. induction Hts as [ts Hts IHts].
  constructor. intros ts' (i & u & u' & Hi & Hsub & ->).
  destruct i as [|i]; simpl in Hi |- *.
  - injection Hi as <-. apply IHt; [done|]. by constructor.
  - apply IHts. by exists i, u, u'.
Qed.

Lemma threads_step_wf : well_founded threads_step.
Proof.
  intros ts. induction ts as [|t ts IH].
  - constructor. intros ts' (i & u & u' & Hi & _). by rewrite lookup_nil in Hi.
  - apply threads_step_cons_acc; [apply prog_sub_wf|done].
Qed.

Lemma step_threads_step c c' : step c c' -> threads_step c'.2 c.2.
Proof.
  intros Hs. inversion Hs as [s ts i B q k s' r Hi He]; subst. simpl.
  exists i, (Await q k), (k r). split; [done|]. split; [by exists r|done].
Qed.

Lemma step_acc c : Acc (fun c2 c1 => step c1 c2) c.
Proof.
  destruct c as [s ts]. revert s.
  induction (threads_step_wf ts) as [ts _ IH]. intros s. constructor.
  intros [s' ts'] Hs. apply IH; [exact (step_threads_step _ _ Hs)].
Qed.

(** A configuration with a handler at an [await] can step. *)
Lemma step_progress (c : Conf) :
  Forall (fun t => finished t = true) c.2 \/ exists c', step c c'.
Proof.
  destruct c as [s ts]. simpl.
  destruct (list_find (fun t => finished t = false) ts) as [[i t]|] eqn:Hf.
  - apply list_find_Some in Hf as (Hi & Ht & _).
    destruct t as [a|e|B q k]; try discriminate. right.
    destruct (exec s q) as [s' r] eqn:He. eexists. by eapply step_await.
  - left. apply list_find_None in Hf. apply Forall_impl with (1 := Hf).
    intros t. destruct (finished t); [done|by intros []].
Qed.

(** Every configuration terminates, and runs to completion. *)
Lemma interleavings_terminate_all (c : Conf) :
  ~ (exists f : nat -> Conf, f 0%nat = c /\ forall n, step (f n) (f (S n))) /\
  exists c', star c c' /\ Forall (fun t => finished t = true) c'.2.
Proof.
  split.
  - intros (f & <- & Hf).
    assert (Hn : forall c, Acc (fun c2 c1 => step c1 c2) c -> forall n, f n <> c).
    { induction 1 as [c _ IH]. intros n <-. by apply (IH (f (S n)) (Hf n) (S n)). }
    exact (Hn _ (step_acc (f 0%nat)) 0%nat eq_refl).
  - induction (step_acc c) as [c _ IH].
    destruct (step_progress c) as [Hdone|(c1 & Hs)]; [exists c; split; [constructor|done]|].
    destruct (IH c1 Hs) as (c' & Hstar & Hdone). exists c'. split; [|done].
    by apply (star_step _ c1).
Qed.

(** ** Duplicate profiles *)

(** C5 (invariant). The invariant of one profile per user holds only
    for requests run one at a time: two first [POST /] of a user that
    both read the store before either writes create two profiles for
    that user, and both answer 200. *)
Theorem concurrent_first_post_duplicates uid b s pf :
  db_up s = true -> validation_result b profile_checks = [] ->
  build_profile_fields uid b = inr pf -> find_profile s uid = None ->
  exists s' r1 r2,
    run_schedule (s, [post_profile uid b; post_profile uid b]) [0; 1; 0; 1]%nat =
      Some (s', [Ret r1; Ret r2]) /\
    status r1 = 200%N /\ status r2 = 200%N /\
    filter (fun p => p_user p = uid) (profiles s') =
      [new_profile (next_id s) pf; new_profile (N.succ (next_id s)) pf] /\
    ~ store_wf s'.
Proof.
  intros Hup Hv Hb Hf. unfold post_profile. rewrite Hv, Hb.
  run_threads ltac:(rewrite ?Hup, ?Hf).
  eexists _, _, _. split; [reflexivity|].
  pose proof (build_profile_fields_user _ _ _ Hb) as Hu.
  assert (Hdup : filter (fun p => p_user p = uid)
                   ((profiles s ++ [new_profile (next_id s) pf]) ++
                    [new_profile (N.succ (next_id s)) pf])%list =
                 [new_profile (next_id s) pf; new_profile (N.succ (next_id s)) pf]).
  { rewrite !filter_app, filter_none by (intros q Hq; by apply (find_profile_none s uid)).
    rewrite !filter_cons, !decide_True by (simpl; by rewrite Hu). done. }
  do 2 (split; [done|]). split; [exact Hdup|].
  intros Hwf. apply wf_filter_user_le with (u := uid) in Hwf. simpl in Hwf.
  rewrite Hdup in Hwf. simpl in Hwf. lia.
Qed.

(** ** The version conflict *)

(** C6 (safety). Two [PUT /experience] of the same user that both read
    the profile before either saves: the first [save] matches the
    version key it read, stores its entry and answers 200; the second
    [save] filters on the version it read, which the first incremented,
    fails with a [VersionError], and the request answers 500.  No entry
    is lost silently (section 5 of the specification says one is): the
    directory is the one the first request alone gives. *)
Theorem concurrent_put_experience_version_conflict uid b1 b2 s p :
  store_wf s -> db_up s = true ->
  validation_result b1 experience_checks = [] -> validation_result b2 experience_checks = [] ->
  find_profile s uid = Some p ->
  exists s' r1,
    run_schedule (s, [put_experience uid b1; put_experience uid b2]) [0; 1; 0; 0; 1; 1]%nat =
      Some (s', [Ret r1; Ret server_error]) /\
    status r1 = 200%N /\
    a_dir (abs s') = a_dir (spec_route (Some uid) (PutExperience b1) (abs s)) /\
    exists p', find_profile s' uid = Some p' /\
      p_experience p' = new_exp (next_id s) b1 :: p_experience p.
Proof.
  intros Hwf Hup Hv1 Hv2 Hf.
  set (p1 := with_experience p (new_exp (next_id s) b1 :: p_experience p)).
  assert (Hrun : run_schedule (s, [put_experience uid b1; put_experience uid b2])
                   [0; 1; 0; 0; 1; 1]%nat =
    Some (bump_id (set_profiles (bump_id s)
            (update_first (by_pid (p_id p)) (write_path PathExperience p1) (profiles s))),
          [Ret (mk_reply 200 (BProfile (Some (bump_version p1)))); Ret server_error])).
  { subst p1. unfold put_experience. rewrite Hv1, Hv2.
    run_threads ltac:(rewrite ?Hup, ?Hf, ?(find_pid_self s uid p Hwf Hf),
                              ?(find_pid_after_save s uid p _ _ Hwf Hf), ?N.eqb_refl, ?version_stale).
    reflexivity. }
  rewrite Hrun. eexists _, _. split; [reflexivity|]. split; [done|]. split.
  - unfold spec_route, spec_edit, abs. rewrite Hv1. cbn [a_dir]. rewrite abs_dir_lookup, Hf.
    apply (abs_dir_save s Hwf _ uid p PathExperience _ Hf). reflexivity.
  - eexists. split; [apply (find_profile_after_save s uid p _ _ Hwf Hf)|]. reflexivity.
Qed.

(** C31 (functional). The same two requests run one after the other
    both answer 200 and keep both entries, the later first: the second
    reads the version the first saved, so its [save] matches. *)
Theorem sequential_put_experience_keeps_both uid b1 b2 s p :
  store_wf s -> db_up s = true ->
  validation_result b1 experience_checks = [] -> validation_result b2 experience_checks = [] ->
  find_profile s uid = Some p ->
  exists s' r1 r2,
    run_schedule (s, [put_experience uid b1; put_experience uid b2]) [0; 0; 0; 1; 1; 1]%nat =
      Some (s', [Ret r1; Ret r2]) /\
    status r1 = 200%N /\ status r2 = 200%N /\
    exists p', find_profile s' uid = Some p' /\
      p_experience p' =
        new_exp (N.succ (next_id s)) b2 :: new_exp (next_id s) b1 :: p_experience p.
Proof.
  intros Hwf Hup Hv1 Hv2 Hf. unfold put_experience. rewrite Hv1, Hv2.
  run_threads ltac:(rewrite ?Hup, ?Hf, ?(find_pid_self s uid p Hwf Hf),
                            ?(find_pid_after_save s uid p _ _ Hwf Hf),
                            ?(find_profile_after_save s uid p _ _ Hwf Hf), ?N.eqb_refl).
  eexists _, _, _. split; [reflexivity|]. do 2 (split; [done|]).
  eexists. split; [unfold find_profile; cbn; by rewrite (find_profile_after_two_saves s uid p)|].
  reflexivity.
Qed.

(** ** Witnesses *)

Lemma concurrent_first_post_duplicates_witness :
  db_up ex_store = true /\ validation_result ex_body profile_checks = [] /\
  build_profile_fields 2 ex_body = inr ex_fields /\ find_profile ex_store 2 = None /\
  exists s' r1 r2,
    run_schedule (ex_store, [post_profile 2 ex_body; post_profile 2 ex_body]) [0; 1; 0; 1]%nat =
      Some (s', [Ret r1; Ret r2]) /\
    status r1 = 200%N /\ status r2 = 200%N /\
    filter (fun p => p_user p = 2%N) (profiles s') =
      [new_profile (next_id ex_store) ex_fields; new_profile (N.succ (next_id ex_store)) ex_fields] /\
    ~ store_wf s'.
Proof.
  assert (Hup : db_up ex_store = true) by reflexivity.
  assert (Hv : validation_result ex_body profile_checks = []) by (vm_compute; reflexivity).
  assert (Hb : build_profile_fields 2 ex_body = inr ex_fields) by (vm_compute; reflexivity).
  assert (Hf : find_profile ex_store 2 = None) by (vm_compute; reflexivity).
  do 4 (split; [done|]).
  exact (concurrent_first_post_duplicates 2 ex_body ex_store ex_fields Hup Hv Hb Hf).
Defined.

Lemma concurrent_put_experience_version_conflict_witness :
  store_wf ex_store /\ db_up ex_store = true /\
  validation_result ex_exp_body experience_checks = [] /\
  validation_result ex_exp_body2 experience_checks = [] /\
  find_profile ex_store 1 = Some ex_profile /\
  exists s' r1,
    run_schedule (ex_store, [put_experience 1 ex_exp_body; put_experience 1 ex_exp_body2])
      [0; 1; 0; 0; 1; 1]%nat = Some (s', [Ret r1; Ret server_error]) /\
    status r1 = 200%N /\
    a_dir (abs s') = a_dir (spec_route (Some 1%N) (PutExperience ex_exp_body) (abs ex_store)) /\
    exists p', find_profile s' 1 = Some p' /\
      p_experience p' = new_exp (next_id ex_store) ex_exp_body :: p_experience ex_profile.
Proof.
  assert (Hwf : store_wf ex_store) by by_decide.
  assert (Hup : db_up ex_store = true) by reflexivity.
  assert (Hv1 : validation_result ex_exp_body experience_checks = []) by (vm_compute; reflexivity).
  assert (Hv2 : validation_result ex_exp_body2 experience_checks = []) by (vm_compute; reflexivity).
  assert (Hf : find_profile ex_store 1 = Some ex_profile) by (vm_compute; reflexivity).
  do 5 (split; [done|]).
  exact (concurrent_put_experience_version_conflict 1 ex_exp_body ex_exp_body2 ex_store ex_profile
           Hwf Hup Hv1 Hv2 Hf).
Defined.

Lemma sequential_put_experience_keeps_both_witness :
  store_wf ex_store /\ db_up ex_store = true /\
  validation_result ex_exp_body experience_checks = [] /\
  validation_result ex_exp_body2 experience_checks = [] /\
  find_profile ex_store 1 = Some ex_profile /\
  exists s' r1 r2,
    run_schedule (ex_store, [put_experience 1 ex_exp_body; put_experience 1 ex_exp_body2])
      [0; 0; 0; 1; 1; 1]%nat = Some (s', [Ret r1; Ret r2]) /\
    status r1 = 200%N /\ status r2 = 200%N /\
    exists p', find_profile s' 1 = Some p' /\
      p_experience p' = new_exp (N.succ (next_id ex_store)) ex_exp_body2 ::
                        new_exp (next_id ex_store) ex_exp_body :: p_experience ex_profile.
Proof.
  assert (Hwf : store_wf ex_store) by by_decide.
  assert (Hup : db_up ex_store = true) by reflexivity.
  assert (Hv1 : validation_result ex_exp_body experience_checks = []) by (vm_compute; reflexivity).
  assert (Hv2 : validation_result ex_exp_body2 experience_checks = []) by (vm_compute; reflexivity).
  assert (Hf : find_profile ex_store 1 = Some ex_profile) by (vm_compute; reflexivity).
  do 5 (split; [done|]).
  exact (sequential_put_experience_keeps_both 1 ex_exp_body ex_exp_body2 ex_store ex_profile
           Hwf Hup Hv1 Hv2 Hf).
Defined.

End Concurrency.
