(* ===== verification/Express.v ===== *)
(** * Express: the response object

    The handlers answer through Express's [res]: [res.status(n)] sets
    the status code of the response being built, [res.json(body)] sends
    it with that code.  Once a response has been sent its headers are
    gone: a second [res.json] throws [ERR_HTTP_HEADERS_SENT]
    ("Cannot set headers after they are sent to the client").  The
    response is a record of its current status code (200 when never
    set) and the list of responses sent so far; [res_json] answers
    [None] when it throws.  Lemmas: a [json] call sends exactly one
    response on a fresh object and throws after a send. *)

From S2P Require Import Prelude.

Module Express.

Section Response.
Context {Body : Type}.

Record Res := mk_res {
  res_code : N;
  res_sent : list (N * Body);
}.

(** A fresh response: [statusCode] defaults to 200, nothing sent. *)
Definition res_init : Res := mk_res 200 [].

(** [res.status(n)]: only the code of the response being built. *)
Definition res_status (n : N) (r : Res) : Res := mk_res n (res_sent r).

(** [res.json(b)]: sends [b] with the current code, or throws when a
    response already left. *)
Definition res_json (b : Body) (r : Res) : option Res :=
  match res_sent r with
  | [] => Some (mk_res (res_code r) [(res_code r, b)])
  | _ :: _ => None
  end.

Lemma res_json_sent b r r' :
  res_json b r = Some r' -> res_sent r = [] /\ res_sent r' = [(res_code r, b)].
Proof. unfold res_json. destruct (res_sent r); [by intros [= <-]|discriminate]. Qed.

Lemma res_json_after_send b r :
  res_sent r <> [] -> res_json b r = None.
Proof. unfold res_json. by destruct (res_sent r). Qed.

End Response.

Arguments Res : clear implicits.

End Express.
