(* ===== verification/Github.v ===== *)
(** * Github: the repository lookup adapter, [GET /github/:username]

    Lines 286-311 of [routes/api/profile.js].  The handler builds the
    request options inside a [try] ([config.get] throws when a key is
    not configured, and the [catch] answers 500), hands them to
    [request] and returns; the callback runs later, outside the [try]:

    - it logs a transport [error] and goes on, reading
      [response.statusCode] although [response] is [undefined] then;
    - on a status other than 200 it sends 400 and does NOT return;
    - it then sends [JSON.parse(body)] with [res.json].

    An exception in the callback is uncaught: it escapes to the event
    loop ([Crashed]).  [JSON.parse] is a section variable [json_parse]
    ([None] is a [SyntaxError]): the theorems hold for any parser.  The
    upstream is a function [world] from the request options to its
    answer.  [query_params] reads the query a URI carries (after the
    first [?], before the first [#], cut at [&]), which is URL syntax,
    not code of the repository.  Theorems: the reply on a 200; the
    crash after the 400 on any other status; the crash without reply
    on a transport error; the 500 on a missing configuration; at most
    one response in every case; the query of the request; and the
    injection of query parameters through the unencoded username. *)

From S2P Require Import Prelude JsString Express.

Local Open Scope string_scope.

Module Github.
Import Express.

(** The JSON values [JSON.parse] produces. *)
Inductive Json :=
| JsonNull
| JsonBool (b : bool)
| JsonNum (z : Z)
| JsonStr (s : string)
| JsonArr (l : list Json)
| JsonObj (l : list (string * Json)).

(** The bodies the route sends. *)
Inductive GhBody :=
| GhMsg (msg : string)
| GhText (s : string)
| GhJson (j : Json).

(** The exceptions of the route. *)
Inductive GhError :=
| ConfigUndefined (key : string)
| ReadPropertyOfUndefined (prop : string)
| HeadersSent
| SyntaxError.

(** [config]: the configured keys. *)
Definition Config := gmap string string.

(** [config.get(key)] throws on a key that is not configured. *)
Definition config_get (c : Config) (key : string) : GhError + string :=
  match c !! key with
  | Some v => inr v
  | None => inl (ConfigUndefined key)
  end.

Record Options := mk_options {
  opt_uri : string;
  opt_method : string;
  opt_user_agent : string;
}.

(** Lines 288-296: the template literal of [uri] and the options. *)
Definition options (c : Config) (username : string) : GhError + Options :=
  match config_get c "githubClientId" with
  | inl e => inl e
  | inr client_id =>
      match config_get c "githubSecret" with
      | inl e => inl e
      | inr secret =>
          inr (mk_options
                 ("https://api.github.com/users/" ++ username ++
                  "/repos?per_page=5&sort=created:asc&client_id=" ++ client_id ++
                  "&client_secret=" ++ secret)
                 "GET" "node.js")
      end
  end.

(** What [request] hands to the callback: a transport error (then
    [response] is [undefined]) or a response with its status and body. *)
Inductive Upstream :=
| UpError (e : string)
| UpResponse (status_code : N) (body : string).

(** The outcome of the route: it finished with the responses sent so
    far, or an exception escaped the callback after them. *)
Inductive GhOutcome :=
| Finished (r : Res GhBody)
| Crashed (e : GhError) (r : Res GhBody).

Definition gh_sent (o : GhOutcome) : list (N * GhBody) :=
  match o with Finished r => res_sent r | Crashed _ r => res_sent r end.

(** How the upstream reads a URI's query: the text after the first
    [?] and before the first [#], cut at every [&].  (URL syntax, not
    code of the repository: it is what the GitHub API receives.) *)
Definition qmark : Ascii.ascii := Ascii.ascii_of_nat 63.
Definition hash : Ascii.ascii := Ascii.ascii_of_nat 35.
Definition amp : Ascii.ascii := Ascii.ascii_of_nat 38.

Definition query_params (uri : string) : list string :=
  let after_q := match JsString.split qmark uri with
                 | _ :: t => JsString.join qmark t
                 | [] => "" end in
  let before_h := match JsString.split hash after_q with
                  | h :: _ => h
                  | [] => "" end in
  JsString.split amp before_h.

(** Text that no URL delimiter of the query cuts. *)
Definition url_plain (s : string) : bool :=
  negb (JsString.char_in qmark s || JsString.char_in hash s || JsString.char_in amp s).

(** Examples: a configuration, a parser for the bodies used below, and
    the options the route builds. *)
Definition ex_cfg : Config := <["githubClientId" := "cid"]> (<["githubSecret" := "sec"]> ∅).

Definition ex_parse (s : string) : option Json :=
  if String.eqb s "[]" then Some (JsonArr []) else
  if String.eqb s "{}" then Some (JsonObj []) else None.

Definition opts_of (c : Config) (u : string) : Options :=
  match options c u with inr o => o | inl _ => mk_options "" "" "" end.

Section Route.
Variable json_parse : string -> option Json.

(** Lines 298-306: the callback on the response object [r]. *)
Definition callback (up : Upstream) (r : Res GhBody) : GhOutcome :=
  match up with
  | UpError _ => Crashed (ReadPropertyOfUndefined "statusCode") r
  | UpResponse code body =>
      let r1 :=
        if N.eqb code 200 then Some r
        else res_json (GhMsg "No github profile found") (res_status 400 r) in
      match r1 with
      | None => Crashed HeadersSent r
      | Some r1 =>
          match json_parse body with
          | None => Crashed SyntaxError r1
          | Some j =>
              match res_json (GhJson j) r1 with
              | None => Crashed HeadersSent r1
              | Some r2 => Finished r2
              end
          end
      end
  end.

(** Lines 286-311: the synchronous part, then the callback with the
    answer [world o] of the upstream to the request [o] when it was
    issued. *)
Definition github (c : Config) (username : string) (world : Options -> Upstream) : GhOutcome :=
  match options c username with
  | inl _ =>
      match res_json (GhText "Server Error") (res_status 500 res_init) with
      | Some r => Finished r
      | None => Crashed HeadersSent res_init
      end
  | inr o => callback (world o) res_init
  end.

End Route.

(** ** Theorems *)

(** The options of an issued request: the template literal with the
    configured credentials. *)
Lemma options_query c u o :
  options c u = inr o ->
  exists id secret, c !! "githubClientId" = Some id /\ c !! "githubSecret" = Some secret /\
    opt_uri o = "https://api.github.com/users/" ++ u ++
                "/repos?per_page=5&sort=created:asc&client_id=" ++ id ++ "&client_secret=" ++ secret.
Proof.
  unfold options, config_get.
  destruct (c !! "githubClientId") as [id|]; [|discriminate].
  destruct (c !! "githubSecret") as [secret|]; [|discriminate].
  intros [= <-]. by exists id, secret.
Qed.

Lemma url_plain_spec s :
  url_plain s = true ->
  JsString.char_in qmark s = false /\ JsString.char_in hash s = false /\
  JsString.char_in amp s = false.
Proof. unfold url_plain. rewrite negb_true_iff, !orb_false_iff. tauto. Qed.

(** When the username and the credentials hold no
    [?], [#] or [&], the upstream receives exactly the query of the
    source: five repositories, the sort, the client id and secret. *)
Theorem github_query_params c u o id secret :
  options c u = inr o -> c !! "githubClientId" = Some id -> c !! "githubSecret" = Some secret ->
  url_plain u = true -> url_plain id = true -> url_plain secret = true ->
  query_params (opt_uri o) =
    ["per_page=5"; "sort=created:asc"; "client_id=" ++ id; "client_secret=" ++ secret].
Proof.
  intros Ho Hid Hsec Hu Hi Hs.
  destruct (options_query _ _ _ Ho) as (id' & secret' & Hid' & Hsec' & ->).
  rewrite Hid in Hid'; rewrite Hsec in Hsec'. injection Hid' as <-. injection Hsec' as <-.
  apply url_plain_spec in Hu as (Huq & Huh & _).
  apply url_plain_spec in Hi as (Hiq & Hih & Hia).
  apply url_plain_spec in Hs as (Hsq & Hsh & Hsa).
  set (Y := ("per_page=5" ++ String amp ("sort=created:asc" ++ String amp
              (("client_id=" ++ id) ++ String amp ("client_secret=" ++ secret))))%string).
  replace ("https://api.github.com/users/" ++ u ++ "/repos?per_page=5&sort=created:asc&client_id="
             ++ id ++ "&client_secret=" ++ secret)
    with (("https://api.github.com/users/" ++ u ++ "/repos") ++ String qmark Y)
    by (rewrite <- !JsString.string_app_assoc; reflexivity).
  assert (HY : forall a, a = qmark \/ a = hash ->
                 JsString.char_in a Y = false).
  { intros a Ha. subst Y.
    destruct Ha as [->| ->];
      JsString.char_in_simpl; rewrite ?Hiq, ?Hsq, ?Hih, ?Hsh; reflexivity. }
  unfold query_params.
  rewrite JsString.split_app_sep by (JsString.char_in_simpl; rewrite Huq; reflexivity).
  rewrite (JsString.split_no_sep qmark Y) by (apply HY; by left). cbn [JsString.join].
  rewrite (JsString.split_no_sep hash Y) by (apply HY; by right).
  subst Y. rewrite !JsString.split_app_sep; try reflexivity.
  - rewrite JsString.split_no_sep; [reflexivity|]. by rewrite JsString.char_in_app, Hsa.
  - by rewrite JsString.char_in_app, Hia.
Qed.

(** C14 (safety). The username is interpolated without encoding:
    Express decodes [%3F] and [%26] in the path parameter, so the
    username ["octocat?per_page=100&x="] makes the upstream receive
    [per_page=100] as the first parameter of the query. *)
Theorem github_username_injection c o :
  options c "octocat?per_page=100&x=" = inr o ->
  head (query_params (opt_uri o)) = Some "per_page=100".
Proof.
  intros Ho. destruct (options_query _ _ _ Ho) as (id & secret & _ & _ & ->).
  set (Z := ("x=/repos?per_page=5&sort=created:asc&client_id=" ++ id ++
             "&client_secret=" ++ secret)%string).
  change (head (query_params ("https://api.github.com/users/octocat" ++
            String qmark ("per_page=100&" ++ Z))) = Some "per_page=100").
  unfold query_params.
  rewrite JsString.split_app_sep by reflexivity. rewrite JsString.join_split.
  destruct (JsString.split_cons hash Z) as (h & t & Hz).
  rewrite JsString.split_app_nosep by reflexivity. rewrite Hz.
  change ("per_page=100&" ++ h)%string with ("per_page=100" ++ String amp h)%string.
  by rewrite JsString.split_app_sep.
Qed.

Section RouteProps.
Variable json_parse : string -> option Json.
Local Abbreviation github := (github json_parse).
Local Abbreviation callback := (callback json_parse).

Lemma github_issued c u world o :
  options c u = inr o -> github c u world = callback (world o) res_init.
Proof. unfold github. by intros ->. Qed.

(** C32 (functional). A 200 answer whose body parses is relayed
    verbatim: exactly one response, status 200, the parsed JSON. *)
Theorem github_ok c u world o body j :
  options c u = inr o -> world o = UpResponse 200 body -> json_parse body = Some j ->
  github c u world = Finished (mk_res 200 [(200%N, GhJson j)]).
Proof. intros Ho Hw Hj. rewrite (github_issued _ _ _ _ Ho), Hw. simpl. by rewrite Hj. Qed.

(** C10 (error). A non-200 answer sends the 400 envelope, but the
    callback does not return: [JSON.parse(body)] throws a SyntaxError
    or the second [res.json] throws [ERR_HTTP_HEADERS_SENT], and the
    exception escapes the callback. *)

Theorem github_not_200_crash c u world o code body :
  options c u = inr o -> world o = UpResponse code body -> code <> 200%N ->
  exists e, github c u world = Crashed e (mk_res 400 [(400%N, GhMsg "No github profile found")]) /\
            e = (if json_parse body then HeadersSent else SyntaxError).
Proof.
  intros Ho Hw Hc. rewrite (github_issued _ _ _ _ Ho), Hw. simpl.
  rewrite (proj2 (N.eqb_neq _ _) Hc). simpl.
  destruct (json_parse body); by eexists.
Qed.

(** C11 (error). A transport error sends nothing: reading
    [response.statusCode] on [undefined] throws in the callback, where
    the specification asks for a generic server error. *)

Theorem github_transport_error c u world o err :
  options c u = inr o -> world o = UpError err ->
  github c u world = Crashed (ReadPropertyOfUndefined "statusCode") res_init.
Proof. intros Ho Hw. by rewrite (github_issued _ _ _ _ Ho), Hw. Qed.

(** C33 (error). A missing client id or secret is caught by the
    handler's [try]: 500 ["Server Error"], no request issued. *)

Theorem github_config_missing c u world :
  c !! "githubClientId" = None \/ c !! "githubSecret" = None ->
  github c u world = Finished (mk_res 500 [(500%N, GhText "Server Error")]).
Proof.
  intros Hc. unfold github, options, config_get.
  destruct Hc as [-> | ->]; [done|]. by destruct (c !! "githubClientId").
Qed.

(** Whatever the configuration and the upstream answer,
    the route sends at most one response. *)

Theorem github_at_most_one_response c u world :
  length (gh_sent (github c u world)) <= 1.
Proof.
  unfold github. destruct (options c u) as [e|o]; [simpl; lia|].
  destruct (world o) as [err|code body]; simpl; [lia|].
  destruct (N.eqb code 200); simpl; destruct (json_parse body); simpl; lia.
Qed.

End RouteProps.

Lemma github_ok_witness :
  options ex_cfg "octocat" = inr (opts_of ex_cfg "octocat") /\
  ex_parse "[]" = Some (JsonArr []) /\
  github ex_parse ex_cfg "octocat" (fun _ => UpResponse 200 "[]") =
    Finished (mk_res 200 [(200%N, GhJson (JsonArr []))]).
Proof.
  assert (Ho : options ex_cfg "octocat" = inr (opts_of ex_cfg "octocat")) by (vm_compute; reflexivity).
  assert (Hj : ex_parse "[]" = Some (JsonArr [])) by reflexivity.
  split; [done|split; [done|]].
  exact (github_ok ex_parse ex_cfg "octocat" (fun _ => UpResponse 200 "[]") _ "[]" _ Ho eq_refl Hj).
Defined.

Lemma github_not_200_crash_witness :
  options ex_cfg "nobody" = inr (opts_of ex_cfg "nobody") /\ (404 <> 200)%N /\
  exists e, github ex_parse ex_cfg "nobody" (fun _ => UpResponse 404 "{}") =
              Crashed e (mk_res 400 [(400%N, GhMsg "No github profile found")]) /\
            e = (if ex_parse "{}" then HeadersSent else SyntaxError).
Proof.
  assert (Ho : options ex_cfg "nobody" = inr (opts_of ex_cfg "nobody")) by (vm_compute; reflexivity).
  assert (Hc : (404 <> 200)%N) by lia.
  split; [done|split; [done|]].
  exact (github_not_200_crash ex_parse ex_cfg "nobody" (fun _ => UpResponse 404 "{}") _ 404 "{}"
           Ho eq_refl Hc).
Defined.

Lemma github_transport_error_witness :
  options ex_cfg "octocat" = inr (opts_of ex_cfg "octocat") /\
  github ex_parse ex_cfg "octocat" (fun _ => UpError "ECONNREFUSED") =
    Crashed (ReadPropertyOfUndefined "statusCode") res_init.
Proof.
  assert (Ho : options ex_cfg "octocat" = inr (opts_of ex_cfg "octocat")) by (vm_compute; reflexivity).
  split; [done|].
  exact (github_transport_error ex_parse ex_cfg "octocat" (fun _ => UpError "ECONNREFUSED") _
           "ECONNREFUSED" Ho eq_refl).
Defined.

Lemma github_config_missing_witness :
  ((∅ : Config) !! "githubClientId" = None \/ (∅ : Config) !! "githubSecret" = None) /\
  github ex_parse ∅ "octocat" (fun _ => UpResponse 200 "[]") =
    Finished (mk_res 500 [(500%N, GhText "Server Error")]).
Proof.
  assert (Hc : (∅ : Config) !! "githubClientId" = None \/ (∅ : Config) !! "githubSecret" = None)
    by (left; reflexivity).
  split; [done|]. exact (github_config_missing ex_parse ∅ "octocat" _ Hc).
Defined.

Lemma github_query_params_witness :
  options ex_cfg "octocat" = inr (opts_of ex_cfg "octocat") /\
  ex_cfg !! "githubClientId" = Some "cid" /\ ex_cfg !! "githubSecret" = Some "sec" /\
  url_plain "octocat" = true /\ url_plain "cid" = true /\ url_plain "sec" = true /\
  query_params (opt_uri (opts_of ex_cfg "octocat")) =
    ["per_page=5"; "sort=created:asc"; "client_id=" ++ "cid"; "client_secret=" ++ "sec"].
Proof.
  assert (Ho : options ex_cfg "octocat" = inr (opts_of ex_cfg "octocat")) by (vm_compute; reflexivity).
  assert (Hi : ex_cfg !! "githubClientId" = Some "cid") by (vm_compute; reflexivity).
  assert (Hs : ex_cfg !! "githubSecret" = Some "sec") by (vm_compute; reflexivity).
  assert (Pu : url_plain "octocat" = true) by reflexivity.
  assert (Pi : url_plain "cid" = true) by reflexivity.
  assert (Ps : url_plain "sec" = true) by reflexivity.
  do 6 (split; [done|]).
  exact (github_query_params ex_cfg "octocat" _ "cid" "sec" Ho Hi Hs Pu Pi Ps).
Defined.

Lemma github_username_injection_witness :
  options ex_cfg "octocat?per_page=100&x=" = inr (opts_of ex_cfg "octocat?per_page=100&x=") /\
  head (query_params (opt_uri (opts_of ex_cfg "octocat?per_page=100&x="))) = Some "per_page=100".
Proof.
  assert (Ho : options ex_cfg "octocat?per_page=100&x=" =
               inr (opts_of ex_cfg "octocat?per_page=100&x=")) by (vm_compute; reflexivity).
  split; [done|]. exact (github_username_injection ex_cfg _ Ho).
Defined.

End Github.
