(* ===== verification/Alert.v ===== *)
(** * Alert: the [setAlert] thunk and its timer ([client/src/actions/alert.js])

    [setAlert(msg, alertType, timeout = 5000)] dispatches [SET_ALERT]
    with a fresh [uuidv4()] id, scrolls the window to the top and
    schedules [REMOVE_ALERT] of that id after [timeout] milliseconds.
    The alert reducer is not under [src/]; it is modelled as the
    conventional one of this code base: [SET_ALERT] appends the alert,
    [REMOVE_ALERT] keeps the alerts of another id.  The client runtime
    is a record of the alert list, the pending timers (due time and
    alert id), the clock, a fresh-id counter standing for [uuidv4] and
    the scroll position.  The counter takes [uuidv4]'s ids as never
    colliding (122 random bits each); the distinct-ids theorem rests on
    it.  Events are new alerts and the passing of
    time; a tick fires every timer that has come due.  Theorems: an
    alert is displayed exactly until its timeout has elapsed, whatever
    other alerts are raised and however time advances; the alerts
    shown always have distinct ids and pending timers, so waiting past
    every timer clears them. *)

From S2P Require Import Prelude.

Local Open Scope string_scope.

Module Alert.

Record Alert := mk_alert { al_msg : string; al_type : string; al_id : N }.

(** The actions of [actions/types] this file dispatches. *)
Inductive Action := SET_ALERT (a : Alert) | REMOVE_ALERT (id : N).

(** The alert reducer. *)
Definition alert_reducer (st : list Alert) (act : Action) : list Alert :=
  match act with
  | SET_ALERT a => st ++ [a]
  | REMOVE_ALERT id => filter (fun a => al_id a <> id) st
  end.

Record Runtime := mk_rt {
  alerts : list Alert;
  timers : list (N * N);
  now : N;
  uuid : N;
  scroll_top : N;
}.

Definition dispatch (rt : Runtime) (act : Action) : Runtime :=
  mk_rt (alert_reducer (alerts rt) act) (timers rt) (now rt) (uuid rt) (scroll_top rt).

(** Lines 4-24: [setAlert(msg, alertType, timeout)(dispatch)]: a
    fresh id, [SET_ALERT], [window.scrollTo] the top, then the timer. *)
Definition set_alert (msg alert_type : string) (timeout : N) (rt : Runtime) : Runtime :=
  let id := uuid rt in
  let rt1 := dispatch rt (SET_ALERT (mk_alert msg alert_type id)) in
  mk_rt (alerts rt1) (timers rt1 ++ [((now rt1 + timeout)%N, id)]) (now rt1) (N.succ id) 0.

(** The default argument [timeout = 5000]. *)
Definition set_alert_default (msg alert_type : string) (rt : Runtime) : Runtime :=
  set_alert msg alert_type 5000 rt.

(** [dt] milliseconds pass: the timers due by then fire, each
    dispatching [REMOVE_ALERT] of its id. *)
Definition tick (dt : N) (rt : Runtime) : Runtime :=
  let t := (now rt + dt)%N in
  let due := filter (fun tm => (tm.1 <= t)%N) (timers rt) in
  let rest := filter (fun tm => ~ (tm.1 <= t)%N) (timers rt) in
  let st := foldl (fun st tm => alert_reducer st (REMOVE_ALERT tm.2)) (alerts rt) due in
  mk_rt st rest t (uuid rt) (scroll_top rt).

Inductive Event := EvAlert (msg alert_type : string) (timeout : N) | EvTick (dt : N).

Definition event_step (rt : Runtime) (ev : Event) : Runtime :=
  match ev with
  | EvAlert m ty d => set_alert m ty d rt
  | EvTick dt => tick dt rt
  end.

Definition run_events (rt : Runtime) (evs : list Event) : Runtime := foldl event_step rt evs.

Definition elapsed (evs : list Event) : N :=
  foldr (fun ev acc => match ev with EvTick dt => (dt + acc)%N | _ => acc end) 0%N evs.

(** The runtime when the page loads. *)
Definition rt_init : Runtime := mk_rt [] [] 0 0 0.

(** Every id in use was issued by the counter. *)
Definition rt_wf (rt : Runtime) : Prop :=
  Forall (fun a => (al_id a < uuid rt)%N) (alerts rt) /\
  Forall (fun tm => (tm.2 < uuid rt)%N) (timers rt).

(** The runtime's invariant: the alerts shown have distinct ids issued
    by the counter, and each has a pending timer that is not yet past. *)
Definition alerts_wf (rt : Runtime) : Prop :=
  NoDup (map al_id (alerts rt)) /\ rt_wf rt /\
  forall a, a ∈ alerts rt -> exists due, (due, al_id a) ∈ timers rt /\ (now rt <= due)%N.

(** A wait longer than every pending timer. *)
Definition wait_all (rt : Runtime) : N := foldr (fun tm acc => (tm.1 + acc)%N) 0%N (timers rt).

(** ** Lemmas *)

Lemma elem_of_remove_all (id : N) (st : list Alert) (due : list (N * N)) :
  id ∈ map al_id (foldl (fun st tm => alert_reducer st (REMOVE_ALERT tm.2)) st due) <->
  id ∈ map al_id st /\ id ∉ map snd due.
Proof.
  revert st. induction due as [|tm due IH]; intros st; simpl.
  - split; [intros H; split; [done|apply not_elem_of_nil]|tauto].
  - rewrite IH, elem_of_cons. split.
    + intros [Hin Hn]. apply list_elem_of_fmap in Hin as (a & -> & Ha).
      apply list_elem_of_filter in Ha as [Hne Ha]. split; [apply list_elem_of_fmap; by exists a|].
      intros [Heq|Hin]; [done|by apply Hn].
    + intros [Hin Hn]. split; [|intros H; apply Hn; by right].
      apply list_elem_of_fmap in Hin as (a & -> & Ha). apply list_elem_of_fmap. exists a.
      split; [done|]. apply list_elem_of_filter. split; [|done]. intros Heq. apply Hn. by left.
Qed.

Lemma now_run_events rt evs : now (run_events rt evs) = (now rt + elapsed evs)%N.
Proof.
  revert rt. induction evs as [|[m ty d|dt] evs IH]; intros rt; simpl; [lia| |].
  - unfold run_events in *. simpl. rewrite IH. simpl. lia.
  - unfold run_events in *. simpl. rewrite IH. simpl. lia.
Qed.

Section Tracked.
(** The alert [id] whose timer is due at [due]. *)
Variables (id due : N).

Definition tracked (rt : Runtime) : Prop :=
  (id ∈ map al_id (alerts rt) <-> (now rt < due)%N) /\
  (forall tm, tm ∈ timers rt -> tm.2 = id -> tm.1 = due) /\
  ((now rt < due)%N -> (due, id) ∈ timers rt) /\
  (id < uuid rt)%N.

Lemma tracked_set_alert rt m ty d : tracked rt -> tracked (set_alert m ty d rt).
Proof.
  intros (Hal & Htm & Hpend & Hid). unfold tracked, set_alert, dispatch. simpl.
  repeat split.
  - rewrite map_app, elem_of_app, Hal. simpl. rewrite list_elem_of_singleton.
    intros [H|H]; [done|lia].
  - rewrite map_app, elem_of_app, Hal. tauto.
  - intros tm Htm'. rewrite elem_of_app, list_elem_of_singleton in Htm'.
    destruct Htm' as [Htm'| ->]; [by apply Htm|simpl; lia].
  - intros Hlt. rewrite elem_of_app. left. by apply Hpend.
  - lia.
Qed.

Lemma tracked_tick rt dt : tracked rt -> tracked (tick dt rt).
Proof.
  intros (Hal & Htm & Hpend & Hid). unfold tracked, tick. simpl.
  set (t := (now rt + dt)%N).
  set (due_l := filter (fun tm => (tm.1 <= t)%N) (timers rt)).
  repeat split.
  - rewrite elem_of_remove_all. intros [Hin Hn].
    apply Hal in Hin. destruct (N.lt_ge_cases t due) as [?|Hge]; [done|].
    exfalso. apply Hn. apply list_elem_of_fmap. exists (due, id). split; [done|].
    apply list_elem_of_filter. split; [simpl; lia|by apply Hpend].
  - intros Hlt. rewrite elem_of_remove_all. split; [apply Hal; lia|].
    intros Hin. apply list_elem_of_fmap in Hin as (tm & Htmid & Hin).
    apply list_elem_of_filter in Hin as [Hle Hin].
    rewrite (Htm tm Hin (eq_sym Htmid)) in Hle. lia.
  - intros tm Hin. apply list_elem_of_filter in Hin as [_ Hin]. by apply Htm.
  - intros Hlt. apply list_elem_of_filter. split; [simpl; lia|]. apply Hpend. lia.
  - done.
Qed.

Lemma tracked_run_events rt evs : tracked rt -> tracked (run_events rt evs).
Proof.
  revert rt. induction evs as [|ev evs IH]; intros rt H; [done|].
  apply IH. destruct ev; [by apply tracked_set_alert|by apply tracked_tick].
Qed.
End Tracked.

Lemma tracked_start rt m ty d :
  rt_wf rt -> (0 < d)%N -> tracked (uuid rt) (now rt + d) (set_alert m ty d rt).
Proof.
  intros [Hal Htm] Hd. unfold tracked, set_alert, dispatch. simpl. repeat split.
  - intros _. lia.
  - intros _. rewrite map_app, elem_of_app. right. simpl. by apply list_elem_of_singleton.
  - intros tm Hin Heq. rewrite elem_of_app, list_elem_of_singleton in Hin.
    destruct Hin as [Hin| ->]; [|done].
    rewrite Forall_forall in Htm. specialize (Htm tm Hin). lia.
  - intros _. rewrite elem_of_app, list_elem_of_singleton. by right.
  - lia.
Qed.

Lemma remove_all_sublist (st : list Alert) (due : list (N * N)) :
  foldl (fun st tm => alert_reducer st (REMOVE_ALERT tm.2)) st due `sublist_of` st.
Proof.
  revert st. induction due as [|tm due IH]; intros st; simpl; [done|].
  etransitivity; [apply IH|]. apply sublist_filter.
Qed.

Lemma alerts_wf_set_alert rt m ty d : alerts_wf rt -> alerts_wf (set_alert m ty d rt).
Proof.
  intros (Hnd & [Hal Htm] & Hpend). unfold alerts_wf, rt_wf, set_alert, dispatch. simpl.
  rewrite Forall_forall in Hal. rewrite Forall_forall in Htm. split; [|split; [split|]].
  - rewrite map_app. simpl. apply NoDup_app. split; [done|]. split; [|apply NoDup_singleton].
    intros x Hx ->%list_elem_of_singleton. apply list_elem_of_fmap in Hx as (a & Ha & Hin).
    specialize (Hal a Hin). lia.
  - apply Forall_app. split; [apply Forall_forall; intros a Ha; specialize (Hal a Ha); lia|].
    apply Forall_singleton. simpl. lia.
  - apply Forall_app. split; [apply Forall_forall; intros tm Htm'; specialize (Htm tm Htm'); lia|].
    apply Forall_singleton. simpl. lia.
  - intros a [Ha| ->%list_elem_of_singleton]%elem_of_app.
    + destruct (Hpend a Ha) as (due & Hin & Hle). exists due. rewrite elem_of_app. auto.
    + exists (now rt + d)%N. rewrite elem_of_app, list_elem_of_singleton. simpl. split; [by right|lia].
Qed.

Lemma alerts_wf_tick rt dt : alerts_wf rt -> alerts_wf (tick dt rt).
Proof.
  intros (Hnd & [Hal Htm] & Hpend). unfold alerts_wf, rt_wf, tick. simpl.
  pose proof (remove_all_sublist (alerts rt) (filter (fun tm => (tm.1 <= now rt + dt)%N) (timers rt)))
    as Hsub.
  split; [|split; [split|]].
  - exact (NoDup_map_sublist _ _ _ Hsub Hnd).
  - exact (Forall_sublist' _ _ _ Hsub Hal).
  - rewrite Forall_forall in Htm |- *. intros tm Htm'. apply Htm.
    by apply list_elem_of_filter in Htm' as [_ ?].
  - intros a Ha. pose proof (elem_of_sublist _ _ _ Ha Hsub) as Hold.
    destruct (Hpend a Hold) as (due & Hin & Hle).
    assert (Hid : al_id a ∈ map al_id (foldl (fun st tm => alert_reducer st (REMOVE_ALERT tm.2))
               (alerts rt) (filter (fun tm => (tm.1 <= now rt + dt)%N) (timers rt))))
      by (apply list_elem_of_fmap; by exists a).
    apply elem_of_remove_all in Hid as [_ Hn].
    exists due. destruct (N.le_gt_cases due (now rt + dt)) as [Hd|Hd].
    + exfalso. apply Hn, list_elem_of_fmap. exists (due, al_id a). split; [done|].
      by apply list_elem_of_filter.
    + split; [by apply list_elem_of_filter; simpl; split; [lia|]|lia].
Qed.

Lemma alerts_wf_run_events rt evs : alerts_wf rt -> alerts_wf (run_events rt evs).
Proof.
  revert rt. induction evs as [|ev evs IH]; intros rt H; [done|].
  apply IH. destruct ev; [by apply alerts_wf_set_alert|by apply alerts_wf_tick].
Qed.

Lemma wait_all_ge rt tm : tm ∈ timers rt -> (tm.1 <= wait_all rt)%N.
Proof.
  unfold wait_all. induction (timers rt) as [|tm' l IH]; simpl; intros Hin.
  - by apply not_elem_of_nil in Hin.
  - apply elem_of_cons in Hin as [->|Hin]; [lia|]. specialize (IH Hin). lia.
Qed.

(** C22 (invariant). Whatever alerts are raised and however time
    passes from page load, the alerts shown have distinct ids, each
    with a pending timer not yet past; so waiting past every timer
    clears the list: no alert stays forever. *)
Theorem alerts_invariant evs :
  alerts_wf (run_events rt_init evs) /\
  alerts (tick (wait_all (run_events rt_init evs)) (run_events rt_init evs)) = [].
Proof.
  assert (Hwf : alerts_wf (run_events rt_init evs))
    by (apply alerts_wf_run_events; split; [apply NoDup_nil_2|split; [split; constructor|intros a Ha; by apply not_elem_of_nil in Ha]]).
  split; [done|]. destruct Hwf as (_ & _ & Hpend).
  set (rt := run_events rt_init evs) in *. unfold tick. simpl.
  destruct (foldl _ _ _) as [|a l] eqn:E; [done|]. exfalso.
  assert (Ha : al_id a ∈ map al_id (a :: l)) by (simpl; apply elem_of_cons; by left).
  rewrite <- E in Ha. apply elem_of_remove_all in Ha as [Hold Hn].
  apply list_elem_of_fmap in Hold as (a' & Hid & Ha').
  destruct (Hpend a' Ha') as (due & Hin & _). apply Hn, list_elem_of_fmap.
  exists (due, al_id a'). rewrite Hid. split; [done|]. apply list_elem_of_filter.
  split; [|done]. simpl. pose proof (wait_all_ge rt _ Hin). simpl in *. lia.
Qed.

(** C34 (liveness). An alert raised with a positive timeout is displayed
    exactly until that much time has passed: whatever alerts are raised
    meanwhile and however the clock advances, it is in the list while
    less than [timeout] milliseconds have elapsed and gone afterwards. *)
Theorem alert_shown_until_timeout rt m ty d evs :
  rt_wf rt -> (0 < d)%N ->
  uuid rt ∈ map al_id (alerts (run_events (set_alert m ty d rt) evs)) <-> (elapsed evs < d)%N.
Proof.
  intros Hwf Hd.
  destruct (tracked_run_events _ _ _ evs (tracked_start rt m ty d Hwf Hd)) as [Hal _].
  rewrite Hal, now_run_events. simpl. lia.
Qed.

Lemma alert_shown_until_timeout_witness :
  rt_wf rt_init /\ (0 < 5000)%N /\
  (uuid rt_init ∈ map al_id (alerts (run_events (set_alert "Post cannot be empty" "danger" 5000 rt_init)
                                   [EvTick 3000; EvAlert "Comments cannot be empty" "danger" 5000;
                                    EvTick 2500])) <->
   (elapsed [EvTick 3000; EvAlert "Comments cannot be empty" "danger" 5000; EvTick 2500] < 5000)%N).
Proof.
  assert (Hwf : rt_wf rt_init) by (split; constructor).
  assert (Hd : (0 < 5000)%N) by lia.
  split; [done|split; [done|]]. exact (alert_shown_until_timeout rt_init _ _ 5000 _ Hwf Hd).
Defined.

End Alert.
