(* ===== verification/Client.v ===== *)
(** * Client: the post page, its comment items and the two post forms

    [components/posts/PostForm.js] and [components/post/CommentForm.js]
    hold the textarea's [text] in a state hook; submitting an empty
    text raises an alert through [setAlert] (the [Alert] file), any
    other text dispatches [addPost] / [addComment] and clears the
    field.  Both forms are one [FormSpec] record each: the alert message
    and the action built from the text, with the law that the action
    carries the text.  [components/post/Post.js] renders a spinner while
    loading, "Post not found" without a post, and otherwise one
    [CommentItem] per comment; [CommentItem.js] shows a Delete button
    when [!auth.loading && user === auth.user._id].  The auth state
    (its reducer is not under [src/]) is its [loading] flag and the
    id of the loaded user, [None] for a visitor without a session,
    where [auth.user] is [null].  Theorems: the forms never dispatch
    an empty text and dispatch each submitted text once; the Delete
    button appears only on the visitor's own comments; a visitor
    without a session cannot render a post that has a comment. *)

From S2P Require Import Prelude Alert.

Local Open Scope string_scope.

Module Client.
Import Alert.

(** The post actions of [actions/post] the components dispatch. *)
Inductive PostAction :=
| ADD_POST (text : string)
| ADD_COMMENT (post_id text : string)
| DELETE_COMMENT (post_id comment_id : string).

Definition action_text (a : PostAction) : string :=
  match a with ADD_POST t => t | ADD_COMMENT _ t => t | DELETE_COMMENT _ _ => "" end.

(** ** The two forms *)

(** What distinguishes the two forms, with the law that the dispatched
    action carries the submitted text. *)
Record FormSpec := mk_form_spec {
  empty_msg : string;
  on_valid : string -> PostAction;
  on_valid_text : forall t, action_text (on_valid t) = t;
}.

(** [PostForm]: [onSubmit], lines 12-20 of [PostForm.js]. *)
Definition post_form : FormSpec :=
  mk_form_spec "Post cannot be empty" ADD_POST (fun t => eq_refl).

(** [CommentForm postId]: [onSubmit], lines 12-20 of [CommentForm.js]. *)
Definition comment_form (post_id : string) : FormSpec :=
  mk_form_spec "Comments cannot be empty" (ADD_COMMENT post_id) (fun t => eq_refl).

Record FormState := mk_form {
  text : string;
  runtime : Runtime;
  dispatched : list PostAction;
}.

Inductive FormEvent := Change (v : string) | Submit | Wait (dt : N).

(** [onChange], [onSubmit] (after [e.preventDefault()]) and the time
    passing between them. *)
Definition form_step (fs : FormSpec) (st : FormState) (ev : FormEvent) : FormState :=
  match ev with
  | Change v => mk_form v (runtime st) (dispatched st)
  | Submit =>
      if String.eqb (text st) ""
      then mk_form (text st) (set_alert_default (empty_msg fs) "danger" (runtime st)) (dispatched st)
      else mk_form "" (runtime st) (dispatched st ++ [on_valid fs (text st)])
  | Wait dt => mk_form (text st) (tick dt (runtime st)) (dispatched st)
  end.

Definition run_form (fs : FormSpec) (st : FormState) (evs : list FormEvent) : FormState :=
  foldl (form_step fs) st evs.

(** [useState('')]. *)
Definition form_init (rt : Runtime) : FormState := mk_form "" rt [].

#[export] Instance FormEvent_eq_dec : EqDecision FormEvent.
Proof. solve_decision. Defined.

Definition count_submits (evs : list FormEvent) : nat :=
  length (filter (fun ev => ev = Submit) evs).

(** ** The post page *)

Record AuthState := mk_auth { auth_loading : bool; auth_user : option string }.

Record CommentData := mk_comment_data {
  cm_id : string;
  cm_user : string;
  cm_text : string;
  cm_name : string;
  cm_avatar : string;
  cm_date : string;
}.

Record PostData := mk_post_data {
  pd_id : string;
  pd_user : string;
  pd_comments : list CommentData;
}.

(** [state.post]: [{ post, loading }]. *)
Record PostState := mk_post_state { ps_post : option PostData; ps_loading : bool }.

(** Line 20 of [CommentItem.js]: [!auth.loading && user === auth.user._id];
    [None] when [auth.user] is [null] and [._id] throws. *)
Definition show_delete (auth : AuthState) (c : CommentData) : option bool :=
  if auth_loading auth then Some false
  else match auth_user auth with
       | None => None
       | Some uid => Some (String.eqb (cm_user c) uid)
       end.

(** Line 21: the click handler [deleteComment(postId, _id)]. *)
Definition on_delete_click (post_id : string) (c : CommentData) : PostAction :=
  DELETE_COMMENT post_id (cm_id c).

(** What a page shows; a rendered comment item carries its post id
    and whether its Delete button is shown. *)
Inductive View :=
| Spinner
| PostNotFound
| PostPage (post_id : string) (items : list (string * CommentData * bool)).

(** Lines 23-41 of [Post.js] with the items of [CommentItem.js]; [None]
    when rendering throws. *)
Definition render_post (auth : AuthState) (ps : PostState) : option View :=
  if ps_loading ps then Some Spinner
  else match ps_post ps with
       | None => Some PostNotFound
       | Some p =>
           match mapM (fun c => (fun b => (pd_id p, c, b)) <$> show_delete auth c)
                   (pd_comments p) with
           | Some items => Some (PostPage (pd_id p) items)
           | None => None
           end
       end.

(** ** Examples *)

Definition ex_c1 : CommentData :=
  mk_comment_data "c1" "u1" "Nice post" "Ann" "//gravatar.com/avatar/a" "2020-05-01T10:00:00.000Z".
Definition ex_c2 : CommentData :=
  mk_comment_data "c2" "u2" "Thanks" "Bob" "//gravatar.com/avatar/b" "2020-05-01T11:00:00.000Z".

Definition ex_post : PostData :=
  mk_post_data "p1" "u1" [ex_c1; ex_c2].
Definition ex_page : PostState := mk_post_state (Some ex_post) false.
Definition ex_auth : AuthState := mk_auth false (Some "u2").
Definition ex_typing : FormState := mk_form "Hello" rt_init [].

(** ** Theorems: the forms *)

Lemma form_step_dispatched fs st ev :
  dispatched (form_step fs st ev) = dispatched st \/
  (ev = Submit /\ text st <> "" /\ dispatched (form_step fs st ev) = (dispatched st ++ [on_valid fs (text st)])%list).
Proof.
  destruct ev; simpl; [by left| |by left].
  destruct (String.eqb_spec (text st) ""); [by left|right; auto].
Qed.

Lemma run_form_nonempty fs st evs :
  Forall (fun a => action_text a <> "") (dispatched st) ->
  Forall (fun a => action_text a <> "") (dispatched (run_form fs st evs)).
Proof.
  revert st. induction evs as [|ev evs IH]; intros st Hst; [done|]. apply IH.
  destruct (form_step_dispatched fs st ev) as [->|(_ & Hne & ->)]; [done|].
  apply Forall_app. split; [done|]. apply Forall_singleton. by rewrite on_valid_text.
Qed.

Lemma run_form_count fs st evs :
  length (dispatched (run_form fs st evs)) <= length (dispatched st) + count_submits evs.
Proof.
  revert st. induction evs as [|ev evs IH]; intros st; simpl; [lia|].
  unfold count_submits in *. rewrite filter_cons.
  etransitivity; [apply IH|].
  destruct (form_step_dispatched fs st ev) as [->|(-> & _ & ->)];
    [case_decide; simpl; lia|rewrite decide_True, length_app by done; simpl; lia].
Qed.

(** C35 (safety). Whatever the user types, clicks and waits, a form
    dispatches only non-empty texts, at most one action per submit. *)
Theorem form_dispatches_nonempty fs rt evs :
  Forall (fun a => action_text a <> "") (dispatched (run_form fs (form_init rt) evs)) /\
  length (dispatched (run_form fs (form_init rt) evs)) <= count_submits evs.
Proof.
  split; [by apply run_form_nonempty|]. apply (run_form_count fs (form_init rt) evs).
Qed.

(** A double click on Submit with a text sends it
    once: the first submit dispatches the action and clears the field,
    the second finds it empty and raises the form's alert. *)
Theorem form_double_submit fs st :
  text st <> "" ->
  run_form fs st [Submit; Submit] =
    mk_form "" (set_alert_default (empty_msg fs) "danger" (runtime st))
      (dispatched st ++ [on_valid fs (text st)])%list.
Proof.
  intros Ht. unfold run_form. simpl. by destruct (String.eqb_spec (text st) "").
Qed.

(** ** Theorems: the post page *)

Lemma show_delete_none auth c :
  show_delete auth c = None <-> auth_loading auth = false /\ auth_user auth = None.
Proof.
  unfold show_delete. destruct (auth_loading auth), (auth_user auth); naive_solver.
Qed.

(** C13 (error). Rendering a post throws exactly when it has a comment
    and the auth state is loaded without a user: [auth.user._id] on
    [null].  A visitor without a session cannot open a commented post. *)
Theorem render_post_crash auth ps :
  render_post auth ps = None <->
  ps_loading ps = false /\ auth_loading auth = false /\ auth_user auth = None /\
  exists p, ps_post ps = Some p /\ pd_comments p <> [].
Proof.
  unfold render_post. destruct (ps_loading ps); [naive_solver|].
  destruct (ps_post ps) as [p|]; [|naive_solver].
  destruct (mapM _ (pd_comments p)) eqn:Hm.
  - split; [done|]. intros (_ & Hl & Hu & p' & [= <-] & Hne).
    destruct (pd_comments p) as [|c cs] eqn:Hc; [done|].
    apply mapM_Some_1 in Hm. inversion Hm as [|? ? ? ? Hc1]; subst.
    unfold show_delete in Hc1. rewrite Hl, Hu in Hc1. discriminate.
  - apply mapM_None_1, Exists_exists in Hm as (c & Hc & Hn).
    destruct (show_delete auth c) eqn:Hs; [discriminate|].
    apply show_delete_none in Hs as [Hl Hu]. split; [intros _|done].
    do 3 (split; [done|]). exists p. split; [done|]. intros Hnil. rewrite Hnil in Hc.
    by apply not_elem_of_nil in Hc.
Qed.

(** Each rendered comment item: a comment of the post shown, with the
    post's id and the Delete decision of [show_delete]. *)
Lemma render_post_item auth ps pid items x c b :
  render_post auth ps = Some (PostPage pid items) -> (x, c, b) ∈ items ->
  exists p, ps_post ps = Some p /\ pid = pd_id p /\ x = pd_id p /\ c ∈ pd_comments p /\
            show_delete auth c = Some b.
Proof.
  unfold render_post. destruct (ps_loading ps); [discriminate|].
  destruct (ps_post ps) as [p|]; [|discriminate].
  destruct (mapM _ (pd_comments p)) as [its|] eqn:Hm; [|discriminate].
  intros [= <- <-] Hin. apply mapM_Some_1 in Hm.
  apply Forall2_flip in Hm. apply list_elem_of_lookup_1 in Hin as (i & Hi).
  destruct (Forall2_lookup_l _ _ _ i _ Hm Hi) as (y & Hy & Hrel).
  simpl in Hrel. destruct (show_delete auth y) as [b'|] eqn:Hs; [|by cbn in Hrel].
  cbn in Hrel. injection Hrel as Hpid Hyc Hb. subst.
  exists p. do 3 (split; [done|]). split; [by eapply list_elem_of_lookup_2|done].
Qed.

(** C36 (safety). A rendered Delete button belongs to one of the
    visitor's own comments, and its click deletes that comment of the
    post shown. *)
Theorem delete_button_only_own auth ps pid items post_id c :
  render_post auth ps = Some (PostPage pid items) -> (post_id, c, true) ∈ items ->
  auth_loading auth = false /\ auth_user auth = Some (cm_user c) /\
  exists p, ps_post ps = Some p /\ c ∈ pd_comments p /\
            on_delete_click post_id c = DELETE_COMMENT (pd_id p) (cm_id c).
Proof.
  intros Hr Hin. destruct (render_post_item _ _ _ _ _ _ _ Hr Hin) as (p & Hp & _ & -> & Hc & Hs).
  unfold show_delete in Hs. destruct (auth_loading auth); [discriminate Hs|].
  destruct (auth_user auth) as [uid|]; [|discriminate Hs].
  injection Hs as Hs. apply String.eqb_eq in Hs as ->.
  do 2 (split; [done|]). by exists p.
Qed.


(** ** Witnesses *)

Lemma form_double_submit_witness :
  text ex_typing <> "" /\
  run_form post_form ex_typing [Submit; Submit] =
    mk_form "" (set_alert_default (empty_msg post_form) "danger" (runtime ex_typing))
      (dispatched ex_typing ++ [on_valid post_form (text ex_typing)])%list.
Proof.
  assert (Ht : text ex_typing <> "") by discriminate.
  split; [done|]. exact (form_double_submit post_form ex_typing Ht).
Defined.

Lemma delete_button_only_own_witness :
  let v := render_post ex_auth ex_page in
  v = Some (PostPage "p1" [("p1", ex_c1, false);
                           ("p1", ex_c2, true)]) /\
  ("p1", ex_c2, true) ∈
    [("p1", ex_c1, false);
     ("p1", ex_c2, true)] /\
  auth_loading ex_auth = false /\ auth_user ex_auth = Some (cm_user (ex_c2)) /\
  exists p, ps_post ex_page = Some p /\ ex_c2 ∈ pd_comments p /\
    on_delete_click "p1" (ex_c2) =
      DELETE_COMMENT (pd_id p) (cm_id (ex_c2)).
Proof.
  intros v. assert (Hv : v = Some (PostPage "p1" [("p1", ex_c1, false);
                           ("p1", ex_c2, true)])) by (vm_compute; reflexivity).
  assert (Hin : ("p1", ex_c2, true) ∈
    [("p1", ex_c1, false);
     ("p1", ex_c2, true)]) by (right; left).
  split; [done|split; [done|]].
  exact (delete_button_only_own ex_auth ex_page _ _ "p1" _ Hv Hin).
Defined.

End Client.
