(* ===== verification/Links.v ===== *)
(** * Links: the link targets of the dashboard actions and the comment
    items ([client/src/components/dashboard/DashboardActions.js],
    [client/src/components/post/CommentItem.js] line 12)

    A [<Link to={t}>] of React Router navigates to
    [createLocation(t, null, null, currentLocation)]: an absolute [t]
    is taken as is, a relative one is resolved against the current path
    by [resolvePathname] (package [resolve-pathname]), which drops the
    last segment of the current path, appends the segments of [t] and
    removes the dot segments.  The comment item links to the absolute
    [/profile/${user}]; the four dashboard actions link to the relative
    [profile/${id}], [edit-profile], [add-experience] and
    [add-education].  Theorems: a relative target made of plain
    segments replaces the last segment of the current path; so the
    dashboard actions reach [/profile/<id>] and [/edit-profile] from
    [/dashboard], but [/dashboard/profile/<id>] and
    [/dashboard/edit-profile] from [/dashboard/]. *)

From S2P Require Import Prelude JsString Client.

Local Open Scope string_scope.

Module Links.
Import JsString Client.

Definition slash : Ascii.ascii := Ascii.ascii_of_nat 47.

(** [pathname.charAt(0) === '/']. *)
Definition is_absolute (s : string) : bool :=
  match first_char s with Some a => Ascii.eqb a slash | None => false end.

(** The backward loop of [resolvePathname]: from the last segment to
    the first, [.] is removed, [..] is removed and counted, and a
    segment is removed while the count is positive. *)
Fixpoint remove_dots (parts : list string) : list string * nat :=
  match parts with
  | [] => ([], 0%nat)
  | p :: ps =>
      let '(kept, up) := remove_dots ps in
      if String.eqb p "." then (kept, up)
      else if String.eqb p ".." then (kept, S up)
      else match up with
           | O => (p :: kept, O)
           | S u => (kept, u)
           end
  end.

(** [resolvePathname(to, from)]. *)
Definition resolve_pathname (to from : string) : string :=
  let to_parts := if String.eqb to "" then [] else split slash to in
  let from_parts := if String.eqb from "" then [] else split slash from in
  let must_end_abs := is_absolute to || is_absolute from in
  let parts :=
    if is_absolute to then to_parts
    else match to_parts with
         | [] => from_parts
         | _ => (removelast from_parts ++ to_parts)%list
         end in
  match parts with
  | [] => "/"
  | _ =>
      let has_trailing_slash :=
        match last parts with
        | Some l => String.eqb l "." || String.eqb l ".." || String.eqb l ""
        | None => false
        end in
      let '(kept, up) := remove_dots parts in
      let kept := if must_end_abs then kept else (replicate up ".." ++ kept)%list in
      let kept :=
        if must_end_abs && negb (bool_decide (head kept = Some "")) then "" :: kept else kept in
      let result := join slash kept in
      if has_trailing_slash && negb (bool_decide (last_char result = Some slash))
      then result ++ "/" else result
  end.

(** [createLocation(to, null, null, current).pathname] for a target
    without search or hash: an empty target stays on the current path,
    an absolute one is taken as is. *)
Definition link_target (to current : string) : string :=
  if String.eqb to "" then current
  else if is_absolute to then to
  else resolve_pathname to current.

(** Lines 7-16 of [DashboardActions.js], in order. *)
Definition dashboard_links (id : string) : list string :=
  ["profile/" ++ id; "edit-profile"; "add-experience"; "add-education"].

(** Line 12 of [CommentItem.js]: [to={`/profile/${user}`}]. *)
Definition comment_profile_link (c : CommentData) : string := "/profile/" ++ cm_user c.


(** A path segment that is neither empty nor a dot segment. *)
Definition plain (s : string) : Prop :=
  s <> "" /\ s <> "." /\ s <> ".." /\ char_in slash s = false.

#[export] Instance plain_dec s : Decision (plain s).
Proof. unfold plain. solve_decision. Defined.

(** ** Lemmas *)

Lemma remove_dots_none ps :
  Forall (fun s => s <> "." /\ s <> "..") ps -> remove_dots ps = (ps, 0%nat).
Proof.
  induction ps as [|p ps IH]; intros Hps; [done|]. apply Forall_cons in Hps as [[Hd Hdd] Hps].
  simpl. rewrite IH by done. by rewrite (proj2 (String.eqb_neq _ _) Hd), (proj2 (String.eqb_neq _ _) Hdd).
Qed.

Lemma first_char_app x y : x <> "" -> first_char (x ++ y) = first_char x.
Proof. by destruct x. Qed.

Lemma join_first_char c x l : x <> "" -> first_char (join c (x :: l)) = first_char x.
Proof. intros Hx. destruct l; [done|]. rewrite join_cons by done. by apply first_char_app. Qed.

Lemma plain_pieces l : Forall plain l -> Forall (fun t => char_in slash t = false) l.
Proof. intros Hl. apply (Forall_impl _ _ _ Hl). by intros s (_ & _ & _ & H). Qed.

Lemma plain_not_dot l : Forall plain l -> Forall (fun s => s <> "." /\ s <> "..") l.
Proof. intros Hl. apply (Forall_impl _ _ _ Hl). by intros s (_ & H1 & H2 & _). Qed.

Lemma plain_not_absolute t l : plain t -> is_absolute (join slash (t :: l)) = false.
Proof.
  intros (Hne & _ & _ & Hs). unfold is_absolute. rewrite join_first_char by done.
  destruct t as [|a t]; [done|]. simpl in Hs |- *. by apply orb_false_iff in Hs as [-> _].
Qed.

Lemma join_not_empty t l : t <> "" -> join slash (t :: l) <> "".
Proof.
  intros Ht Hj. apply (f_equal first_char) in Hj. rewrite join_first_char in Hj by done.
  by destruct t.
Qed.

Lemma join_abs l : l <> [] -> join slash ("" :: l) = String slash (join slash l).
Proof. intros Hl. by rewrite join_cons. Qed.

(** A relative target of plain segments replaces the last segment of
    an absolute current path. *)
Lemma link_target_relative dir last_seg t to :
  Forall plain dir -> char_in slash last_seg = false -> Forall plain (t :: to) ->
  link_target (join slash (t :: to)) (join slash ("" :: dir ++ [last_seg])) =
    join slash ("" :: dir ++ t :: to).
Proof.
  intros Hdir Hlast Hto. pose proof (Forall_inv Hto) as Ht.
  assert (Hfrom : Forall (fun s => char_in slash s = false) ("" :: dir ++ [last_seg])).
  { constructor; [done|]. apply Forall_app. split; [by apply plain_pieces|by constructor]. }
  unfold link_target, resolve_pathname.
  rewrite (proj2 (String.eqb_neq _ _) (join_not_empty t to (proj1 Ht))), plain_not_absolute by done.
  rewrite (split_join slash (t :: to)) by (done || by apply plain_pieces).
  rewrite (split_join slash ("" :: dir ++ [last_seg])) by done.
  rewrite join_abs by (by destruct dir). cbn [String.eqb is_absolute first_char orb].
  rewrite app_comm_cons, removelast_last, <- app_comm_cons. cbv zeta.
  assert (Hl : last ("" :: dir ++ t :: to) = last (t :: to)).
  { rewrite app_comm_cons, last_app. by destruct (last (t :: to)) eqn:E; [|apply last_None in E]. }
  destruct (last (t :: to)) as [l|] eqn:E; [|by apply last_None in E].
  apply last_Some_elem_of in E. rewrite Forall_forall in Hto.
  destruct (Hto l E) as (Hne & Hd & Hdd & _). rewrite Hl.
  rewrite (proj2 (String.eqb_neq _ _) Hd), (proj2 (String.eqb_neq _ _) Hdd),
    (proj2 (String.eqb_neq _ _) Hne).
  rewrite remove_dots_none.
  - simpl. reflexivity.
  - constructor; [split; discriminate|]. apply Forall_app. split; apply plain_not_dot;
      [done|]. by apply Forall_forall.
Qed.

(** [resolve_links dir last_seg] resolves the link targets written as
    joined plain segments against [join slash ("" :: dir ++ [last_seg])]. *)
Ltac resolve_links dir last_seg :=
  repeat match goal with
  | |- context [link_target (join slash (?t :: ?to)) _] =>
      rewrite (link_target_relative dir last_seg t to)
        by (repeat match goal with
                   | |- Forall _ [] => constructor
                   | |- Forall _ (_ :: _) => apply Forall_cons_2
                   end; first [done | by_decide])
  end.

(** ** Theorems *)

(** C20 (functional). From [/dashboard], the page that renders them,
    the four dashboard actions lead to [/profile/<id>], [/edit-profile],
    [/add-experience] and [/add-education]; from the same page reached
    as [/dashboard/] they lead to paths under [/dashboard/], which no
    route serves.  The comment item's absolute profile link leads to
    the same page from everywhere. *)
Theorem dashboard_links_resolve id current c :
  plain id ->
  map (fun t => link_target t "/dashboard") (dashboard_links id) =
    ["/profile/" ++ id; "/edit-profile"; "/add-experience"; "/add-education"] /\
  map (fun t => link_target t "/dashboard/") (dashboard_links id) =
    ["/dashboard/profile/" ++ id; "/dashboard/edit-profile"; "/dashboard/add-experience";
     "/dashboard/add-education"] /\
  link_target (comment_profile_link c) current = comment_profile_link c.
Proof.
  intros Hid. cbn [map dashboard_links].
  change ("profile/" ++ id) with (join slash ["profile"; id]).
  change (link_target "edit-profile") with (link_target (join slash ["edit-profile"])).
  change (link_target "add-experience") with (link_target (join slash ["add-experience"])).
  change (link_target "add-education") with (link_target (join slash ["add-education"])).
  split; [|split].
  - change "/dashboard" with (join slash ("" :: [] ++ ["dashboard"])).
    resolve_links (@nil string) "dashboard". reflexivity.
  - change "/dashboard/" with (join slash ("" :: ["dashboard"] ++ [""])).
    resolve_links ["dashboard"] "". reflexivity.
  - reflexivity.
Qed.

(** ** Witnesses *)

Lemma dashboard_links_resolve_witness :
  plain "5f1c" /\
  map (fun t => link_target t "/dashboard") (dashboard_links "5f1c") =
    ["/profile/5f1c"; "/edit-profile"; "/add-experience"; "/add-education"] /\
  map (fun t => link_target t "/dashboard/") (dashboard_links "5f1c") =
    ["/dashboard/profile/5f1c"; "/dashboard/edit-profile"; "/dashboard/add-experience";
     "/dashboard/add-education"] /\
  link_target (comment_profile_link ex_c1) "/dashboard/" = "/profile/u1".
Proof.
  assert (Hid : plain "5f1c") by by_decide.
  destruct (dashboard_links_resolve "5f1c" "/dashboard/" ex_c1 Hid) as (H1 & H2 & H3).
  split; [done|split; [exact H1|split; [exact H2|exact H3]]].
Defined.

End Links.
