(* ===== verification/PostPage.v ===== *)
(** * PostPage: the props and effects of the post page
    ([client/src/components/post/Post.js], [CommentItem.js],
    [CommentForm.js], [posts/PostForm.js])

    The components declare the types of their props with [prop-types]
    ([X.propTypes = {...}]); in development React checks every element's
    props against them and logs each failed check.  The validators of
    the library are modelled on the runtime type of a value
    ([getPropType]: [typeof], with ["array"] for arrays) and their
    messages; a component's props are a map from names to values.
    [connect] fills the props of [mapStateToProps] and the bound action
    creators.  [Post] runs two effects after each committed render:
    [getPost(match.params.id)] when the id changed, and
    [getProfileById(post.user)] when the post object changed and has a
    user; React compares dependencies with [Object.is], which on objects
    is identity, so a post is a reference with its data.  A comment
    item renders as its profile link, avatar, name, text, relative date
    ([moment], a parameter) and Delete button.  Theorems: the
    [postId] every comment item receives is a string where [number] is
    declared; [Post] misses its required [profile] until a profile is
    loaded; the forms' props pass; [getPost] runs once for each change
    of the route's id; [getProfileById] runs again whenever the post
    object is replaced, even for the same author. *)

From S2P Require Import Prelude Alert Client Links.

Local Open Scope string_scope.

Module PostPage.
Import Client Links.

(** ** The [prop-types] validators *)

(** A value as the validators see it. *)
Inductive PropVal :=
| PVUndefined
| PVNull
| PVBool (b : bool)
| PVNum (z : Z)
| PVStr (s : string)
| PVArray
| PVObject
| PVFunc.

(** [getPropType]: [typeof], except ["array"] for arrays. *)
Definition prop_type (v : PropVal) : string :=
  match v with
  | PVUndefined => "undefined"
  | PVNull | PVObject => "object"
  | PVBool _ => "boolean"
  | PVNum _ => "number"
  | PVStr _ => "string"
  | PVArray => "array"
  | PVFunc => "function"
  end.

(** The primitive checkers [PropTypes.func], [.object], [.number],
    [.string], [.bool]. *)
Inductive Checker := PTFunc | PTObject | PTNumber | PTString | PTBool.

Definition expected_type (c : Checker) : string :=
  match c with
  | PTFunc => "function"
  | PTObject => "object"
  | PTNumber => "number"
  | PTString => "string"
  | PTBool => "boolean"
  end.

(** A declaration [name: PropTypes.c] or [name: PropTypes.c.isRequired]. *)
Record PropDecl := mk_decl { decl_name : string; decl_checker : Checker; decl_required : bool }.

Definition Props := gmap string PropVal.

Definition prop_get (props : Props) (name : string) : PropVal :=
  default PVUndefined (props !! name).

(** [createChainableTypeChecker] around [createPrimitiveTypeChecker]:
    a [null] or [undefined] value fails only a required declaration;
    any other value fails when its type is not the expected one. *)
Definition check_prop (comp : string) (props : Props) (d : PropDecl) : option string :=
  let v := prop_get props (decl_name d) in
  match v with
  | PVNull | PVUndefined =>
      if decl_required d then
        Some ("The prop `" ++ decl_name d ++ "` is marked as required in `" ++ comp ++
              "`, but its value is `" ++ (if v is PVNull then "null" else "undefined") ++ "`.")
      else None
  | _ =>
      if String.eqb (prop_type v) (expected_type (decl_checker d)) then None
      else Some ("Invalid prop `" ++ decl_name d ++ "` of type `" ++ prop_type v ++
                 "` supplied to `" ++ comp ++ "`, expected `" ++ expected_type (decl_checker d) ++ "`.")
  end.

(** [checkPropTypes]: the messages of the failed declarations, in
    declaration order. *)
Definition check_props (comp : string) (decls : list PropDecl) (props : Props) : list string :=
  omap (check_prop comp props) decls.

(** ** The declarations and the props the components receive *)

(** Lines 30-35 of [CommentItem.js]. *)
Definition comment_item_prop_types : list PropDecl :=
  [mk_decl "deleteComment" PTFunc true; mk_decl "auth" PTObject true;
   mk_decl "postId" PTNumber true; mk_decl "comment" PTObject true].

(** Lines 44-49 of [Post.js]. *)
Definition post_prop_types : list PropDecl :=
  [mk_decl "getPost" PTFunc true; mk_decl "post" PTObject true;
   mk_decl "profile" PTObject true; mk_decl "getProfileById" PTFunc true].

(** Lines 41-43 of [CommentForm.js] and of [PostForm.js]. *)
Definition comment_form_prop_types : list PropDecl := [mk_decl "addComment" PTFunc true].
Definition post_form_prop_types : list PropDecl := [mk_decl "addPost" PTFunc true].

(** Line 37 of [Post.js] with [connect] (lines 37-41 of
    [CommentItem.js]): the comment, [postId={post._id}] (the JSON id, a
    string), [auth] from the state and the bound [deleteComment]. *)
Definition comment_item_props (post_id : string) : Props :=
  <["deleteComment" := PVFunc]> (<["auth" := PVObject]>
    (<["postId" := PVStr post_id]> (<["comment" := PVObject]> ∅))).

(** Lines 51-56 of [Post.js]: [post] is the post slice (an object),
    [profile] is [state.profile.profile], [null] until a profile is
    loaded, and the two bound action creators. *)
Definition post_props (profile_loaded : bool) : Props :=
  <["getPost" := PVFunc]> (<["post" := PVObject]>
    (<["profile" := if profile_loaded then PVObject else PVNull]>
      (<["getProfileById" := PVFunc]> ∅))).

(** [connect(null, { addComment, setAlert })] and
    [connect(null, { addPost, setAlert })], with the [postId] of line
    34 of [Post.js] for the comment form. *)
Definition comment_form_props (post_id : string) : Props :=
  <["postId" := PVStr post_id]> (<["addComment" := PVFunc]> (<["setAlert" := PVFunc]> ∅)).
Definition post_form_props : Props :=
  <["addPost" := PVFunc]> (<["setAlert" := PVFunc]> ∅).

(** ** The effects of [Post] *)

(** A post object of the Redux state: its identity ([Object.is]
    compares objects by reference) and its data. *)
Record PostRef := mk_ref { ref_id : N; ref_data : PostData }.

(** The props of one render of [Post]: [match.params.id], the post
    slice [{ post, loading }] and whether a profile is loaded. *)
Record PostProps := mk_post_props {
  pp_id : string;
  pp_post : option PostRef;
  pp_loading : bool;
  pp_profile : bool;
}.

(** The dependencies each effect saw at the last committed render,
    [None] before the first.  [getPost] and [getProfileById] are bound
    once by [connect] and never change, so they are left out. *)
Record Hooks := mk_hooks { dep_id : option string; dep_post : option (option N) }.

Definition hooks_init : Hooks := mk_hooks None None.

(** The thunks the effects call. *)
Inductive Fetch := GetPost (id : string) | GetProfileById (user : string).

#[export] Instance Fetch_eq_dec : EqDecision Fetch.
Proof. solve_decision. Defined.

(** Lines 13-15: [getPost(match.params.id)] when the id changed. *)
Definition effect_get_post (h : Hooks) (pr : PostProps) : option string * list Fetch :=
  if decide (dep_id h = Some (pp_id pr)) then (dep_id h, [])
  else (Some (pp_id pr), [GetPost (pp_id pr)]).

(** Lines 17-21: when the post object changed,
    [if (post && post.user) getProfileById(post.user)]. *)
Definition effect_get_profile (h : Hooks) (pr : PostProps) : option (option N) * list Fetch :=
  let d := ref_id <$> pp_post pr in
  if decide (dep_post h = Some d) then (dep_post h, [])
  else (Some d, match pp_post pr with
                | Some r => if String.eqb (pd_user (ref_data r)) "" then []
                            else [GetProfileById (pd_user (ref_data r))]
                | None => []
                end).

Definition post_state_of (pr : PostProps) : PostState :=
  mk_post_state (ref_data <$> pp_post pr) (pp_loading pr).

(** One render of [Post] (lines 12-42): the view of [render_post] and,
    when the render commits, the two effects in their order.  A render
    that throws commits nothing. *)
Definition post_render (auth : AuthState) (h : Hooks) (pr : PostProps) :
    Hooks * list Fetch * option View :=
  match render_post auth (post_state_of pr) with
  | None => (h, [], None)
  | Some v =>
      let '(d1, r1) := effect_get_post h pr in
      let '(d2, r2) := effect_get_profile h pr in
      (mk_hooks d1 d2, (r1 ++ r2)%list, Some v)
  end.

(** Successive renders of a mounted page with the requests they issue.
    No error boundary is under [src/]: a render that throws unmounts
    the page and ends the run. *)
Fixpoint run_renders (auth : AuthState) (h : Hooks) (prs : list PostProps) : Hooks * list Fetch :=
  match prs with
  | [] => (h, [])
  | pr :: prs' =>
      match post_render auth h pr with
      | (h1, r1, Some _) => let '(h2, r2) := run_renders auth h1 prs' in (h2, (r1 ++ r2)%list)
      | (h1, r1, None) => (h1, r1)
      end
  end.

(** The ids of the [getPost] requests. *)
Definition get_posts (rs : list Fetch) : list string :=
  omap (fun r => match r with GetPost i => Some i | _ => None end) rs.

(** Reference: the ids of a sequence with consecutive repeats dropped,
    [prev] being the id seen before. *)
Fixpoint id_changes (prev : option string) (l : list string) : list string :=
  match l with
  | [] => []
  | x :: l' => if decide (prev = Some x) then id_changes prev l' else x :: id_changes (Some x) l'
  end.

(** ** A comment item as rendered *)

(** Lines 8-28 of [CommentItem.js]: the link to the author's profile
    around the avatar and the name, the text, the relative date and,
    when shown, the Delete button with its click. *)
Record ItemView := mk_item_view {
  iv_link : string;
  iv_avatar : string;
  iv_name : string;
  iv_text : string;
  iv_date : string;
  iv_delete : option PostAction;
}.

Section ItemView.
(** [moment(date).fromNow()], a function of the date (and the clock). *)
Variable from_now : string -> string.

(** [CommentItem] rendered for the post [post_id]; [None] when the
    render throws on [auth.user._id]. *)
Definition comment_item_view (auth : AuthState) (post_id : string) (c : CommentData) : option ItemView :=
  (fun b : bool => mk_item_view (comment_profile_link c) (cm_avatar c) (cm_name c) (cm_text c)
                         (from_now (cm_date c))
                         (if b then Some (on_delete_click post_id c) else None))
    <$> show_delete auth c.

(** Lines 35-39 of [Post.js]: the items of the comments, in order. *)
Definition comment_items (auth : AuthState) (p : PostData) : option (list ItemView) :=
  mapM (comment_item_view auth (pd_id p)) (pd_comments p).
End ItemView.

(** The failed prop checks of one render of the page: [Post]'s own
    props, then, on a post page, [CommentForm]'s and each
    [CommentItem]'s (React logs each distinct message once). *)
Definition page_check_failures (auth : AuthState) (pr : PostProps) : list string :=
  (check_props "Post" post_prop_types (post_props (pp_profile pr)) ++
  match render_post auth (post_state_of pr) with
  | Some (PostPage pid items) =>
      check_props "CommentForm" comment_form_prop_types (comment_form_props pid) ++
      mjoin (map (fun it => check_props "CommentItem" comment_item_prop_types
                              (comment_item_props it.1.1)) items)
  | _ => []
  end)%list.

(** ** Examples: a visit to the post page *)

Definition ex_c3 : CommentData :=
  mk_comment_data "c3" "u2" "Welcome" "Bob" "//gravatar.com/avatar/b" "2020-05-02T09:00:00.000Z".

(** The same post after a comment was added: a new object, same author. *)
Definition ex_post_commented : PostData :=
  mk_post_data "p1" "u1" (pd_comments ex_post ++ [ex_c3])%list.

(** Mount (the post slice still loading), the post loaded, the post
    replaced after a comment, then a navigation to another post. *)
Definition ex_renders : list PostProps :=
  [mk_post_props "p1" None true false;
   mk_post_props "p1" (Some (mk_ref 1 ex_post)) false false;
   mk_post_props "p1" (Some (mk_ref 2 ex_post_commented)) false true;
   mk_post_props "p2" (Some (mk_ref 2 ex_post_commented)) true true].

(** ** Lemmas *)

Lemma comment_item_postid_check post_id :
  check_props "CommentItem" comment_item_prop_types (comment_item_props post_id) =
    ["Invalid prop `postId` of type `string` supplied to `CommentItem`, expected `number`."].
Proof. vm_compute. reflexivity. Qed.

Lemma post_props_check loaded :
  check_props "Post" post_prop_types (post_props loaded) =
    if loaded then [] else ["The prop `profile` is marked as required in `Post`, but its value is `null`."].
Proof. destruct loaded; vm_compute; reflexivity. Qed.

Lemma comment_form_props_check pid :
  check_props "CommentForm" comment_form_prop_types (comment_form_props pid) = [].
Proof. vm_compute. reflexivity. Qed.

Lemma post_form_props_check :
  check_props "PostForm" post_form_prop_types post_form_props = [].
Proof. vm_compute. reflexivity. Qed.

Lemma mjoin_map_const {A B} (l : list A) (m : B) :
  mjoin (map (fun _ => [m]) l) = replicate (length l) m.
Proof. induction l as [|x l IH]; simpl; [done|]. by rewrite IH. Qed.

Lemma render_post_items_length auth ps p pid items :
  ps_post ps = Some p -> render_post auth ps = Some (PostPage pid items) ->
  length items = length (pd_comments p).
Proof.
  intros Hp. unfold render_post. rewrite Hp. destruct (ps_loading ps); [discriminate|].
  destruct (mapM _ (pd_comments p)) as [its|] eqn:Hm; [|discriminate].
  intros [= _ <-]. apply mapM_Some_1, Forall2_length in Hm. done.
Qed.

Lemma post_render_commit auth h pr v :
  render_post auth (post_state_of pr) = Some v ->
  post_render auth h pr =
    (mk_hooks (effect_get_post h pr).1 (effect_get_profile h pr).1,
     ((effect_get_post h pr).2 ++ (effect_get_profile h pr).2)%list, Some v).
Proof.
  intros Hv. unfold post_render. rewrite Hv.
  by destruct (effect_get_post h pr), (effect_get_profile h pr).
Qed.

Lemma get_posts_effect_get_profile h pr : get_posts (effect_get_profile h pr).2 = [].
Proof.
  unfold effect_get_profile. case_decide; [done|].
  destruct (pp_post pr) as [r|]; [|done]. simpl. by destruct (String.eqb _ _).
Qed.

Lemma get_profile_effect_get_post h pr u : GetProfileById u ∉ (effect_get_post h pr).2.
Proof.
  unfold effect_get_post. case_decide; simpl; [apply not_elem_of_nil|].
  rewrite list_elem_of_singleton. discriminate.
Qed.

(** Each rendered item belongs to its comment, in order: it links to
    the author's profile, shows the comment's name and text, and has a
    Delete button, deleting that comment of the post, exactly on the
    visitor's own comments. *)
Lemma comment_items_spec from_now auth p vs :
  comment_items from_now auth p = Some vs ->
  Forall2 (fun c v => iv_link v = "/profile/" ++ cm_user c /\ iv_name v = cm_name c /\
             iv_text v = cm_text c /\
             (iv_delete v = Some (DELETE_COMMENT (pd_id p) (cm_id c)) <->
              auth_loading auth = false /\ auth_user auth = Some (cm_user c)))
    (pd_comments p) vs.
Proof.
  intros Hm. apply mapM_Some_1 in Hm. apply (Forall2_impl _ _ _ _ Hm).
  intros c v Hv. unfold comment_item_view, show_delete in Hv.
  destruct (auth_loading auth).
  - injection Hv as <-. cbn. do 3 (split; [done|]). split; [discriminate|naive_solver].
  - destruct (auth_user auth) as [u|]; [|discriminate]. injection Hv as <-. cbn.
    do 3 (split; [done|]). destruct (String.eqb_spec (cm_user c) u) as [->|Hne].
    + split; [done|]. intros _. unfold on_delete_click. done.
    + split; [discriminate|]. intros [_ [= ->]]. done.
Qed.

(** ** Theorems: prop types *)

(** C17 (type). A rendered post page fails the prop types in exactly
    these checks: [Post]'s required [profile] while no profile is
    loaded, and the [postId] of every comment item, a string (the JSON
    [_id]) where [CommentItem] declares [PropTypes.number]; the comment
    form's props pass. *)
Theorem page_prop_type_failures auth pr r pid items :
  pp_post pr = Some r -> render_post auth (post_state_of pr) = Some (PostPage pid items) ->
  page_check_failures auth pr =
    ((if pp_profile pr then [] else ["The prop `profile` is marked as required in `Post`, but its value is `null`."]) ++
     replicate (length (pd_comments (ref_data r)))
       "Invalid prop `postId` of type `string` supplied to `CommentItem`, expected `number`.")%list.
Proof.
  intros Hr Hv. unfold page_check_failures. rewrite Hv, post_props_check, comment_form_props_check.
  f_equal. simpl. erewrite map_ext by (intros it; apply comment_item_postid_check).
  rewrite mjoin_map_const. f_equal. apply (render_post_items_length auth (post_state_of pr) _ pid).
  - unfold post_state_of. simpl. by rewrite Hr.
  - done.
Qed.

(** ** Theorems: effects *)

(** C19 (functional). Over renders that commit, [Post] requests
    [getPost] exactly once for each change of the route's id: the ids
    requested are the ids rendered with consecutive repeats dropped. *)
Theorem get_post_on_id_change auth h prs :
  Forall (fun pr => render_post auth (post_state_of pr) <> None) prs ->
  get_posts (run_renders auth h prs).2 = id_changes (dep_id h) (map pp_id prs).
Proof.
  revert h. induction prs as [|pr prs IH]; intros h Hall; [done|].
  apply Forall_cons in Hall as [Hpr Hall].
  destruct (render_post auth (post_state_of pr)) as [v|] eqn:Hv; [|done].
  simpl. rewrite (post_render_commit _ _ _ _ Hv).
  destruct (run_renders _ _ prs) as [h2 r2] eqn:Hrun. simpl.
  specialize (IH (mk_hooks (effect_get_post h pr).1 (effect_get_profile h pr).1) Hall).
  rewrite Hrun in IH. simpl in IH. unfold get_posts in *.
  rewrite !omap_app, IH. fold (get_posts (effect_get_profile h pr).2).
  rewrite get_posts_effect_get_profile. unfold effect_get_post in *. simpl.
  by case_decide.
Qed.

(** C18 (functional). A committed render requests [getProfileById u]
    exactly when the post shown is a different object from the one of
    the last committed render and its author [u] is not empty: a post
    replaced by a new object of the same author (after a comment is
    added or removed) fetches the author's profile again. *)
Theorem profile_fetch_on_new_post auth h pr u :
  render_post auth (post_state_of pr) <> None ->
  GetProfileById u ∈ (post_render auth h pr).1.2 <->
  exists r, pp_post pr = Some r /\ pd_user (ref_data r) = u /\ u <> "" /\
            dep_post h <> Some (Some (ref_id r)).
Proof.
  destruct (render_post auth (post_state_of pr)) as [v|] eqn:Hv; [intros _|done].
  rewrite (post_render_commit _ _ _ _ Hv). cbn [fst snd]. rewrite elem_of_app.
  pose proof (get_profile_effect_get_post h pr u). unfold effect_get_profile.
  destruct (pp_post pr) as [r|]; cbn [fmap option_fmap option_map].
  - case_decide as Hd; cbn [fst snd].
    + split; [intros [H'|H']; [done|by apply not_elem_of_nil in H']|].
      intros (r' & [= <-] & _ & _ & Hne). by rewrite Hd in Hne.
    + destruct (String.eqb_spec (pd_user (ref_data r)) "") as [He|He]; cbn [fst snd].
      * split; [intros [H'|H']; [done|by apply not_elem_of_nil in H']|].
        intros (r' & [= <-] & <- & Hu & _). by rewrite He in Hu.
      * rewrite list_elem_of_singleton. split.
        -- intros [H'|[= ->]]; [done|]. exists r. do 3 (split; [done|]). intros Heq. by rewrite Heq in Hd.
        -- intros (r' & [= <-] & <- & _). by right.
  - case_decide; simpl; split; try (intros [H'|H']; [done|by apply not_elem_of_nil in H']);
      intros (r' & Hr & _); discriminate.
Qed.

(** ** Witnesses *)

Lemma page_prop_type_failures_witness :
  pp_post (mk_post_props "p1" (Some (mk_ref 1 ex_post)) false false) = Some (mk_ref 1 ex_post) /\
  render_post ex_auth (post_state_of (mk_post_props "p1" (Some (mk_ref 1 ex_post)) false false)) =
    Some (PostPage "p1" [("p1", ex_c1, false);
                         ("p1", ex_c2, true)]) /\
  page_check_failures ex_auth (mk_post_props "p1" (Some (mk_ref 1 ex_post)) false false) =
    (["The prop `profile` is marked as required in `Post`, but its value is `null`."] ++
     replicate 2 "Invalid prop `postId` of type `string` supplied to `CommentItem`, expected `number`.")%list.
Proof.
  assert (Hr : pp_post (mk_post_props "p1" (Some (mk_ref 1 ex_post)) false false) = Some (mk_ref 1 ex_post))
    by reflexivity.
  assert (Hv : render_post ex_auth (post_state_of (mk_post_props "p1" (Some (mk_ref 1 ex_post)) false false)) =
    Some (PostPage "p1" [("p1", ex_c1, false);
                         ("p1", ex_c2, true)])) by (vm_compute; reflexivity).
  split; [done|split; [done|]]. exact (page_prop_type_failures _ _ _ _ _ Hr Hv).
Defined.

Lemma get_post_on_id_change_witness :
  Forall (fun pr => render_post ex_auth (post_state_of pr) <> None) ex_renders /\
  get_posts (run_renders ex_auth hooks_init ex_renders).2 = id_changes None (map pp_id ex_renders) /\
  id_changes None (map pp_id ex_renders) = ["p1"; "p2"].
Proof.
  assert (Hall : Forall (fun pr => render_post ex_auth (post_state_of pr) <> None) ex_renders)
    by (repeat constructor; intros Hn; vm_compute in Hn; discriminate Hn).
  split; [done|split; [exact (get_post_on_id_change ex_auth hooks_init ex_renders Hall)|]].
  vm_compute. reflexivity.
Defined.

Lemma profile_fetch_on_new_post_witness :
  render_post ex_auth (post_state_of (mk_post_props "p1" (Some (mk_ref 2 ex_post_commented)) false true)) <> None /\
  GetProfileById "u1" ∈
    (post_render ex_auth (run_renders ex_auth hooks_init (take 2 ex_renders)).1
       (mk_post_props "p1" (Some (mk_ref 2 ex_post_commented)) false true)).1.2 /\
  GetProfileById "u1" ∈ (run_renders ex_auth hooks_init (take 2 ex_renders)).2.
Proof.
  assert (Hv : render_post ex_auth (post_state_of (mk_post_props "p1" (Some (mk_ref 2 ex_post_commented)) false true)) <> None)
    by (intros Hn; vm_compute in Hn; discriminate Hn).
  split; [done|split].
  - apply (profile_fetch_on_new_post ex_auth _ _ "u1" Hv).
    exists (mk_ref 2 ex_post_commented). split; [done|]. split; [done|].
    split; [discriminate|]. vm_compute. discriminate.
  - by_decide.
Defined.

End PostPage.
