(* ===== verification/Server.v ===== *)
(** * Server: the bootstrap of [server.js]

    [server.js] creates an express application, reads the port from
    [process.env.PORT || 5000] and calls [app.listen(PORT, cb)].  No
    middleware and no router is registered, so every request falls to
    express's final handler, which answers 404 with
    ["Cannot <METHOD> <path>"].  Node registers [cb] as a listener of
    the server's ['listening'] event and calls it without arguments; a
    failure to bind (a port in use) is emitted as an ['error'] event,
    which has no listener and ends the process with an uncaught
    exception.  The environment variable is [undefined] or a string,
    and [||] keeps it when it is truthy.  The repository has no
    [package.json]; the model is Express 4, whose [app.listen] passes
    [cb] to Node's [server.listen] unchanged (Express 5 would also call
    [cb] with a bind error, which makes the ['ERROR'] branch live).
    Theorems: the port is the
    variable unless it is unset or empty, the callback's ['ERROR']
    branch is dead, a bind failure ends the process without a message,
    and no request reaches the profile routes. *)

From S2P Require Import Prelude JsValue Store ProfileRoutes.

Local Open Scope string_scope.

Module Server.
Import JsValue Store ProfileRoutes.

(** Line 5: [process.env.PORT || 5000]. *)
Definition port_of (env_port : option string) : JsVal :=
  let v := match env_port with Some s => JStr s | None => JUndefined end in
  if truthy v then v else JNum 5000.

(** Lines 7-12: the callback of [app.listen]. *)
Definition listen_callback (err : JsVal) (port : JsVal) : string :=
  if truthy err then "ERROR"
  else "Server running on port " ++ to_string port ++ "...".

(** What binding the port does. *)
Inductive ListenResult := Bound | BindError (code : string).

(** What the process shows: a console line, or the uncaught ['error']
    event that ends it. *)
Inductive Started := Logged (line : string) | Uncaught (code : string).

(** Lines 3-12: [express()], the port, [app.listen(PORT, cb)]; Node
    calls [cb()] on ['listening']. *)
Definition start (env_port : option string) (r : ListenResult) : Started :=
  let port := port_of env_port in
  match r with
  | Bound => Logged (listen_callback JUndefined port)
  | BindError code => Uncaught code
  end.

(** Line 3: the application with no routes; express's final handler
    answers every request. *)
Definition handle (method path : string) : Reply :=
  mk_reply 404 (BText ("Cannot " ++ method ++ " " ++ path)).

(** ** Theorems *)

Lemma port_of_spec env_port :
  port_of env_port = match env_port with Some s => if String.eqb s "" then JNum 5000 else JStr s
                                       | None => JNum 5000 end.
Proof. destruct env_port as [s|]; [|done]. unfold port_of. simpl. by destruct (String.eqb s ""). Qed.

(** C21 (error). Started with the variable [PORT] unset or empty, the
    server listens on 5000, otherwise on the variable's value, and
    logs that port once bound; the callback never logs ['ERROR'],
    because Node never passes it an error: a bind failure ends the
    process with the uncaught ['error'] event and no line.  Every
    request is answered 404 by express's final handler. *)
Theorem server_start_behaviour env_port r :
  start env_port r =
    match r with
    | Bound => Logged ("Server running on port " ++
                       match env_port with
                       | Some s => if String.eqb s "" then "5000" else s
                       | None => "5000"
                       end ++ "...")
    | BindError code => Uncaught code
    end /\
  start env_port r <> Logged "ERROR" /\
  (forall m p, status (handle m p) = 404%N).
Proof.
  assert (Hs : start env_port r = match r with
    | Bound => Logged ("Server running on port " ++
                       match env_port with
                       | Some s => if String.eqb s "" then "5000" else s
                       | None => "5000"
                       end ++ "...")
    | BindError code => Uncaught code
    end).
  { unfold start, listen_callback. rewrite port_of_spec. destruct r; [|done]. simpl.
    destruct env_port as [s|]; [|done]. by destruct (String.eqb s ""). }
  split; [done|split; [|done]]. rewrite Hs. destruct r; [|discriminate].
  by intros [=].
Qed.

End Server.
