(* ===== verification/ReduxStore.v ===== *)
(** * ReduxStore: the store of [client/src/store.js] with its middleware

    [store.js] creates the Redux store from the root reducer, the
    initial state [{}] and [applyMiddleware(thunk, reduxLogger)]
    (wrapped by [composeWithDevTools], the identity on the enhancer
    when the browser extension is absent).  A dispatched action passes
    the middleware in the order of the array: [redux-thunk] runs a
    function action with the store's own [dispatch], so the actions it
    dispatches pass the whole chain again, and hands any other action
    on; [redux-logger] records the state before, the action and the
    state after; the store's base [dispatch] applies the reducer, and
    throws on an action that is not a plain object.  The root reducer
    is not under [src/]; its alert slice is the reducer of the [Alert]
    file, and a thunk is given by the actions it dispatches, in order
    (the [setAlert] thunk dispatches [SET_ALERT]; its timer later
    dispatches [REMOVE_ALERT] as a plain action).  Theorem: the store
    never throws, its state is the reducer folded over the plain
    actions in the order the thunks dispatch them, and the log holds
    exactly these actions, each with the states before and after it;
    the alerts of the store after [setAlert] are those of the [Alert]
    runtime. *)

From S2P Require Import Prelude Alert.

Local Open Scope string_scope.

Module ReduxStore.
Import Alert.

(** An action reaching [dispatch]: a plain object, or a function (a
    thunk) given by the actions it dispatches. *)
Inductive Act :=
| Plain (a : Action)
| Thunk (body : list Act).

(** The middleware of [store.js]. *)
Inductive Middleware := MwThunk | MwLogger.

(** Line 9: [const middleware = [thunk, reduxLogger]]. *)
Definition middleware : list Middleware := [MwThunk; MwLogger].

(** A logger entry: prev state, action, next state. *)
Record LogEntry := mk_entry { prev_state : list Alert; logged : Act; next_state : list Alert }.

Record StoreState := mk_store { state : list Alert; log : list LogEntry }.

(** Line 7: [initialState = {}]: every slice starts from its reducer's
    default, the empty alert list. *)
Definition store_init : StoreState := mk_store [] [].

(** The base [dispatch] of [createStore]. *)
Definition base_dispatch (s : StoreState) (a : Act) : string + StoreState :=
  match a with
  | Plain act => inr (mk_store (alert_reducer (state s) act) (log s))
  | Thunk _ => inl "Actions must be plain objects. Use custom middleware for async actions."
  end.

(** Line 11: [dispatch] through [applyMiddleware(...mws)]: each
    middleware in order, the thunk one re-entering the whole chain for
    the actions of a function. *)
Fixpoint dispatch_with (mws : list Middleware) (s : StoreState) (a : Act) {struct a} : string + StoreState :=
  let fix chain (rest : list Middleware) (s : StoreState) : string + StoreState :=
    match rest with
    | [] => base_dispatch s a
    | MwThunk :: rest' =>
        match a with
        | Thunk body =>
            (fix go (body : list Act) (s : StoreState) : string + StoreState :=
               match body with
               | [] => inr s
               | b :: bs => match dispatch_with mws s b with
                            | inr s' => go bs s'
                            | inl e => inl e
                            end
               end) body s
        | Plain _ => chain rest' s
        end
    | MwLogger :: rest' =>
        match chain rest' s with
        | inr s' => inr (mk_store (state s') (log s' ++ [mk_entry (state s) a (state s')])%list)
        | inl e => inl e
        end
    end in
  chain mws s.

(** [store.dispatch]. *)
Definition store_dispatch (s : StoreState) (a : Act) : string + StoreState :=
  dispatch_with middleware s a.

(** The [setAlert(msg, alertType)] thunk, with the id [uuidv4] gave. *)
Definition set_alert_thunk (msg alert_type : string) (id : N) : Act :=
  Thunk [Plain (SET_ALERT (mk_alert msg alert_type id))].

(** ** Reference: the plain actions in dispatch order *)

Fixpoint plain_actions (a : Act) : list Action :=
  match a with
  | Plain act => [act]
  | Thunk body => (fix go (body : list Act) : list Action :=
                     match body with [] => [] | b :: bs => (plain_actions b ++ go bs)%list end) body
  end.

(** The log entries of a sequence of reducer steps from [st]. *)
Fixpoint log_of (st : list Alert) (acts : list Action) : list LogEntry :=
  match acts with
  | [] => []
  | act :: acts' => mk_entry st (Plain act) (alert_reducer st act) :: log_of (alert_reducer st act) acts'
  end.

(** ** Lemmas *)

(** Induction on actions, with a hypothesis for each action of a
    thunk. *)
Lemma Act_ind' (P : Act -> Prop) :
  (forall a, P (Plain a)) -> (forall body, Forall P body -> P (Thunk body)) -> forall a, P a.
Proof.
  intros Hp Ht.
  refine (fix IH (a : Act) : P a :=
            match a with
            | Plain x => Hp x
            | Thunk body => Ht body ((fix go (l : list Act) : Forall P l :=
                                        match l with
                                        | [] => List.Forall_nil _
                                        | b :: bs => List.Forall_cons _ _ _ (IH b) (go bs)
                                        end) body)
            end).
Qed.

Lemma dispatch_thunk_cons mws s b bs :
  dispatch_with mws s (Thunk (b :: bs)) =
    match mws with
    | MwThunk :: _ =>
        match dispatch_with mws s b with inr s' => dispatch_with mws s' (Thunk bs) | inl e => inl e end
    | _ => dispatch_with mws s (Thunk (b :: bs))
    end.
Proof. by destruct mws as [|[] ?]. Qed.

Lemma plain_actions_thunk_cons b bs :
  plain_actions (Thunk (b :: bs)) = (plain_actions b ++ plain_actions (Thunk bs))%list.
Proof. reflexivity. Qed.

Lemma log_of_app st l1 l2 :
  log_of st (l1 ++ l2) = (log_of st l1 ++ log_of (foldl alert_reducer st l1) l2)%list.
Proof. revert st. induction l1 as [|a l1 IH]; intros st; simpl; [done|]. by rewrite IH. Qed.

(** ** Theorems *)

(** The middleware of [store.js] run on an action: the fold of the
    reducer over its plain actions, each logged. *)
Lemma dispatch_with_middleware s a :
  dispatch_with middleware s a =
    inr (mk_store (foldl alert_reducer (state s) (plain_actions a))
                  (log s ++ log_of (state s) (plain_actions a))%list).
Proof.
  revert s. induction a as [act|body Hbody] using Act_ind'; intros s.
  - reflexivity.
  - revert s. induction body as [|b bs IHbs]; intros s; [by rewrite app_nil_r; destruct s|].
    apply Forall_cons in Hbody as [Hb Hbs].
    rewrite dispatch_thunk_cons. cbn [middleware]. rewrite Hb, (IHbs Hbs). cbn [state log].
    rewrite plain_actions_thunk_cons, foldl_app, log_of_app, app_assoc. reflexivity.
Qed.

(** C16 (refinement). Dispatching any action, plain or a thunk however
    nested, never throws: the store's state is the reducer folded over
    the plain actions in the order they are dispatched, and the logger
    has recorded exactly these actions, each with the state before and
    after it, and no function. *)
Theorem store_dispatch_refines s a :
  store_dispatch s a =
    inr (mk_store (foldl alert_reducer (state s) (plain_actions a))
                  (log s ++ log_of (state s) (plain_actions a))%list).
Proof. apply dispatch_with_middleware. Qed.

(** The alerts of the store after the [setAlert] thunk are those of the
    [Alert] runtime after [setAlert]. *)
Lemma store_set_alert rt s msg ty d :
  state s = alerts rt ->
  exists s', store_dispatch s (set_alert_thunk msg ty (uuid rt)) = inr s' /\
             state s' = alerts (set_alert msg ty d rt).
Proof.
  intros Hs. unfold store_dispatch. rewrite dispatch_with_middleware. eexists. split; [reflexivity|]. cbn. by rewrite Hs.
Qed.

End ReduxStore.
